(** * VulkanSample: the application base class [VulkanAppBase]

    A shallow embedding of [common/vkappbase.cpp] and of the entry point in
    [02_SimpleTriangle/main.cpp].  The graphics driver, the window system and
    the hooks of the derived application class are the environment: every call
    made to them is appended to a trace, and what they answer is read from a
    [Driver] record.  The member functions of [VulkanAppBase] are written in a
    small state-and-trap monad over that world. *)

From Stdlib Require Import ZArith List Bool Lia String.
From stdpp Require Import base list.

Set Primitive Projections.
Set Default Proof Using "Type".
Local Open Scope Z_scope.

(** ** Machine integers *)

(** [uint32_t]: arithmetic is modulo [2^32]. *)
Definition UINT32_MOD : Z := 4294967296.
Definition uint32_t (z : Z) : Z := z mod UINT32_MOD.
(** [~0u] *)
Definition UINT32_NOT0 : Z := 4294967295.
Definition UINT64_MAX : Z := 18446744073709551615.

(** ** Vulkan types and constants used by the code *)

Definition Handle := Z.
Definition VkResult := Z.
Definition VK_NULL_HANDLE : Handle := 0.
Definition VK_SUCCESS : VkResult := 0.
Definition VK_ERROR_DEVICE_LOST : VkResult := -4.
Definition VK_TRUE : Z := 1.

Definition VK_PRESENT_MODE_FIFO_KHR : Z := 2.
Definition VK_FORMAT_B8G8R8A8_UNORM : Z := 44.
Definition VK_FORMAT_D32_SFLOAT : Z := 126.
Definition VK_QUEUE_GRAPHICS_BIT : Z := 1.
Definition VK_COMMAND_POOL_CREATE_RESET_COMMAND_BUFFER_BIT : Z := 2.
Definition VK_IMAGE_USAGE_COLOR_ATTACHMENT_BIT : Z := 16.
Definition VK_IMAGE_USAGE_DEPTH_STENCIL_ATTACHMENT_BIT : Z := 32.
Definition VK_SHARING_MODE_EXCLUSIVE : Z := 0.
Definition VK_COMPOSITE_ALPHA_OPAQUE_BIT_KHR : Z := 1.
Definition VK_IMAGE_TYPE_2D : Z := 1.
Definition VK_IMAGE_VIEW_TYPE_2D : Z := 1.
Definition VK_SAMPLE_COUNT_1_BIT : Z := 1.
Definition VK_MEMORY_PROPERTY_DEVICE_LOCAL_BIT : Z := 1.
Definition VK_IMAGE_ASPECT_COLOR_BIT : Z := 1.
Definition VK_IMAGE_ASPECT_DEPTH_BIT : Z := 2.
Definition VK_COMMAND_BUFFER_LEVEL_PRIMARY : Z := 0.
Definition VK_FENCE_CREATE_SIGNALED_BIT : Z := 1.
Definition VK_SUBPASS_CONTENTS_INLINE : Z := 0.
Definition VK_PIPELINE_STAGE_COLOR_ATTACHMENT_OUTPUT_BIT : Z := 1024.
Definition VK_DEBUG_REPORT_WARNING_BIT_EXT : Z := 2.
Definition VK_DEBUG_REPORT_ERROR_BIT_EXT : Z := 8.
(** [VkPhysicalDeviceMemoryProperties::memoryTypes] is an array of this size. *)
Definition VK_MAX_MEMORY_TYPES : nat := 32.

Record VkExtent2D : Type := mkExtent { width : Z; height : Z }.

Record VkSurfaceFormatKHR : Type := mkSurfaceFormat { format : Z; colorSpace : Z }.

Record VkSurfaceCapabilitiesKHR : Type := mkSurfaceCaps {
  minImageCount : Z;
  currentExtent : VkExtent2D;
  currentTransform : Z
}.

Record VkMemoryType : Type := mkMemoryType { propertyFlags : Z; heapIndex : Z }.

Record VkPhysicalDeviceMemoryProperties : Type := mkMemProps {
  memoryTypeCount : Z;
  memoryTypes : list VkMemoryType
}.

Record VkMemoryRequirements : Type := mkMemReqs { size : Z; memoryTypeBits : Z }.

(** ** The environment: calls, trace and driver *)

(** The entry points of the driver and of the window library that the code
    calls. *)
Inductive VkFn : Type :=
| vkEnumerateInstanceExtensionProperties | vkCreateInstance
| vkEnumeratePhysicalDevices | vkGetPhysicalDeviceMemoryProperties
| vkGetPhysicalDeviceQueueFamilyProperties
| vkEnumerateDeviceExtensionProperties | vkCreateDevice | vkGetDeviceQueue
| vkCreateCommandPool | glfwCreateWindowSurface
| vkGetPhysicalDeviceSurfaceFormatsKHR
| vkGetPhysicalDeviceSurfaceCapabilitiesKHR
| vkGetPhysicalDeviceSurfaceSupportKHR
| glfwGetWindowSize | vkCreateSwapchainKHR
| vkCreateImage | vkGetImageMemoryRequirements | vkAllocateMemory
| vkBindImageMemory | vkGetSwapchainImagesKHR | vkCreateImageView
| vkCreateRenderPass | vkCreateFramebuffer | vkAllocateCommandBuffers
| vkCreateFence | vkCreateSemaphore
| vkGetInstanceProcAddr | vkCreateDebugReportCallbackEXT
| vkDestroyDebugReportCallbackEXT
| vkAcquireNextImageKHR | vkWaitForFences | vkBeginCommandBuffer
| vkCmdBeginRenderPass | vkCmdEndRenderPass | vkEndCommandBuffer
| vkResetFences | vkQueueSubmit | vkQueuePresentKHR
| vkDeviceWaitIdle | vkFreeCommandBuffers | vkDestroyRenderPass
| vkDestroyFramebuffer | vkDestroySwapchainKHR | vkDestroyFence
| vkDestroySemaphore | vkDestroyCommandPool | vkDestroySurfaceKHR
| vkDestroyDevice | vkDestroyInstance.

(** The virtual member functions that the derived application overrides.
    They are the application's; here a call of one is an event, and it leaves
    the members of [VulkanAppBase] as they are. *)
Inductive HookFn : Type := prepare | cleanup | makeCommand.

(** One entry of the trace.  [Call f args res outs]: entry point [f] was
    called with the scalar arguments and descriptor fields [args]; [res] is
    its [VkResult] ([None] for a [void] entry point); [outs] are the handles
    it wrote to its output parameters.  [Block fence]: the calling thread was
    suspended in a wait on [fence].  [DebugBreak]: the Win32 breakpoint
    trap. *)
Inductive Event : Type :=
| Call (f : VkFn) (args : list Z) (res : option VkResult) (outs : list Handle)
| Hook (h : HookFn) (args : list Z)
| Block (fence : Handle)
| DebugBreak.

(** What the environment answers.  The result code of a call and the image
    index handed out by an acquire may depend on everything that happened
    before; the enumerations are fixed.  A field named after a query holds
    what is found in the caller's output variable after the query. *)
Record Driver : Type := mkDriver {
  drv_result : list Event -> VkFn -> VkResult;
  drv_acquire : list Event -> Z;
  drv_instanceExtensions : list string;
  drv_physDevs : list Handle;
  drv_memProps : VkPhysicalDeviceMemoryProperties;
  drv_queueFamilies : list Z;
  drv_deviceExtensions : list string;
  drv_deviceQueue : Handle;
  drv_surfaceFormats : list VkSurfaceFormatKHR;
  drv_surfaceCaps : VkSurfaceCapabilitiesKHR;
  drv_windowSize : Z * Z;
  drv_memReqs : VkMemoryRequirements;
  drv_swapchainImages : list Handle;
  drv_procAddr : string -> Z
}.

(** The world: the trace so far, the next handle the driver gives out (the
    handles of created objects are pairwise distinct), and the fences that are
    in the signaled state. *)
Record World : Type := mkWorld {
  trace : list Event;
  next_handle : Handle;
  signaled : list Handle
}.

Definition log (evs : list Event) (w : World) : World :=
  mkWorld (trace w ++ evs) (next_handle w) (signaled w).

(** ** The monad *)

(** A member function either returns, or stops in [DebugBreak] (the
    breakpoint exception ends the process: the code installs no handler), or
    runs into undefined behaviour (an element access out of range, a call
    through a null function pointer). *)
Inductive Outcome (A : Type) : Type :=
| Ok (a : A) (w : World)
| Trap (w : World)
| Undefined (w : World).
Arguments Ok {A} a w.
Arguments Trap {A} w.
Arguments Undefined {A} w.

Definition M (A : Type) : Type := World -> Outcome A.

Definition ret {A} (a : A) : M A := fun w => Ok a w.

Definition bind {A B} (m : M A) (k : A -> M B) : M B :=
  fun w => match m w with
           | Ok a w1 => k a w1
           | Trap w1 => Trap w1
           | Undefined w1 => Undefined w1
           end.

Notation "x <- m ;; k" := (bind m (fun x => k))
  (at level 62, m at next level, right associativity).
Notation "m ;;; k" := (bind m (fun _ => k))
  (at level 62, right associativity).

Definition emit (e : Event) : M unit := fun w => Ok tt (log [e] w).
Definition trap {A} : M A := fun w => Trap w.
Definition undefined {A} : M A := fun w => Undefined w.

(** Element access [v[i]] of a [std::vector] or array. *)
Definition at_index {A} (v : list A) (i : Z) : M A :=
  if i <? 0 then undefined
  else match v !! Z.to_nat i with
       | Some x => ret x
       | None => undefined
       end.

Definition world_of {A} (o : Outcome A) : World :=
  match o with Ok _ w => w | Trap w => w | Undefined w => w end.

(** ** The application object

    The data members of [VulkanAppBase], and one update function for each. *)

Record VulkanAppBase : Type := mkApp {
  m_presentMode : Z;
  m_imageIndex : Z;
  m_instance : Handle;
  m_physDev : Handle;
  m_physMemProps : VkPhysicalDeviceMemoryProperties;
  m_graphicsQueueIndex : Z;
  m_device : Handle;
  m_deviceQueue : Handle;
  m_commandPool : Handle;
  m_surface : Handle;
  m_surfaceFormat : VkSurfaceFormatKHR;
  m_surfaceCaps : VkSurfaceCapabilitiesKHR;
  m_swapchain : Handle;
  m_swapchainExtent : VkExtent2D;
  m_depthBuffer : Handle;
  m_depthBufferMemory : Handle;
  m_depthBufferView : Handle;
  m_swapchainImages : list Handle;
  m_swapchainViews : list Handle;
  m_renderPass : Handle;
  m_framebuffers : list Handle;
  m_commands : list Handle;
  m_fences : list Handle;
  m_renderCompletedSem : Handle;
  m_presentCompletedSem : Handle;
  m_vkCreateDebugReportCallbackEXT : Z;
  m_vkDebugReportMessageEXT : Z;
  m_vkDestroyDebugReportCallbackEXT : Z;
  m_debugReport : Handle
}.

Definition set_m_presentMode (v : Z) (app : VulkanAppBase) : VulkanAppBase :=
  let '(mkApp _ a1 a2 a3 a4 a5 a6 a7 a8 a9 a10 a11 a12 a13 a14 a15 a16 a17 a18 a19 a20
      a21 a22 a23 a24 a25 a26 a27 a28) := app in
  mkApp v a1 a2 a3 a4 a5 a6 a7 a8 a9 a10 a11 a12 a13 a14 a15 a16 a17 a18 a19 a20 a21
      a22 a23 a24 a25 a26 a27 a28.
Definition set_m_imageIndex (v : Z) (app : VulkanAppBase) : VulkanAppBase :=
  let '(mkApp a0 _ a2 a3 a4 a5 a6 a7 a8 a9 a10 a11 a12 a13 a14 a15 a16 a17 a18 a19 a20
      a21 a22 a23 a24 a25 a26 a27 a28) := app in
  mkApp a0 v a2 a3 a4 a5 a6 a7 a8 a9 a10 a11 a12 a13 a14 a15 a16 a17 a18 a19 a20 a21
      a22 a23 a24 a25 a26 a27 a28.
Definition set_m_instance (v : Handle) (app : VulkanAppBase) : VulkanAppBase :=
  let '(mkApp a0 a1 _ a3 a4 a5 a6 a7 a8 a9 a10 a11 a12 a13 a14 a15 a16 a17 a18 a19 a20
      a21 a22 a23 a24 a25 a26 a27 a28) := app in
  mkApp a0 a1 v a3 a4 a5 a6 a7 a8 a9 a10 a11 a12 a13 a14 a15 a16 a17 a18 a19 a20 a21
      a22 a23 a24 a25 a26 a27 a28.
Definition set_m_physDev (v : Handle) (app : VulkanAppBase) : VulkanAppBase :=
  let '(mkApp a0 a1 a2 _ a4 a5 a6 a7 a8 a9 a10 a11 a12 a13 a14 a15 a16 a17 a18 a19 a20
      a21 a22 a23 a24 a25 a26 a27 a28) := app in
  mkApp a0 a1 a2 v a4 a5 a6 a7 a8 a9 a10 a11 a12 a13 a14 a15 a16 a17 a18 a19 a20 a21
      a22 a23 a24 a25 a26 a27 a28.
Definition set_m_physMemProps (v : VkPhysicalDeviceMemoryProperties) (app : VulkanAppBase) : VulkanAppBase :=
  let '(mkApp a0 a1 a2 a3 _ a5 a6 a7 a8 a9 a10 a11 a12 a13 a14 a15 a16 a17 a18 a19 a20
      a21 a22 a23 a24 a25 a26 a27 a28) := app in
  mkApp a0 a1 a2 a3 v a5 a6 a7 a8 a9 a10 a11 a12 a13 a14 a15 a16 a17 a18 a19 a20 a21
      a22 a23 a24 a25 a26 a27 a28.
Definition set_m_graphicsQueueIndex (v : Z) (app : VulkanAppBase) : VulkanAppBase :=
  let '(mkApp a0 a1 a2 a3 a4 _ a6 a7 a8 a9 a10 a11 a12 a13 a14 a15 a16 a17 a18 a19 a20
      a21 a22 a23 a24 a25 a26 a27 a28) := app in
  mkApp a0 a1 a2 a3 a4 v a6 a7 a8 a9 a10 a11 a12 a13 a14 a15 a16 a17 a18 a19 a20 a21
      a22 a23 a24 a25 a26 a27 a28.
Definition set_m_device (v : Handle) (app : VulkanAppBase) : VulkanAppBase :=
  let '(mkApp a0 a1 a2 a3 a4 a5 _ a7 a8 a9 a10 a11 a12 a13 a14 a15 a16 a17 a18 a19 a20
      a21 a22 a23 a24 a25 a26 a27 a28) := app in
  mkApp a0 a1 a2 a3 a4 a5 v a7 a8 a9 a10 a11 a12 a13 a14 a15 a16 a17 a18 a19 a20 a21
      a22 a23 a24 a25 a26 a27 a28.
Definition set_m_deviceQueue (v : Handle) (app : VulkanAppBase) : VulkanAppBase :=
  let '(mkApp a0 a1 a2 a3 a4 a5 a6 _ a8 a9 a10 a11 a12 a13 a14 a15 a16 a17 a18 a19 a20
      a21 a22 a23 a24 a25 a26 a27 a28) := app in
  mkApp a0 a1 a2 a3 a4 a5 a6 v a8 a9 a10 a11 a12 a13 a14 a15 a16 a17 a18 a19 a20 a21
      a22 a23 a24 a25 a26 a27 a28.
Definition set_m_commandPool (v : Handle) (app : VulkanAppBase) : VulkanAppBase :=
  let '(mkApp a0 a1 a2 a3 a4 a5 a6 a7 _ a9 a10 a11 a12 a13 a14 a15 a16 a17 a18 a19 a20
      a21 a22 a23 a24 a25 a26 a27 a28) := app in
  mkApp a0 a1 a2 a3 a4 a5 a6 a7 v a9 a10 a11 a12 a13 a14 a15 a16 a17 a18 a19 a20 a21
      a22 a23 a24 a25 a26 a27 a28.
Definition set_m_surface (v : Handle) (app : VulkanAppBase) : VulkanAppBase :=
  let '(mkApp a0 a1 a2 a3 a4 a5 a6 a7 a8 _ a10 a11 a12 a13 a14 a15 a16 a17 a18 a19 a20
      a21 a22 a23 a24 a25 a26 a27 a28) := app in
  mkApp a0 a1 a2 a3 a4 a5 a6 a7 a8 v a10 a11 a12 a13 a14 a15 a16 a17 a18 a19 a20 a21
      a22 a23 a24 a25 a26 a27 a28.
Definition set_m_surfaceFormat (v : VkSurfaceFormatKHR) (app : VulkanAppBase) : VulkanAppBase :=
  let '(mkApp a0 a1 a2 a3 a4 a5 a6 a7 a8 a9 _ a11 a12 a13 a14 a15 a16 a17 a18 a19 a20
      a21 a22 a23 a24 a25 a26 a27 a28) := app in
  mkApp a0 a1 a2 a3 a4 a5 a6 a7 a8 a9 v a11 a12 a13 a14 a15 a16 a17 a18 a19 a20 a21
      a22 a23 a24 a25 a26 a27 a28.
Definition set_m_surfaceCaps (v : VkSurfaceCapabilitiesKHR) (app : VulkanAppBase) : VulkanAppBase :=
  let '(mkApp a0 a1 a2 a3 a4 a5 a6 a7 a8 a9 a10 _ a12 a13 a14 a15 a16 a17 a18 a19 a20
      a21 a22 a23 a24 a25 a26 a27 a28) := app in
  mkApp a0 a1 a2 a3 a4 a5 a6 a7 a8 a9 a10 v a12 a13 a14 a15 a16 a17 a18 a19 a20 a21
      a22 a23 a24 a25 a26 a27 a28.
Definition set_m_swapchain (v : Handle) (app : VulkanAppBase) : VulkanAppBase :=
  let '(mkApp a0 a1 a2 a3 a4 a5 a6 a7 a8 a9 a10 a11 _ a13 a14 a15 a16 a17 a18 a19 a20
      a21 a22 a23 a24 a25 a26 a27 a28) := app in
  mkApp a0 a1 a2 a3 a4 a5 a6 a7 a8 a9 a10 a11 v a13 a14 a15 a16 a17 a18 a19 a20 a21
      a22 a23 a24 a25 a26 a27 a28.
Definition set_m_swapchainExtent (v : VkExtent2D) (app : VulkanAppBase) : VulkanAppBase :=
  let '(mkApp a0 a1 a2 a3 a4 a5 a6 a7 a8 a9 a10 a11 a12 _ a14 a15 a16 a17 a18 a19 a20
      a21 a22 a23 a24 a25 a26 a27 a28) := app in
  mkApp a0 a1 a2 a3 a4 a5 a6 a7 a8 a9 a10 a11 a12 v a14 a15 a16 a17 a18 a19 a20 a21
      a22 a23 a24 a25 a26 a27 a28.
Definition set_m_depthBuffer (v : Handle) (app : VulkanAppBase) : VulkanAppBase :=
  let '(mkApp a0 a1 a2 a3 a4 a5 a6 a7 a8 a9 a10 a11 a12 a13 _ a15 a16 a17 a18 a19 a20
      a21 a22 a23 a24 a25 a26 a27 a28) := app in
  mkApp a0 a1 a2 a3 a4 a5 a6 a7 a8 a9 a10 a11 a12 a13 v a15 a16 a17 a18 a19 a20 a21
      a22 a23 a24 a25 a26 a27 a28.
Definition set_m_depthBufferMemory (v : Handle) (app : VulkanAppBase) : VulkanAppBase :=
  let '(mkApp a0 a1 a2 a3 a4 a5 a6 a7 a8 a9 a10 a11 a12 a13 a14 _ a16 a17 a18 a19 a20
      a21 a22 a23 a24 a25 a26 a27 a28) := app in
  mkApp a0 a1 a2 a3 a4 a5 a6 a7 a8 a9 a10 a11 a12 a13 a14 v a16 a17 a18 a19 a20 a21
      a22 a23 a24 a25 a26 a27 a28.
Definition set_m_depthBufferView (v : Handle) (app : VulkanAppBase) : VulkanAppBase :=
  let '(mkApp a0 a1 a2 a3 a4 a5 a6 a7 a8 a9 a10 a11 a12 a13 a14 a15 _ a17 a18 a19 a20
      a21 a22 a23 a24 a25 a26 a27 a28) := app in
  mkApp a0 a1 a2 a3 a4 a5 a6 a7 a8 a9 a10 a11 a12 a13 a14 a15 v a17 a18 a19 a20 a21
      a22 a23 a24 a25 a26 a27 a28.
Definition set_m_swapchainImages (v : list Handle) (app : VulkanAppBase) : VulkanAppBase :=
  let '(mkApp a0 a1 a2 a3 a4 a5 a6 a7 a8 a9 a10 a11 a12 a13 a14 a15 a16 _ a18 a19 a20
      a21 a22 a23 a24 a25 a26 a27 a28) := app in
  mkApp a0 a1 a2 a3 a4 a5 a6 a7 a8 a9 a10 a11 a12 a13 a14 a15 a16 v a18 a19 a20 a21
      a22 a23 a24 a25 a26 a27 a28.
Definition set_m_swapchainViews (v : list Handle) (app : VulkanAppBase) : VulkanAppBase :=
  let '(mkApp a0 a1 a2 a3 a4 a5 a6 a7 a8 a9 a10 a11 a12 a13 a14 a15 a16 a17 _ a19 a20
      a21 a22 a23 a24 a25 a26 a27 a28) := app in
  mkApp a0 a1 a2 a3 a4 a5 a6 a7 a8 a9 a10 a11 a12 a13 a14 a15 a16 a17 v a19 a20 a21
      a22 a23 a24 a25 a26 a27 a28.
Definition set_m_renderPass (v : Handle) (app : VulkanAppBase) : VulkanAppBase :=
  let '(mkApp a0 a1 a2 a3 a4 a5 a6 a7 a8 a9 a10 a11 a12 a13 a14 a15 a16 a17 a18 _ a20
      a21 a22 a23 a24 a25 a26 a27 a28) := app in
  mkApp a0 a1 a2 a3 a4 a5 a6 a7 a8 a9 a10 a11 a12 a13 a14 a15 a16 a17 a18 v a20 a21
      a22 a23 a24 a25 a26 a27 a28.
Definition set_m_framebuffers (v : list Handle) (app : VulkanAppBase) : VulkanAppBase :=
  let '(mkApp a0 a1 a2 a3 a4 a5 a6 a7 a8 a9 a10 a11 a12 a13 a14 a15 a16 a17 a18 a19 _
      a21 a22 a23 a24 a25 a26 a27 a28) := app in
  mkApp a0 a1 a2 a3 a4 a5 a6 a7 a8 a9 a10 a11 a12 a13 a14 a15 a16 a17 a18 a19 v a21
      a22 a23 a24 a25 a26 a27 a28.
Definition set_m_commands (v : list Handle) (app : VulkanAppBase) : VulkanAppBase :=
  let '(mkApp a0 a1 a2 a3 a4 a5 a6 a7 a8 a9 a10 a11 a12 a13 a14 a15 a16 a17 a18 a19
      a20 _ a22 a23 a24 a25 a26 a27 a28) := app in
  mkApp a0 a1 a2 a3 a4 a5 a6 a7 a8 a9 a10 a11 a12 a13 a14 a15 a16 a17 a18 a19 a20 v
      a22 a23 a24 a25 a26 a27 a28.
Definition set_m_fences (v : list Handle) (app : VulkanAppBase) : VulkanAppBase :=
  let '(mkApp a0 a1 a2 a3 a4 a5 a6 a7 a8 a9 a10 a11 a12 a13 a14 a15 a16 a17 a18 a19
      a20 a21 _ a23 a24 a25 a26 a27 a28) := app in
  mkApp a0 a1 a2 a3 a4 a5 a6 a7 a8 a9 a10 a11 a12 a13 a14 a15 a16 a17 a18 a19 a20 a21
      v a23 a24 a25 a26 a27 a28.
Definition set_m_renderCompletedSem (v : Handle) (app : VulkanAppBase) : VulkanAppBase :=
  let '(mkApp a0 a1 a2 a3 a4 a5 a6 a7 a8 a9 a10 a11 a12 a13 a14 a15 a16 a17 a18 a19
      a20 a21 a22 _ a24 a25 a26 a27 a28) := app in
  mkApp a0 a1 a2 a3 a4 a5 a6 a7 a8 a9 a10 a11 a12 a13 a14 a15 a16 a17 a18 a19 a20 a21
      a22 v a24 a25 a26 a27 a28.
Definition set_m_presentCompletedSem (v : Handle) (app : VulkanAppBase) : VulkanAppBase :=
  let '(mkApp a0 a1 a2 a3 a4 a5 a6 a7 a8 a9 a10 a11 a12 a13 a14 a15 a16 a17 a18 a19
      a20 a21 a22 a23 _ a25 a26 a27 a28) := app in
  mkApp a0 a1 a2 a3 a4 a5 a6 a7 a8 a9 a10 a11 a12 a13 a14 a15 a16 a17 a18 a19 a20 a21
      a22 a23 v a25 a26 a27 a28.
Definition set_m_vkCreateDebugReportCallbackEXT (v : Z) (app : VulkanAppBase) : VulkanAppBase :=
  let '(mkApp a0 a1 a2 a3 a4 a5 a6 a7 a8 a9 a10 a11 a12 a13 a14 a15 a16 a17 a18 a19
      a20 a21 a22 a23 a24 _ a26 a27 a28) := app in
  mkApp a0 a1 a2 a3 a4 a5 a6 a7 a8 a9 a10 a11 a12 a13 a14 a15 a16 a17 a18 a19 a20 a21
      a22 a23 a24 v a26 a27 a28.
Definition set_m_vkDebugReportMessageEXT (v : Z) (app : VulkanAppBase) : VulkanAppBase :=
  let '(mkApp a0 a1 a2 a3 a4 a5 a6 a7 a8 a9 a10 a11 a12 a13 a14 a15 a16 a17 a18 a19
      a20 a21 a22 a23 a24 a25 _ a27 a28) := app in
  mkApp a0 a1 a2 a3 a4 a5 a6 a7 a8 a9 a10 a11 a12 a13 a14 a15 a16 a17 a18 a19 a20 a21
      a22 a23 a24 a25 v a27 a28.
Definition set_m_vkDestroyDebugReportCallbackEXT (v : Z) (app : VulkanAppBase) : VulkanAppBase :=
  let '(mkApp a0 a1 a2 a3 a4 a5 a6 a7 a8 a9 a10 a11 a12 a13 a14 a15 a16 a17 a18 a19
      a20 a21 a22 a23 a24 a25 a26 _ a28) := app in
  mkApp a0 a1 a2 a3 a4 a5 a6 a7 a8 a9 a10 a11 a12 a13 a14 a15 a16 a17 a18 a19 a20 a21
      a22 a23 a24 a25 a26 v a28.
Definition set_m_debugReport (v : Handle) (app : VulkanAppBase) : VulkanAppBase :=
  let '(mkApp a0 a1 a2 a3 a4 a5 a6 a7 a8 a9 a10 a11 a12 a13 a14 a15 a16 a17 a18 a19
      a20 a21 a22 a23 a24 a25 a26 a27 _) := app in
  mkApp a0 a1 a2 a3 a4 a5 a6 a7 a8 a9 a10 a11 a12 a13 a14 a15 a16 a17 a18 a19 a20 a21
      a22 a23 a24 a25 a26 a27 v.


(** The constructor initialises [m_presentMode] and [m_imageIndex]; the
    vectors are empty; the remaining members are not initialised, and hold
    whatever [indeterminate] holds. *)
Definition VulkanAppBase_ctor (indeterminate : VulkanAppBase) : VulkanAppBase :=
  set_m_presentMode VK_PRESENT_MODE_FIFO_KHR
    (set_m_imageIndex 0
       (set_m_swapchainImages []
          (set_m_swapchainViews []
             (set_m_framebuffers []
                (set_m_commands [] (set_m_fences [] indeterminate)))))).

Notation "' ( x , y ) <- m ;; k" := (bind m (fun '(x, y) => k))
  (at level 62, m at next level, right associativity, x name, y name).

Definition zlength {A} (l : list A) : Z := Z.of_nat (length l).

(** ** Calls into the environment *)

Section Program.

Variable drv : Driver.
(** Whether the translation unit is compiled with [_DEBUG] defined. *)
Variable DEBUG : bool.

(** A call that returns a [VkResult] and has no output the code uses. *)
Definition vk_call (f : VkFn) (args : list Z) : M VkResult :=
  fun w =>
    let r := drv_result drv (trace w) f in
    Ok r (log [Call f args (Some r) []] w).

(** A [void] call; [outs] is what it writes. *)
Definition vk_void (f : VkFn) (args : list Z) (outs : list Z) : M unit :=
  emit (Call f args None outs).

(** A call that creates one object.  On success the driver writes a new
    handle to the output parameter, otherwise the parameter keeps [old]. *)
Definition vk_create (f : VkFn) (args : list Z) (old : Handle)
  : M (VkResult * Handle) :=
  fun w =>
    let r := drv_result drv (trace w) f in
    if r =? VK_SUCCESS then
      let h := next_handle w in
      Ok (r, h) (mkWorld (trace w ++ [Call f args (Some r) [h]]) (h + 1) (signaled w))
    else Ok (r, old) (log [Call f args (Some r) []] w).

(** [vkAllocateCommandBuffers]: [count] new handles on success. *)
Definition vk_allocate (args : list Z) (count : nat) (old : list Handle)
  : M (VkResult * list Handle) :=
  fun w =>
    let r := drv_result drv (trace w) vkAllocateCommandBuffers in
    if r =? VK_SUCCESS then
      let hs := seqZ (next_handle w) (Z.of_nat count) in
      Ok (r, hs)
         (mkWorld (trace w ++ [Call vkAllocateCommandBuffers args (Some r) hs])
                  (next_handle w + Z.of_nat count) (signaled w))
    else Ok (r, old) (log [Call vkAllocateCommandBuffers args (Some r) []] w).

(** [vkCreateFence]: a fence created with [VK_FENCE_CREATE_SIGNALED_BIT]
    starts in the signaled state. *)
Definition vk_create_fence (device flags : Z) (old : Handle)
  : M (VkResult * Handle) :=
  fun w =>
    let r := drv_result drv (trace w) vkCreateFence in
    if r =? VK_SUCCESS then
      let h := next_handle w in
      Ok (r, h)
         (mkWorld (trace w ++ [Call vkCreateFence [device; flags] (Some r) [h]])
                  (h + 1)
                  (if Z.land flags VK_FENCE_CREATE_SIGNALED_BIT =? 0
                   then signaled w else h :: signaled w))
    else Ok (r, old) (log [Call vkCreateFence [device; flags] (Some r) []] w).

Definition is_signaled (fence : Handle) (w : World) : bool :=
  existsb (Z.eqb fence) (signaled w).

(** [vkWaitForFences] on one fence without timeout: the thread is suspended
    unless the fence is signaled; after a successful wait it is signaled.
    [Block] marks the place where the thread is suspended.  Whether the fence
    is ever signaled is the device's business and is not modelled: the trace
    goes on as the program does if the wait comes back, and nothing below
    says that a wait comes back. *)
Definition vk_wait_for_fence (device fence : Z) : M VkResult :=
  fun w =>
    let r := drv_result drv (trace w) vkWaitForFences in
    let blocked := if is_signaled fence w then [] else [Block fence] in
    let e := Call vkWaitForFences [device; 1; fence; VK_TRUE; UINT64_MAX] (Some r) [] in
    Ok r (mkWorld (trace w ++ blocked ++ [e]) (next_handle w)
                  (if r =? VK_SUCCESS then fence :: signaled w else signaled w)).

(** [vkResetFences] on one fence: unsignaled after success. *)
Definition vk_reset_fence (device fence : Z) : M VkResult :=
  fun w =>
    let r := drv_result drv (trace w) vkResetFences in
    Ok r (mkWorld (trace w ++ [Call vkResetFences [device; 1; fence] (Some r) []])
                  (next_handle w)
                  (if r =? VK_SUCCESS
                   then filter (fun h => h ≠ fence) (signaled w) else signaled w)).

(** ** Member functions of [VulkanAppBase] *)

Definition checkResult (result : VkResult) : M unit :=
  if negb (result =? VK_SUCCESS) then emit DebugBreak ;;; trap else ret tt.

Definition initializeInstance (appName : string) (app : VulkanAppBase)
  : M VulkanAppBase :=
  vk_call vkEnumerateInstanceExtensionProperties [0] ;;;
  let props := drv_instanceExtensions drv in
  vk_call vkEnumerateInstanceExtensionProperties [zlength props] ;;;
  let extensions := props in
  let enabledLayerCount := if DEBUG then 1 else 0 in
  '(result, h) <- vk_create vkCreateInstance
                    [uint32_t (zlength extensions); enabledLayerCount]
                    (m_instance app) ;;
  let app := set_m_instance h app in
  checkResult result ;;;
  ret app.

Definition selectPhysicalDevice (app : VulkanAppBase) : M VulkanAppBase :=
  vk_call vkEnumeratePhysicalDevices [m_instance app; 0] ;;;
  let physDevs := drv_physDevs drv in
  vk_call vkEnumeratePhysicalDevices [m_instance app; zlength physDevs] ;;;
  p <- at_index physDevs 0 ;;
  let app := set_m_physDev p app in
  vk_void vkGetPhysicalDeviceMemoryProperties [m_physDev app] [] ;;;
  ret (set_m_physMemProps (drv_memProps drv) app).

Fixpoint searchGraphicsQueueIndex_loop (props : list Z) (i : Z) : Z :=
  match props with
  | [] => UINT32_NOT0
  | queueFlags :: rest =>
      if negb (Z.land queueFlags VK_QUEUE_GRAPHICS_BIT =? 0) then i
      else searchGraphicsQueueIndex_loop rest (i + 1)
  end.

Definition searchGraphicsQueueIndex (app : VulkanAppBase) : M Z :=
  vk_void vkGetPhysicalDeviceQueueFamilyProperties [m_physDev app] [] ;;;
  let props := drv_queueFamilies drv in
  vk_void vkGetPhysicalDeviceQueueFamilyProperties [m_physDev app; zlength props] [] ;;;
  ret (searchGraphicsQueueIndex_loop props 0).

Definition createDevice (app : VulkanAppBase) : M VulkanAppBase :=
  vk_call vkEnumerateDeviceExtensionProperties [m_physDev app; 0] ;;;
  let devExtProps := drv_deviceExtensions drv in
  vk_call vkEnumerateDeviceExtensionProperties [m_physDev app; zlength devExtProps] ;;;
  let extensions := devExtProps in
  '(result, h) <- vk_create vkCreateDevice
                    [m_physDev app; m_graphicsQueueIndex app; 1;
                     uint32_t (zlength extensions)]
                    (m_device app) ;;
  let app := set_m_device h app in
  checkResult result ;;;
  vk_void vkGetDeviceQueue [m_device app; m_graphicsQueueIndex app; 0]
          [drv_deviceQueue drv] ;;;
  ret (set_m_deviceQueue (drv_deviceQueue drv) app).

Definition prepareCommandPool (app : VulkanAppBase) : M VulkanAppBase :=
  '(result, h) <- vk_create vkCreateCommandPool
                    [m_device app; m_graphicsQueueIndex app;
                     VK_COMMAND_POOL_CREATE_RESET_COMMAND_BUFFER_BIT]
                    (m_commandPool app) ;;
  let app := set_m_commandPool h app in
  checkResult result ;;;
  ret app.

(** The loop of [selectSurfaceFormat]: every matching entry is assigned, in
    enumeration order. *)
Definition selectSurfaceFormat_loop (format0 : Z) (formats : list VkSurfaceFormatKHR)
  (app : VulkanAppBase) : VulkanAppBase :=
  fold_left (fun app f => if format f =? format0 then set_m_surfaceFormat f app else app)
            formats app.

Definition selectSurfaceFormat (format0 : Z) (app : VulkanAppBase) : M VulkanAppBase :=
  vk_call vkGetPhysicalDeviceSurfaceFormatsKHR [m_physDev app; m_surface app; 0] ;;;
  let formats := drv_surfaceFormats drv in
  vk_call vkGetPhysicalDeviceSurfaceFormatsKHR
          [m_physDev app; m_surface app; zlength formats] ;;;
  ret (selectSurfaceFormat_loop format0 formats app).

Definition createSwapchain (window : Handle) (app : VulkanAppBase) : M VulkanAppBase :=
  let imageCount := Z.max 2 (minImageCount (m_surfaceCaps app)) in
  let extent := currentExtent (m_surfaceCaps app) in
  extent <- (if width extent =? UINT32_NOT0 then
               vk_void glfwGetWindowSize [window]
                       [fst (drv_windowSize drv); snd (drv_windowSize drv)] ;;;
               ret (mkExtent (uint32_t (fst (drv_windowSize drv)))
                             (uint32_t (snd (drv_windowSize drv))))
             else ret extent) ;;
  '(result, h) <- vk_create vkCreateSwapchainKHR
                    [m_device app; m_surface app; imageCount;
                     format (m_surfaceFormat app); colorSpace (m_surfaceFormat app);
                     width extent; height extent;
                     VK_IMAGE_USAGE_COLOR_ATTACHMENT_BIT;
                     currentTransform (m_surfaceCaps app); 1;
                     VK_SHARING_MODE_EXCLUSIVE; 0; m_presentMode app;
                     VK_NULL_HANDLE; VK_TRUE; VK_COMPOSITE_ALPHA_OPAQUE_BIT_KHR]
                    (m_swapchain app) ;;
  let app := set_m_swapchain h app in
  checkResult result ;;;
  ret (set_m_swapchainExtent extent app).

Fixpoint getMemoryTypeIndex_loop (memoryTypes0 : list VkMemoryType) (n : nat) (i : Z)
  (requestBits requestProps : Z) : option Z :=
  match n with
  | O => Some UINT32_NOT0
  | S n' =>
      if negb (Z.land requestBits 1 =? 0) then
        match memoryTypes0 !! Z.to_nat i with
        | None => None
        | Some types =>
            if Z.land (propertyFlags types) requestProps =? requestProps then Some i
            else getMemoryTypeIndex_loop memoryTypes0 n' (i + 1)
                   (Z.shiftr requestBits 1) requestProps
        end
      else getMemoryTypeIndex_loop memoryTypes0 n' (i + 1)
             (Z.shiftr requestBits 1) requestProps
  end.

(** [None]: an element of [memoryTypes] outside the array was read. *)
Definition getMemoryTypeIndex (app : VulkanAppBase) (requestBits requestProps : Z)
  : option Z :=
  getMemoryTypeIndex_loop (memoryTypes (m_physMemProps app))
    (Z.to_nat (memoryTypeCount (m_physMemProps app))) 0 requestBits requestProps.

Definition of_option {A} (o : option A) : M A :=
  match o with Some a => ret a | None => undefined end.

Definition createDepthBuffer (app : VulkanAppBase) : M VulkanAppBase :=
  '(result, h) <- vk_create vkCreateImage
                    [m_device app; VK_IMAGE_TYPE_2D; VK_FORMAT_D32_SFLOAT;
                     width (m_swapchainExtent app); height (m_swapchainExtent app); 1;
                     VK_IMAGE_USAGE_DEPTH_STENCIL_ATTACHMENT_BIT;
                     VK_SAMPLE_COUNT_1_BIT; 1]
                    (m_depthBuffer app) ;;
  let app := set_m_depthBuffer h app in
  checkResult result ;;;
  let reqs := drv_memReqs drv in
  vk_void vkGetImageMemoryRequirements [m_device app; m_depthBuffer app]
          [size reqs; memoryTypeBits reqs] ;;;
  memoryTypeIndex <- of_option (getMemoryTypeIndex app (memoryTypeBits reqs)
                                  VK_MEMORY_PROPERTY_DEVICE_LOCAL_BIT) ;;
  '(_, mem) <- vk_create vkAllocateMemory [m_device app; size reqs; memoryTypeIndex]
                 (m_depthBufferMemory app) ;;
  let app := set_m_depthBufferMemory mem app in
  vk_call vkBindImageMemory
          [m_device app; m_depthBuffer app; m_depthBufferMemory app; 0] ;;;
  ret app.

(** The loop of [createViews] from index [i] on, [n] iterations left. *)
Fixpoint createViews_loop (app : VulkanAppBase) (n : nat) (i : nat)
  (views : list Handle) : M (list Handle) :=
  match n with
  | O => ret views
  | S n' =>
      image <- at_index (m_swapchainImages app) (Z.of_nat i) ;;
      old <- at_index views (Z.of_nat i) ;;
      '(result, h) <- vk_create vkCreateImageView
                        [m_device app; VK_IMAGE_VIEW_TYPE_2D;
                         format (m_surfaceFormat app);
                         VK_IMAGE_ASPECT_COLOR_BIT; image]
                        old ;;
      let views := <[i := h]> views in
      checkResult result ;;;
      createViews_loop app n' (S i) views
  end.

Definition createViews (app : VulkanAppBase) : M VulkanAppBase :=
  vk_call vkGetSwapchainImagesKHR [m_device app; m_swapchain app; 0] ;;;
  let images := drv_swapchainImages drv in
  let imageCount := length images in
  vk_call vkGetSwapchainImagesKHR [m_device app; m_swapchain app; Z.of_nat imageCount] ;;;
  let app := set_m_swapchainImages images app in
  let views0 := resize imageCount VK_NULL_HANDLE (m_swapchainViews app) in
  views <- createViews_loop app imageCount 0 views0 ;;
  let app := set_m_swapchainViews views app in
  '(result, h) <- vk_create vkCreateImageView
                    [m_device app; VK_IMAGE_VIEW_TYPE_2D; VK_FORMAT_D32_SFLOAT;
                     VK_IMAGE_ASPECT_DEPTH_BIT; m_depthBuffer app]
                    (m_depthBufferView app) ;;
  let app := set_m_depthBufferView h app in
  checkResult result ;;;
  ret app.

Definition createRenderPass (app : VulkanAppBase) : M VulkanAppBase :=
  '(result, h) <- vk_create vkCreateRenderPass
                    [m_device app; 2; format (m_surfaceFormat app);
                     VK_FORMAT_D32_SFLOAT; 1]
                    (m_renderPass app) ;;
  let app := set_m_renderPass h app in
  checkResult result ;;;
  ret app.

(** The loop of [createFramebuffer] over the remaining [views]. *)
Fixpoint createFramebuffer_loop (app : VulkanAppBase) (views : list Handle)
  (framebuffers : list Handle) : M (list Handle) :=
  match views with
  | [] => ret framebuffers
  | v :: rest =>
      '(result, framebuffer) <-
         vk_create vkCreateFramebuffer
           [m_device app; m_renderPass app;
            width (m_swapchainExtent app); height (m_swapchainExtent app); 1;
            2; v; m_depthBufferView app]
           VK_NULL_HANDLE ;;
      checkResult result ;;;
      createFramebuffer_loop app rest (framebuffers ++ [framebuffer])
  end.

Definition createFramebuffer (app : VulkanAppBase) : M VulkanAppBase :=
  framebuffers <- createFramebuffer_loop app (m_swapchainViews app) [] ;;
  ret (set_m_framebuffers framebuffers app).

(** The fence loop of [prepareCommandBuffers] from index [i] on. *)
Fixpoint prepareCommandBuffers_loop (app : VulkanAppBase) (n : nat) (i : nat)
  (fences : list Handle) : M (list Handle) :=
  match n with
  | O => ret fences
  | S n' =>
      old <- at_index fences (Z.of_nat i) ;;
      '(result, v) <- vk_create_fence (m_device app) VK_FENCE_CREATE_SIGNALED_BIT old ;;
      let fences := <[i := v]> fences in
      checkResult result ;;;
      prepareCommandBuffers_loop app n' (S i) fences
  end.

Definition prepareCommandBuffers (app : VulkanAppBase) : M VulkanAppBase :=
  let commandBufferCount := uint32_t (zlength (m_swapchainViews app)) in
  let commands0 := resize (Z.to_nat commandBufferCount) VK_NULL_HANDLE (m_commands app) in
  '(result, commands) <-
     vk_allocate [m_device app; m_commandPool app; commandBufferCount;
                  VK_COMMAND_BUFFER_LEVEL_PRIMARY]
                 (Z.to_nat commandBufferCount) commands0 ;;
  let app := set_m_commands commands app in
  checkResult result ;;;
  let fences0 := resize (Z.to_nat commandBufferCount) VK_NULL_HANDLE (m_fences app) in
  fences <- prepareCommandBuffers_loop app (length fences0) 0 fences0 ;;
  ret (set_m_fences fences app).

Definition prepareSemaphores (app : VulkanAppBase) : M VulkanAppBase :=
  '(_, h) <- vk_create vkCreateSemaphore [m_device app] (m_renderCompletedSem app) ;;
  let app := set_m_renderCompletedSem h app in
  '(_, h) <- vk_create vkCreateSemaphore [m_device app] (m_presentCompletedSem app) ;;
  let app := set_m_presentCompletedSem h app in
  ret app.

(** The macro [GetInstanceProcAddr(FuncName)]. *)
Definition GetInstanceProcAddr (FuncName : string) (app : VulkanAppBase) : M Z :=
  let p := drv_procAddr drv FuncName in
  vk_void vkGetInstanceProcAddr [m_instance app] [p] ;;;
  ret p.

Definition enableDebugReport (app : VulkanAppBase) : M VulkanAppBase :=
  p <- GetInstanceProcAddr "vkCreateDebugReportCallbackEXT" app ;;
  let app := set_m_vkCreateDebugReportCallbackEXT p app in
  p <- GetInstanceProcAddr "vkDebugReportMessageEXT" app ;;
  let app := set_m_vkDebugReportMessageEXT p app in
  p <- GetInstanceProcAddr "vkDestroyDebugReportCallbackEXT" app ;;
  let app := set_m_vkDestroyDebugReportCallbackEXT p app in
  let flags := Z.lor VK_DEBUG_REPORT_ERROR_BIT_EXT VK_DEBUG_REPORT_WARNING_BIT_EXT in
  if m_vkCreateDebugReportCallbackEXT app =? 0 then undefined
  else
    '(_, h) <- vk_create vkCreateDebugReportCallbackEXT [m_instance app; flags]
                 (m_debugReport app) ;;
    ret (set_m_debugReport h app).

Definition disableDebugReport (app : VulkanAppBase) : M unit :=
  if negb (m_vkDestroyDebugReportCallbackEXT app =? 0) then
    vk_void vkDestroyDebugReportCallbackEXT [m_instance app; m_debugReport app] []
  else ret tt.

(** [vkAcquireNextImageKHR]: the result code and the image index found in
    the output variable after the call. *)
Definition vk_acquire (args : list Z) : M (VkResult * Z) :=
  fun w =>
    let r := drv_result drv (trace w) vkAcquireNextImageKHR in
    let i := drv_acquire drv (trace w) in
    Ok (r, i) (log [Call vkAcquireNextImageKHR args (Some r) [i]] w).

Definition initialize (window : Handle) (appName : string) (app : VulkanAppBase)
  : M VulkanAppBase :=
  app <- initializeInstance appName app ;;
  app <- selectPhysicalDevice app ;;
  q <- searchGraphicsQueueIndex app ;;
  let app := set_m_graphicsQueueIndex q app in
  app <- (if DEBUG then enableDebugReport app else ret app) ;;
  app <- createDevice app ;;
  app <- prepareCommandPool app ;;
  '(_, h) <- vk_create glfwCreateWindowSurface [m_instance app; window] (m_surface app) ;;
  let app := set_m_surface h app in
  app <- selectSurfaceFormat VK_FORMAT_B8G8R8A8_UNORM app ;;
  vk_call vkGetPhysicalDeviceSurfaceCapabilitiesKHR [m_physDev app; m_surface app] ;;;
  let app := set_m_surfaceCaps (drv_surfaceCaps drv) app in
  vk_call vkGetPhysicalDeviceSurfaceSupportKHR
          [m_physDev app; m_graphicsQueueIndex app; m_surface app] ;;;
  app <- createSwapchain window app ;;
  app <- createDepthBuffer app ;;
  app <- createViews app ;;
  app <- createRenderPass app ;;
  app <- createFramebuffer app ;;
  app <- prepareCommandBuffers app ;;
  app <- prepareSemaphores app ;;
  emit (Hook prepare []) ;;;
  ret app.

(** A loop that destroys each handle of a vector with entry point [f]. *)
Fixpoint destroy_each (f : VkFn) (device : Handle) (vs : list Handle) : M unit :=
  match vs with
  | [] => ret tt
  | v :: rest => vk_void f [device; v] [] ;;; destroy_each f device rest
  end.

Definition terminate (app : VulkanAppBase) : M VulkanAppBase :=
  vk_call vkDeviceWaitIdle [m_device app] ;;;
  emit (Hook cleanup []) ;;;
  vk_void vkFreeCommandBuffers
          ([m_device app; m_commandPool app; uint32_t (zlength (m_commands app))]
           ++ m_commands app) [] ;;;
  let app := set_m_commands [] app in
  vk_void vkDestroyRenderPass [m_device app; m_renderPass app] [] ;;;
  destroy_each vkDestroyFramebuffer (m_device app) (m_framebuffers app) ;;;
  let app := set_m_swapchainImages [] app in
  vk_void vkDestroySwapchainKHR [m_device app; m_swapchain app] [] ;;;
  destroy_each vkDestroyFence (m_device app) (m_fences app) ;;;
  let app := set_m_fences [] app in
  vk_void vkDestroySemaphore [m_device app; m_presentCompletedSem app] [] ;;;
  vk_void vkDestroySemaphore [m_device app; m_renderCompletedSem app] [] ;;;
  vk_void vkDestroyCommandPool [m_device app; m_commandPool app] [] ;;;
  vk_void vkDestroySurfaceKHR [m_instance app; m_surface app] [] ;;;
  vk_void vkDestroyDevice [m_device app] [] ;;;
  (if DEBUG then disableDebugReport app else ret tt) ;;;
  vk_void vkDestroyInstance [m_instance app] [] ;;;
  ret app.

Definition render (app : VulkanAppBase) : M VulkanAppBase :=
  '(_, nextImageIndex) <-
     vk_acquire [m_device app; m_swapchain app; UINT64_MAX;
                 m_presentCompletedSem app; VK_NULL_HANDLE] ;;
  commandFence <- at_index (m_fences app) nextImageIndex ;;
  vk_wait_for_fence (m_device app) commandFence ;;;
  framebuffer <- at_index (m_framebuffers app) nextImageIndex ;;
  command <- at_index (m_commands app) nextImageIndex ;;
  vk_call vkBeginCommandBuffer [command] ;;;
  vk_void vkCmdBeginRenderPass
          [command; m_renderPass app; framebuffer; 0; 0;
           width (m_swapchainExtent app); height (m_swapchainExtent app); 2;
           VK_SUBPASS_CONTENTS_INLINE] [] ;;;
  let app := set_m_imageIndex nextImageIndex app in
  emit (Hook makeCommand [command; m_imageIndex app]) ;;;
  vk_void vkCmdEndRenderPass [command] [] ;;;
  vk_call vkEndCommandBuffer [command] ;;;
  vk_reset_fence (m_device app) commandFence ;;;
  vk_call vkQueueSubmit
          [m_deviceQueue app; 1; command;
           VK_PIPELINE_STAGE_COLOR_ATTACHMENT_OUTPUT_BIT;
           m_presentCompletedSem app; m_renderCompletedSem app; commandFence] ;;;
  vk_call vkQueuePresentKHR
          [m_deviceQueue app; m_swapchain app; nextImageIndex;
           m_renderCompletedSem app] ;;;
  ret app.

(** The loop of [wWinMain]: [frames] is the number of iterations before the
    window asks to be closed. *)
Fixpoint render_loop (frames : nat) (app : VulkanAppBase) : M VulkanAppBase :=
  match frames with
  | O => ret app
  | S n => app <- render app ;; render_loop n app
  end.

Definition wWinMain (window : Handle) (frames : nat) (indeterminate : VulkanAppBase)
  : M VulkanAppBase :=
  let theApp := VulkanAppBase_ctor indeterminate in
  theApp <- initialize window "SimpleTriangle" theApp ;;
  theApp <- render_loop frames theApp ;;
  terminate theApp.

End Program.

(** ** Reference environments *)

Definition zero_app : VulkanAppBase :=
  mkApp 0 0 0 0 (mkMemProps 0 []) 0 0 0 0 0 (mkSurfaceFormat 0 0)
        (mkSurfaceCaps 0 (mkExtent 0 0) 0) 0 (mkExtent 0 0) 0 0 0 [] [] 0 [] [] []
        0 0 0 0 0 0.

Definition w0 : World := mkWorld [] 1 [].

(** The array [memoryTypes] with the given property flags in its first
    entries. *)
Definition memoryTypes_of (flags : list Z) : list VkMemoryType :=
  resize VK_MAX_MEMORY_TYPES (mkMemoryType 0 0) (map (fun f => mkMemoryType f 0) flags).

(** A driver on which every call succeeds: one GPU with a graphics queue,
    two memory types (the second one device-local), a 640x480 surface with
    two images that are handed out in turn. *)
Definition drv_ok : Driver :=
  mkDriver (fun _ _ => VK_SUCCESS) (fun tr => Z.of_nat (length tr) mod 2)
           ["VK_KHR_surface"%string] [1001]
           (mkMemProps 2 (memoryTypes_of [6; 1]))
           [VK_QUEUE_GRAPHICS_BIT] ["VK_KHR_swapchain"%string] 1002
           [mkSurfaceFormat VK_FORMAT_B8G8R8A8_UNORM 0]
           (mkSurfaceCaps 2 (mkExtent 640 480) 1)
           (640, 480) (mkMemReqs 1228800 3) [2001; 2002]
           (fun _ => 3001).

Definition with_result (res : list Event -> VkFn -> VkResult) (d : Driver) : Driver :=
  mkDriver res (drv_acquire d) (drv_instanceExtensions d) (drv_physDevs d)
           (drv_memProps d) (drv_queueFamilies d) (drv_deviceExtensions d)
           (drv_deviceQueue d) (drv_surfaceFormats d) (drv_surfaceCaps d)
           (drv_windowSize d) (drv_memReqs d) (drv_swapchainImages d) (drv_procAddr d).

Definition with_memProps (p : VkPhysicalDeviceMemoryProperties) (d : Driver) : Driver :=
  mkDriver (drv_result d) (drv_acquire d) (drv_instanceExtensions d) (drv_physDevs d)
           p (drv_queueFamilies d) (drv_deviceExtensions d)
           (drv_deviceQueue d) (drv_surfaceFormats d) (drv_surfaceCaps d)
           (drv_windowSize d) (drv_memReqs d) (drv_swapchainImages d) (drv_procAddr d).

Definition with_surfaceFormats (fs : list VkSurfaceFormatKHR) (d : Driver) : Driver :=
  mkDriver (drv_result d) (drv_acquire d) (drv_instanceExtensions d) (drv_physDevs d)
           (drv_memProps d) (drv_queueFamilies d) (drv_deviceExtensions d)
           (drv_deviceQueue d) fs (drv_surfaceCaps d)
           (drv_windowSize d) (drv_memReqs d) (drv_swapchainImages d) (drv_procAddr d).

Definition with_swapchainImages (imgs : list Handle) (d : Driver) : Driver :=
  mkDriver (drv_result d) (drv_acquire d) (drv_instanceExtensions d) (drv_physDevs d)
           (drv_memProps d) (drv_queueFamilies d) (drv_deviceExtensions d)
           (drv_deviceQueue d) (drv_surfaceFormats d) (drv_surfaceCaps d)
           (drv_windowSize d) (drv_memReqs d) imgs (drv_procAddr d).

(** * Vocabulary of the properties

    The predicates, events and environments that the statements below are
    written with. *)

(** ** Surface format selection *)

Definition matches (format0 : Z) (f : VkSurfaceFormatKHR) : bool := format f =? format0.

(** The surface formats of an HDR-capable surface: the preferred format is
    listed with two colour spaces. *)
Definition drv_two_colorSpaces : Driver :=
  with_surfaceFormats [mkSurfaceFormat VK_FORMAT_B8G8R8A8_UNORM 0;
                       mkSurfaceFormat VK_FORMAT_B8G8R8A8_UNORM 1000104002] drv_ok.

(** The reading "the first matching format is selected". *)
Definition selects_first_match (d : Driver) (format0 : Z) (app : VulkanAppBase)
  (w : World) : Prop :=
  exists w',
    selectSurfaceFormat d format0 app w =
    Ok (match find (matches format0) (drv_surfaceFormats d) with
        | Some f => set_m_surfaceFormat f app
        | None => app
        end) w'.

(** ** The swapchain extent *)

(** Whether [createSwapchain] asks the window for its size. *)
Definition window_fallback (app : VulkanAppBase) : bool :=
  width (currentExtent (m_surfaceCaps app)) =? UINT32_NOT0.

Definition window_extent (d : Driver) : VkExtent2D :=
  mkExtent (uint32_t (fst (drv_windowSize d))) (uint32_t (snd (drv_windowSize d))).

Definition glfwGetWindowSize_event (d : Driver) (window : Handle) : Event :=
  Call glfwGetWindowSize [window] None [fst (drv_windowSize d); snd (drv_windowSize d)].

(** The world in which [vkCreateSwapchainKHR] is called. *)
Definition before_vkCreateSwapchainKHR (d : Driver) (window : Handle)
  (app : VulkanAppBase) (w : World) : World :=
  if window_fallback app then log [glfwGetWindowSize_event d window] w else w.

Definition vkCreateSwapchainKHR_args (app : VulkanAppBase) (extent : VkExtent2D)
  : list Z :=
  [m_device app; m_surface app; Z.max 2 (minImageCount (m_surfaceCaps app));
   format (m_surfaceFormat app); colorSpace (m_surfaceFormat app);
   width extent; height extent;
   VK_IMAGE_USAGE_COLOR_ATTACHMENT_BIT;
   currentTransform (m_surfaceCaps app); 1;
   VK_SHARING_MODE_EXCLUSIVE; 0; m_presentMode app;
   VK_NULL_HANDLE; VK_TRUE; VK_COMPOSITE_ALPHA_OPAQUE_BIT_KHR].



(** A capability snapshot whose extent has the sentinel as width only. *)
Definition app_width_undefined : VulkanAppBase :=
  set_m_surfaceCaps (mkSurfaceCaps 2 (mkExtent UINT32_NOT0 100) 1) zero_app.



(** ** Memory type selection for the depth buffer *)

(** Memory type [j] is allowed by the mask [bits] and has all of [props]. *)
Definition suitable (mts : list VkMemoryType) (bits props : Z) (j : Z) : Prop :=
  Z.testbit bits j = true /\
  exists t, mts !! Z.to_nat j = Some t /\ Z.land (propertyFlags t) props = props.

Definition vkCreateImage_args (app : VulkanAppBase) : list Z :=
  [m_device app; VK_IMAGE_TYPE_2D; VK_FORMAT_D32_SFLOAT;
   width (m_swapchainExtent app); height (m_swapchainExtent app); 1;
   VK_IMAGE_USAGE_DEPTH_STENCIL_ATTACHMENT_BIT; VK_SAMPLE_COUNT_1_BIT; 1].

(** The reading of C1 in which a missing memory type is signaled: the
    sentinel makes [createDepthBuffer] stop in [DebugBreak] before any memory
    is allocated. *)
Definition missing_memory_type_signaled (d : Driver) (app : VulkanAppBase)
  (w : World) : Prop :=
  getMemoryTypeIndex app (memoryTypeBits (drv_memReqs d))
                     VK_MEMORY_PROPERTY_DEVICE_LOCAL_BIT = Some UINT32_NOT0 ->
  exists w',
    createDepthBuffer d app w = Trap w' /\
    forall args res outs, ~ In (Call vkAllocateMemory args res outs) (trace w').

(** A device whose only memory type is host-visible and host-coherent. *)
Definition memProps_host_only : VkPhysicalDeviceMemoryProperties :=
  mkMemProps 1 (memoryTypes_of [6]).

Definition app_host_only : VulkanAppBase :=
  set_m_physMemProps memProps_host_only (set_m_device 2 zero_app).

Definition app_two_memory_types : VulkanAppBase :=
  set_m_physMemProps (drv_memProps drv_ok) (set_m_device 2 zero_app).

(** ** One frame *)

(** The calls of one [render] on image [i], in the order they are made.
    [ready] tells whether the fence was signaled when the wait began; if not,
    the thread is suspended in the wait. *)
Definition frame_events (app : VulkanAppBase) (i fence framebuffer command : Z)
  (ready : bool)
  (r_acquire r_wait r_begin r_end r_reset r_submit r_present : VkResult)
  : list Event :=
  [Call vkAcquireNextImageKHR
        [m_device app; m_swapchain app; UINT64_MAX; m_presentCompletedSem app;
         VK_NULL_HANDLE] (Some r_acquire) [i]]
  ++ (if ready then [] else [Block fence]) ++
  [Call vkWaitForFences [m_device app; 1; fence; VK_TRUE; UINT64_MAX] (Some r_wait) [];
   Call vkBeginCommandBuffer [command] (Some r_begin) [];
   Call vkCmdBeginRenderPass
        [command; m_renderPass app; framebuffer; 0; 0;
         width (m_swapchainExtent app); height (m_swapchainExtent app); 2;
         VK_SUBPASS_CONTENTS_INLINE] None [];
   Hook makeCommand [command; i];
   Call vkCmdEndRenderPass [command] None [];
   Call vkEndCommandBuffer [command] (Some r_end) [];
   Call vkResetFences [m_device app; 1; fence] (Some r_reset) [];
   Call vkQueueSubmit
        [m_deviceQueue app; 1; command; VK_PIPELINE_STAGE_COLOR_ATTACHMENT_OUTPUT_BIT;
         m_presentCompletedSem app; m_renderCompletedSem app; fence]
        (Some r_submit) [];
   Call vkQueuePresentKHR
        [m_deviceQueue app; m_swapchain app; i; m_renderCompletedSem app]
        (Some r_present) []].

(** The object after a successful [initialize] on [drv_ok]: two images. *)
Definition app_ready : VulkanAppBase :=
  match initialize drv_ok false 77 "SimpleTriangle" (VulkanAppBase_ctor zero_app) w0 with
  | Ok app _ => app
  | _ => zero_app
  end.

Definition w_ready : World :=
  world_of (initialize drv_ok false 77 "SimpleTriangle" (VulkanAppBase_ctor zero_app) w0).

(** The object and the world after [frames] more frames. *)
Definition app_after (frames : nat) : VulkanAppBase :=
  match render_loop drv_ok frames app_ready w_ready with
  | Ok app _ => app
  | _ => zero_app
  end.

Definition w_after (frames : nat) : World :=
  world_of (render_loop drv_ok frames app_ready w_ready).

(** ** Result codes *)

(** The entry points whose result is passed to [checkResult]. *)
Definition checked (f : VkFn) : bool :=
  match f with
  | vkCreateInstance | vkCreateDevice | vkCreateCommandPool | vkCreateSwapchainKHR
  | vkCreateImage | vkCreateImageView | vkCreateRenderPass | vkCreateFramebuffer
  | vkAllocateCommandBuffers | vkCreateFence => true
  | _ => false
  end.

(** An event that is neither [DebugBreak] nor a failed call of a checked
    entry point. *)
Definition quiet (e : Event) : Prop :=
  match e with
  | Call f _ (Some r) _ => checked f = true -> r = VK_SUCCESS
  | DebugBreak => False
  | _ => True
  end.

(** What a function adds to the trace. *)
Definition new_events {A} (m : M A) (w : World) : list Event :=
  drop (length (trace w)) (trace (world_of (m w))).

(** A computation is guarded when it only appends to the trace, when a run
    that does not stop in [DebugBreak] made quiet calls only, and when a run
    that stops there stops right after the first failed call of a checked
    entry point. *)
Definition guarded {A} (m : M A) : Prop :=
  forall w, exists new,
    trace (world_of (m w)) = trace w ++ new /\
    match m w with
    | Trap _ =>
        exists before f args r outs,
          new = before ++ [Call f args (Some r) outs; DebugBreak] /\
          checked f = true /\ r <> VK_SUCCESS /\ Forall quiet before
    | _ => Forall quiet new
    end.

(** A call of a checked entry point: it returns its result code [r] and logs
    one call with that result. *)
Definition checked_call {A} (m : M (VkResult * A)) : Prop :=
  forall w, exists r x w' f args outs,
    m w = Ok (r, x) w' /\
    trace w' = trace w ++ [Call f args (Some r) outs] /\
    checked f = true.


(** A driver that loses the device at the first queue submission. *)
Definition drv_submit_lost : Driver :=
  with_result (fun _ f => match f with
                          | vkQueueSubmit => VK_ERROR_DEVICE_LOST
                          | _ => VK_SUCCESS
                          end) drv_ok.


(** ** The per-image vectors *)

Definition vkCreateFence_event (device : Handle) (fence : Handle) : Event :=
  Call vkCreateFence [device; VK_FENCE_CREATE_SIGNALED_BIT] (Some VK_SUCCESS) [fence].

(** [w'] is [w] with more events. *)
Definition extends (w w' : World) : Prop := exists new, trace w' = trace w ++ new.


(** A swapchain that is asked for two images and returns three. *)
Definition drv_three_images : Driver := with_swapchainImages [2001; 2002; 2003] drv_ok.

Definition app_three_images : VulkanAppBase :=
  match initialize drv_three_images false 77 "SimpleTriangle"
                   (VulkanAppBase_ctor zero_app) w0 with
  | Ok app _ => app
  | _ => zero_app
  end.

Definition w_three_images : World :=
  world_of (initialize drv_three_images false 77 "SimpleTriangle"
                       (VulkanAppBase_ctor zero_app) w0).

Definition vkWaitForFences_event (device fence : Handle) (r : VkResult) : Event :=
  Call vkWaitForFences [device; 1; fence; VK_TRUE; UINT64_MAX] (Some r) [].

(** [fence] has been waited for in [l]. *)
Definition waited (device fence : Handle) (l : list Event) : Prop :=
  exists r, In (vkWaitForFences_event device fence r) l.

(** ** Handles created and released *)

Inductive Resource : Type :=
| RInstance | RDevice | RSurface | RSwapchain | RImage | RDeviceMemory | RImageView
| RRenderPass | RFramebuffer | RCommandBuffer | RFence | RSemaphore | RCommandPool
| RDebugReportCallback.

#[global] Instance Resource_eq_dec : EqDecision Resource.
Proof. solve_decision. Defined.

(** The kind of object an entry point creates. *)
Definition creates (f : VkFn) : option Resource :=
  match f with
  | vkCreateInstance => Some RInstance
  | vkCreateDevice => Some RDevice
  | glfwCreateWindowSurface => Some RSurface
  | vkCreateSwapchainKHR => Some RSwapchain
  | vkCreateImage => Some RImage
  | vkAllocateMemory => Some RDeviceMemory
  | vkCreateImageView => Some RImageView
  | vkCreateRenderPass => Some RRenderPass
  | vkCreateFramebuffer => Some RFramebuffer
  | vkAllocateCommandBuffers => Some RCommandBuffer
  | vkCreateFence => Some RFence
  | vkCreateSemaphore => Some RSemaphore
  | vkCreateCommandPool => Some RCommandPool
  | vkCreateDebugReportCallbackEXT => Some RDebugReportCallback
  | _ => None
  end.

(** The handles an event brings into existence: the outputs of a creating
    call (a failed call has none). *)
Definition acquired (e : Event) : list (Resource * Handle) :=
  match e with
  | Call f _ (Some _) outs =>
      match creates f with
      | Some k => map (pair k) outs
      | None => []
      end
  | _ => []
  end.

(** The handles an event destroys or frees. *)
Definition released (e : Event) : list (Resource * Handle) :=
  match e with
  | Call f args None _ =>
      match f with
      | vkDestroyInstance => map (pair RInstance) (take 1 args)
      | vkDestroyDevice => map (pair RDevice) (take 1 args)
      | vkDestroySurfaceKHR => map (pair RSurface) (drop 1 args)
      | vkDestroySwapchainKHR => map (pair RSwapchain) (drop 1 args)
      | vkDestroyRenderPass => map (pair RRenderPass) (drop 1 args)
      | vkDestroyFramebuffer => map (pair RFramebuffer) (drop 1 args)
      | vkFreeCommandBuffers => map (pair RCommandBuffer) (drop 3 args)
      | vkDestroyFence => map (pair RFence) (drop 1 args)
      | vkDestroySemaphore => map (pair RSemaphore) (drop 1 args)
      | vkDestroyCommandPool => map (pair RCommandPool) (drop 1 args)
      | vkDestroyDebugReportCallbackEXT => map (pair RDebugReportCallback) (drop 1 args)
      | _ => []
      end
  | _ => []
  end.

(** The handles created and not destroyed, in order of creation. *)
Definition outstanding (tr : list Event) : list (Resource * Handle) :=
  fold_left (fun live e => list_difference (live ++ acquired e) (released e)) tr [].

(** The whole program on [drv_ok], closed after [frames] frames. *)
Definition run_ok (frames : nat) : Outcome VulkanAppBase :=
  wWinMain drv_ok false 77 frames zero_app w0.

(** ** Kinds of events *)

(** An event whose kind passes: a call of an entry point in [pf], a hook in
    [ph], a [Block] if [pblock], a [DebugBreak] if [pbreak]. *)
Definition by_kind (pf : VkFn -> bool) (ph : HookFn -> bool) (pblock pbreak : bool)
  (e : Event) : Prop :=
  match e with
  | Call f _ _ _ => pf f = true
  | Hook h _ => ph h = true
  | Block _ => pblock = true
  | DebugBreak => pbreak = true
  end.

(** A computation only appends to the trace, and every event it appends
    satisfies [P], however it ends. *)
Definition emits (P : Event -> Prop) {A} (m : M A) : Prop :=
  forall w, exists new,
    trace (world_of (m w)) = trace w ++ new /\ Forall P new.

(** The entry points that hand a handle back to the driver. *)
Definition releases (f : VkFn) : bool :=
  match f with
  | vkFreeCommandBuffers | vkDestroyRenderPass | vkDestroyFramebuffer
  | vkDestroySwapchainKHR | vkDestroyFence | vkDestroySemaphore
  | vkDestroyCommandPool | vkDestroySurfaceKHR | vkDestroyDevice
  | vkDestroyInstance | vkDestroyDebugReportCallbackEXT => true
  | _ => false
  end.

(** The entry points that appear in [initialize] and in the functions it
    calls. *)
Definition called_by_initialize (f : VkFn) : bool :=
  match f with
  | vkEnumerateInstanceExtensionProperties | vkCreateInstance
  | vkEnumeratePhysicalDevices | vkGetPhysicalDeviceMemoryProperties
  | vkGetPhysicalDeviceQueueFamilyProperties
  | vkGetInstanceProcAddr | vkCreateDebugReportCallbackEXT
  | vkEnumerateDeviceExtensionProperties | vkCreateDevice | vkGetDeviceQueue
  | vkCreateCommandPool | glfwCreateWindowSurface
  | vkGetPhysicalDeviceSurfaceFormatsKHR
  | vkGetPhysicalDeviceSurfaceCapabilitiesKHR
  | vkGetPhysicalDeviceSurfaceSupportKHR
  | glfwGetWindowSize | vkCreateSwapchainKHR
  | vkCreateImage | vkGetImageMemoryRequirements | vkAllocateMemory
  | vkBindImageMemory | vkGetSwapchainImagesKHR | vkCreateImageView
  | vkCreateRenderPass | vkCreateFramebuffer | vkAllocateCommandBuffers
  | vkCreateFence | vkCreateSemaphore => true
  | _ => false
  end.

(** The entry points that appear in [render]. *)
Definition called_by_render (f : VkFn) : bool :=
  match f with
  | vkAcquireNextImageKHR | vkWaitForFences | vkBeginCommandBuffer
  | vkCmdBeginRenderPass | vkCmdEndRenderPass | vkEndCommandBuffer
  | vkResetFences | vkQueueSubmit | vkQueuePresentKHR => true
  | _ => false
  end.

(** The events of [initialize] before the [prepare] hook: calls of its entry
    points and [DebugBreak]; no hook, no wait. *)
Definition setup_event : Event -> Prop :=
  by_kind called_by_initialize (fun _ => false) false true.

(** The events of [render]: calls of its entry points, the [makeCommand]
    hook, a suspension in the fence wait; no [DebugBreak]. *)
Definition frame_event : Event -> Prop :=
  by_kind called_by_render
          (fun h => match h with makeCommand => true | _ => false end) true false.

(** An event that is not the release of a handle. *)
Definition keeps_handles (e : Event) : Prop :=
  match e with
  | Call f _ _ _ => releases f = false
  | _ => True
  end.

(** An event that is not the creation of a handle. *)
Definition creates_nothing (e : Event) : Prop :=
  match e with
  | Call f _ _ _ => creates f = None
  | _ => True
  end.

(** [initialize] ran to its end: the [prepare] hook is the last thing it did,
    after set-up events only; a run that stopped did set-up events only. *)
Definition prepared_last {A} (m : M A) : Prop :=
  forall w, exists new,
    trace (world_of (m w)) = trace w ++ new /\
    match m w with
    | Ok _ _ => exists body, new = body ++ [Hook prepare []] /\ Forall setup_event body
    | _ => Forall setup_event new
    end.

(** ** Teardown *)

Definition destroy_events (f : VkFn) (device : Handle) (vs : list Handle) : list Event :=
  map (fun v => Call f [device; v] None []) vs.

(** The events of [terminate] on [app], where [r] is what
    [vkDeviceWaitIdle] returned. *)
Definition terminate_events (DEBUG : bool) (app : VulkanAppBase) (r : VkResult)
  : list Event :=
  [Call vkDeviceWaitIdle [m_device app] (Some r) [];
   Hook cleanup [];
   Call vkFreeCommandBuffers
        ([m_device app; m_commandPool app; uint32_t (zlength (m_commands app))]
         ++ m_commands app) None [];
   Call vkDestroyRenderPass [m_device app; m_renderPass app] None []]
  ++ destroy_events vkDestroyFramebuffer (m_device app) (m_framebuffers app)
  ++ [Call vkDestroySwapchainKHR [m_device app; m_swapchain app] None []]
  ++ destroy_events vkDestroyFence (m_device app) (m_fences app)
  ++ [Call vkDestroySemaphore [m_device app; m_presentCompletedSem app] None [];
      Call vkDestroySemaphore [m_device app; m_renderCompletedSem app] None [];
      Call vkDestroyCommandPool [m_device app; m_commandPool app] None [];
      Call vkDestroySurfaceKHR [m_instance app; m_surface app] None [];
      Call vkDestroyDevice [m_device app] None []]
  ++ (if DEBUG && negb (m_vkDestroyDebugReportCallbackEXT app =? 0)
      then [Call vkDestroyDebugReportCallbackEXT [m_instance app; m_debugReport app]
                 None []]
      else [])
  ++ [Call vkDestroyInstance [m_instance app] None []].

(** The object [terminate] leaves behind. *)
Definition terminated (app : VulkanAppBase) : VulkanAppBase :=
  set_m_fences [] (set_m_swapchainImages [] (set_m_commands [] app)).

(** ** Queue family search *)

Definition has_graphics (queueFlags : Z) : Prop :=
  Z.land queueFlags VK_QUEUE_GRAPHICS_BIT <> 0.

(** ** Counting calls *)

Fixpoint count (p : Event -> bool) (l : list Event) : nat :=
  match l with
  | [] => O
  | e :: l' => if p e then S (count p l') else count p l'
  end.

Definition is_call (p : VkFn -> bool) (e : Event) : bool :=
  match e with
  | Call f _ _ _ => p f
  | _ => false
  end.

Definition is_acquire : Event -> bool :=
  is_call (fun f => match f with vkAcquireNextImageKHR => true | _ => false end).
Definition is_submit : Event -> bool :=
  is_call (fun f => match f with vkQueueSubmit => true | _ => false end).
Definition is_present : Event -> bool :=
  is_call (fun f => match f with vkQueuePresentKHR => true | _ => false end).
Definition is_makeCommand (e : Event) : bool :=
  match e with
  | Hook makeCommand _ => true
  | _ => false
  end.

(** ** More environments *)

Definition with_acquire (acquire : list Event -> Z) (d : Driver) : Driver :=
  mkDriver (drv_result d) acquire (drv_instanceExtensions d) (drv_physDevs d)
           (drv_memProps d) (drv_queueFamilies d) (drv_deviceExtensions d)
           (drv_deviceQueue d) (drv_surfaceFormats d) (drv_surfaceCaps d)
           (drv_windowSize d) (drv_memReqs d) (drv_swapchainImages d) (drv_procAddr d).

(** A driver that hands out an image index the swapchain does not have. *)
Definition drv_index_5 : Driver := with_acquire (fun _ => 5) drv_ok.

(** A call that releases a handle. *)
Definition release_event (e : Event) : Prop :=
  match e with
  | Call f _ None _ => releases f = true
  | _ => False
  end.

(** ** Per-image objects *)

(** The creation of the colour view [view] of swapchain image [image]. *)
Definition vkCreateImageView_event (app : VulkanAppBase) (image view : Handle) : Event :=
  Call vkCreateImageView
       [m_device app; VK_IMAGE_VIEW_TYPE_2D; format (m_surfaceFormat app);
        VK_IMAGE_ASPECT_COLOR_BIT; image]
       (Some VK_SUCCESS) [view].

(** The creation of the view of the depth image. *)
Definition depth_view_event (app : VulkanAppBase) : Event :=
  Call vkCreateImageView
       [m_device app; VK_IMAGE_VIEW_TYPE_2D; VK_FORMAT_D32_SFLOAT;
        VK_IMAGE_ASPECT_DEPTH_BIT; m_depthBuffer app]
       (Some VK_SUCCESS) [m_depthBufferView app].

(** The creation of the framebuffer [framebuffer] on colour view [view]. *)
Definition vkCreateFramebuffer_event (app : VulkanAppBase) (view framebuffer : Handle)
  : Event :=
  Call vkCreateFramebuffer
       [m_device app; m_renderPass app;
        width (m_swapchainExtent app); height (m_swapchainExtent app); 1;
        2; view; m_depthBufferView app]
       (Some VK_SUCCESS) [framebuffer].

Definition vkCreateRenderPass_event (app : VulkanAppBase) : Event :=
  Call vkCreateRenderPass
       [m_device app; 2; format (m_surfaceFormat app); VK_FORMAT_D32_SFLOAT; 1]
       (Some VK_SUCCESS) [m_renderPass app].

(** ** The device and its queue family *)

(** The creation of the logical device, the retrieval of its queue and the
    creation of the command pool, as the members of [app] describe them. *)
Definition vkCreateDevice_event (d : Driver) (app : VulkanAppBase) : Event :=
  Call vkCreateDevice
       [m_physDev app; m_graphicsQueueIndex app; 1;
        uint32_t (zlength (drv_deviceExtensions d))]
       (Some VK_SUCCESS) [m_device app].

Definition vkGetDeviceQueue_event (app : VulkanAppBase) : Event :=
  Call vkGetDeviceQueue [m_device app; m_graphicsQueueIndex app; 0] None
       [m_deviceQueue app].

Definition vkCreateCommandPool_event (app : VulkanAppBase) : Event :=
  Call vkCreateCommandPool
       [m_device app; m_graphicsQueueIndex app;
        VK_COMMAND_POOL_CREATE_RESET_COMMAND_BUFFER_BIT]
       (Some VK_SUCCESS) [m_commandPool app].

(** The last enumerated surface format whose [format] is [format0], and
    [old] when there is none. *)
Definition last_match (format0 : Z) (formats : list VkSurfaceFormatKHR)
  (old : VkSurfaceFormatKHR) : VkSurfaceFormatKHR :=
  match find (matches format0) (rev formats) with
  | Some f => f
  | None => old
  end.

Definition with_queueFamilies (qs : list Z) (d : Driver) : Driver :=
  mkDriver (drv_result d) (drv_acquire d) (drv_instanceExtensions d) (drv_physDevs d)
           (drv_memProps d) qs (drv_deviceExtensions d)
           (drv_deviceQueue d) (drv_surfaceFormats d) (drv_surfaceCaps d)
           (drv_windowSize d) (drv_memReqs d) (drv_swapchainImages d) (drv_procAddr d).

(** A device with a compute family and a transfer family, and no graphics
    family. *)
Definition drv_no_graphics : Driver := with_queueFamilies [2; 4] drv_ok.

(** ** Image indices *)

(** An acquire, if [e] is one, handed out an index below [n]. *)
Definition acquires_below (n : Z) (e : Event) : Prop :=
  match e with
  | Call vkAcquireNextImageKHR _ _ outs => exists i, outs = [i] /\ 0 <= i < n
  | _ => True
  end.

(** ** The debug report callback *)

(** The three lookups of [enableDebugReport], in the order of the code. *)
Definition GetInstanceProcAddr_events (d : Driver) (app : VulkanAppBase) : list Event :=
  map (fun name => Call vkGetInstanceProcAddr [m_instance app] None [drv_procAddr d name])
      ["vkCreateDebugReportCallbackEXT"%string; "vkDebugReportMessageEXT"%string;
       "vkDestroyDebugReportCallbackEXT"%string].

(** The object after the three lookups. *)
Definition with_debug_pointers (d : Driver) (app : VulkanAppBase) : VulkanAppBase :=
  set_m_vkDestroyDebugReportCallbackEXT
    (drv_procAddr d "vkDestroyDebugReportCallbackEXT")
    (set_m_vkDebugReportMessageEXT (drv_procAddr d "vkDebugReportMessageEXT")
       (set_m_vkCreateDebugReportCallbackEXT
          (drv_procAddr d "vkCreateDebugReportCallbackEXT") app)).

(** * Properties *)

(** ** The monad *)

Lemma bind_Ok_inv {A B} (m : M A) (k : A -> M B) w b w2 :
  bind m k w = Ok b w2 -> exists a w1, m w = Ok a w1 /\ k a w1 = Ok b w2.
Proof.
  unfold bind. destruct (m w) as [a w1 | w1 | w1]; try discriminate.
  intros H. exists a, w1. split; [reflexivity | exact H].
Qed.

Lemma checkResult_Ok_inv r w u w' :
  checkResult r w = Ok u w' -> r = VK_SUCCESS /\ w' = w.
Proof.
  unfold checkResult. destruct (Z.eqb_spec r VK_SUCCESS) as [-> | Hne]; simpl.
  - unfold ret. intros H. inversion H. split; reflexivity.
  - unfold bind, emit, trap. discriminate.
Qed.

(** ** Surface format selection *)

Lemma selectSurfaceFormat_loop_last format0 formats app :
  selectSurfaceFormat_loop format0 formats app =
  match find (matches format0) (rev formats) with
  | Some f => set_m_surfaceFormat f app
  | None => app
  end.
Proof.
  unfold selectSurfaceFormat_loop.
  induction formats as [| x l IH] using rev_ind; [reflexivity |].
  rewrite fold_left_app, rev_app_distr. simpl. rewrite IH.
  change (matches format0 x) with (format x =? format0).
  destruct (format x =? format0); [| reflexivity].
  destruct (find (matches format0) (rev l)); reflexivity.
Qed.

(** C2, as stated, fails: with two entries of the preferred format the second
    one is what ends up in [m_surfaceFormat]. *)
Lemma selectSurfaceFormat_not_first :
  ~ selects_first_match drv_two_colorSpaces VK_FORMAT_B8G8R8A8_UNORM zero_app w0.
Proof.
  intros [w' H]. vm_compute in H. discriminate H.
Qed.

(** C2 (amended): [selectSurfaceFormat] always returns; it sets
    [m_surfaceFormat] to the last enumerated format whose [format] equals the
    preferred one, and leaves the object as it was when no enumerated format
    matches; nothing but the two enumeration calls happens, so no error is
    signaled. *)
Theorem selectSurfaceFormat_last_match (d : Driver) (format0 : Z)
  (app : VulkanAppBase) (w : World) :
  exists w',
    selectSurfaceFormat d format0 app w =
    Ok (match find (matches format0) (rev (drv_surfaceFormats d)) with
        | Some f => set_m_surfaceFormat f app
        | None => app
        end) w'
    /\ (exists r1 r2,
         trace w' = trace w ++
           [Call vkGetPhysicalDeviceSurfaceFormatsKHR
                 [m_physDev app; m_surface app; 0] (Some r1) [];
            Call vkGetPhysicalDeviceSurfaceFormatsKHR
                 [m_physDev app; m_surface app; zlength (drv_surfaceFormats d)]
                 (Some r2) []]).
Proof.
  unfold selectSurfaceFormat, bind, vk_call, ret, log. simpl.
  eexists. split.
  - rewrite selectSurfaceFormat_loop_last. reflexivity.
  - simpl. do 2 eexists. rewrite <- app_assoc. reflexivity.
Qed.

(** ** The swapchain extent *)

Lemma createSwapchain_run (d : Driver) (window : Handle) (app : VulkanAppBase)
  (w : World) :
  let extent := if window_fallback app then window_extent d
                else currentExtent (m_surfaceCaps app) in
  let w1 := before_vkCreateSwapchainKHR d window app w in
  let r := drv_result d (trace w1) vkCreateSwapchainKHR in
  let args := vkCreateSwapchainKHR_args app extent in
  createSwapchain d window app w =
  if r =? VK_SUCCESS then
    Ok (set_m_swapchainExtent extent (set_m_swapchain (next_handle w1) app))
       (mkWorld (trace w1 ++ [Call vkCreateSwapchainKHR args (Some r) [next_handle w1]])
                (next_handle w1 + 1) (signaled w1))
  else
    Trap (log [DebugBreak] (log [Call vkCreateSwapchainKHR args (Some r) []] w1)).
Proof.
  unfold createSwapchain, before_vkCreateSwapchainKHR, window_fallback, window_extent,
    vkCreateSwapchainKHR_args, glfwGetWindowSize_event.
  destruct (width (currentExtent (m_surfaceCaps app)) =? UINT32_NOT0); simpl;
    unfold bind, vk_void, emit, vk_create, checkResult, ret, trap, log; simpl;
    match goal with
    | |- context [drv_result d ?tr vkCreateSwapchainKHR =? VK_SUCCESS] =>
        destruct (drv_result d tr vkCreateSwapchainKHR =? VK_SUCCESS) eqn:Hr
    end; simpl; rewrite ?Hr; reflexivity.
Qed.

Lemma createSwapchain_extent (d : Driver) (window : Handle) (app : VulkanAppBase)
  (w : World) :
  drv_result d (trace (before_vkCreateSwapchainKHR d window app w))
             vkCreateSwapchainKHR = VK_SUCCESS ->
  exists app' w',
    createSwapchain d window app w = Ok app' w' /\
    m_swapchainExtent app' =
      (if window_fallback app then window_extent d
       else currentExtent (m_surfaceCaps app)) /\
    exists h,
      trace w' = trace w ++
        (if window_fallback app then [glfwGetWindowSize_event d window] else []) ++
        [Call vkCreateSwapchainKHR
              (vkCreateSwapchainKHR_args app (m_swapchainExtent app'))
              (Some VK_SUCCESS) [h]].
Proof.
  intros Hr. rewrite createSwapchain_run. rewrite Hr. simpl.
  do 2 eexists. split; [reflexivity |]. split; [reflexivity |].
  eexists. unfold before_vkCreateSwapchainKHR.
  destruct (window_fallback app); simpl.
  - rewrite <- app_assoc. reflexivity.
  - reflexivity.
Qed.



(** C9: [createSwapchain] asks the window for its size if and only if the
    width of the capability's current extent is 0xFFFFFFFF, whatever the
    height is; when it does, the width and the height of the swapchain extent
    are both the window's ([int] converted to [uint32_t]); when it does not,
    [glfwGetWindowSize] is not called and the current extent is kept. *)
Theorem createSwapchain_fallback_by_width (d : Driver) (window : Handle)
  (app : VulkanAppBase) (w : World) :
  drv_result d (trace (before_vkCreateSwapchainKHR d window app w))
             vkCreateSwapchainKHR = VK_SUCCESS ->
  exists app' w' h,
    createSwapchain d window app w = Ok app' w' /\
    let call := Call vkCreateSwapchainKHR
                     (vkCreateSwapchainKHR_args app (m_swapchainExtent app'))
                     (Some VK_SUCCESS) [h] in
    (width (currentExtent (m_surfaceCaps app)) = UINT32_NOT0 ->
     trace w' = trace w ++ [glfwGetWindowSize_event d window; call] /\
     width (m_swapchainExtent app') = uint32_t (fst (drv_windowSize d)) /\
     height (m_swapchainExtent app') = uint32_t (snd (drv_windowSize d))) /\
    (width (currentExtent (m_surfaceCaps app)) <> UINT32_NOT0 ->
     trace w' = trace w ++ [call] /\
     m_swapchainExtent app' = currentExtent (m_surfaceCaps app)).
Proof.
  intros Hr.
  destruct (createSwapchain_extent d window app w Hr) as (app' & w' & Hrun & He & h & Htr).
  exists app', w', h. split; [exact Hrun |]. simpl.
  unfold window_fallback in *.
  destruct (Z.eqb_spec (width (currentExtent (m_surfaceCaps app))) UINT32_NOT0) as [Heq | Hne].
  - split; [| intros Hc; contradiction]. intros _.
    split; [exact Htr |]. rewrite He. split; reflexivity.
  - split; [intros Hc; contradiction |]. intros _. split; [exact Htr | exact He].
Qed.

Lemma createSwapchain_fallback_by_width_witness :
  exists app' w',
    createSwapchain drv_ok 77 app_width_undefined w0 = Ok app' w' /\
    m_swapchainExtent app' = mkExtent 640 480.
Proof.
  destruct (createSwapchain_fallback_by_width drv_ok 77 app_width_undefined w0 eq_refl)
    as (app' & w' & h & Hrun & Hw & _).
  exists app', w'. split; [exact Hrun |].
  destruct (Hw eq_refl) as (_ & Hwd & Hht).
  destruct app' as [? ? ? ? ? ? ? ? ? ? ? ? ? [wd ht]]. simpl in *.
  rewrite Hwd, Hht. reflexivity.
Defined.

(** ** Memory type selection for the depth buffer *)

Lemma land_1_testbit (x : Z) : (Z.land x 1 =? 0) = negb (Z.testbit x 0).
Proof.
  change 1 with (Z.ones 1). rewrite Z.land_ones by lia.
  change (2 ^ 1) with 2. rewrite <- Z.bit0_mod.
  destruct (Z.testbit x 0); reflexivity.
Qed.

Lemma getMemoryTypeIndex_loop_spec (mts : list VkMemoryType) (bits props : Z) (n : nat) :
  forall i : Z,
    0 <= i ->
    (forall j, i <= j -> Z.testbit bits j = true -> is_Some (mts !! Z.to_nat j)) ->
    exists r,
      getMemoryTypeIndex_loop mts n i (Z.shiftr bits i) props = Some r /\
      ((i <= r < i + Z.of_nat n /\ suitable mts bits props r /\
        forall j, i <= j < r -> ~ suitable mts bits props j)
       \/ (r = UINT32_NOT0 /\
           forall j, i <= j < i + Z.of_nat n -> ~ suitable mts bits props j)).
Proof.
  induction n as [| n IH]; intros i Hi Hread.
  - exists UINT32_NOT0. split; [reflexivity |]. right. split; [reflexivity |]. lia.
  - cbn [getMemoryTypeIndex_loop].
    rewrite land_1_testbit, Z.shiftr_spec by lia. rewrite Z.add_0_l.
    rewrite Z.shiftr_shiftr by lia.
    assert (Hnext : forall j, i + 1 <= j -> Z.testbit bits j = true ->
                               is_Some (mts !! Z.to_nat j))
      by (intros j Hj; apply Hread; lia).
    destruct (IH (i + 1) ltac:(lia) Hnext) as (r & Hr & Hcases).
    assert (Hstep : ~ suitable mts bits props i ->
              (i + 1 <= r < i + 1 + Z.of_nat n /\ suitable mts bits props r /\
               (forall j, i + 1 <= j < r -> ~ suitable mts bits props j)) \/
              (r = UINT32_NOT0 /\
               forall j, i + 1 <= j < i + 1 + Z.of_nat n -> ~ suitable mts bits props j) ->
              (i <= r < i + Z.of_nat (S n) /\ suitable mts bits props r /\
               (forall j, i <= j < r -> ~ suitable mts bits props j)) \/
              (r = UINT32_NOT0 /\
               forall j, i <= j < i + Z.of_nat (S n) -> ~ suitable mts bits props j)).
    { intros Hnot [(Hrange & Hsuit & Hfirst) | (Hnone & Hall)].
      - left. split; [lia |]. split; [exact Hsuit |].
        intros j Hj. destruct (Z.eq_dec j i) as [-> | Hne]; [exact Hnot |].
        apply Hfirst. lia.
      - right. split; [exact Hnone |].
        intros j Hj. destruct (Z.eq_dec j i) as [-> | Hne]; [exact Hnot |].
        apply Hall. lia. }
    destruct (Z.testbit bits i) eqn:Hbit; cbn [negb].
    + destruct (Hread i ltac:(lia) Hbit) as [t Ht]. rewrite Ht.
      destruct (Z.eqb_spec (Z.land (propertyFlags t) props) props) as [Hsup | Hsup].
      * exists i. split; [reflexivity |]. left. split; [lia |]. split.
        -- split; [exact Hbit |]. exists t. split; [exact Ht | exact Hsup].
        -- intros j Hj. lia.
      * exists r. split; [exact Hr |]. apply Hstep; [| exact Hcases].
        intros (_ & t' & Ht' & Hsup'). rewrite Ht in Ht'. inversion Ht'. subst t'.
        contradiction.
    + exists r. split; [exact Hr |]. apply Hstep; [| exact Hcases].
      intros (Hbit' & _). congruence.
Qed.

Lemma testbit_uint32_high (bits j : Z) :
  0 <= bits < UINT32_MOD -> 32 <= j -> Z.testbit bits j = false.
Proof.
  intros Hb Hj. destruct (Z.eq_dec bits 0) as [-> | Hnz]; [apply Z.bits_0 |].
  apply Z.bits_above_log2; [lia |].
  assert (Z.log2 bits < 32); [| lia].
  apply Z.log2_lt_pow2; [lia |]. change (2 ^ 32) with UINT32_MOD. lia.
Qed.

(** What [getMemoryTypeIndex] returns: the lowest suitable index below
    [memoryTypeCount] if there is one, and [~0u] otherwise. *)
Lemma getMemoryTypeIndex_spec (app : VulkanAppBase) (bits props : Z) :
  let mts := memoryTypes (m_physMemProps app) in
  let count := memoryTypeCount (m_physMemProps app) in
  length mts = VK_MAX_MEMORY_TYPES ->
  0 <= bits < UINT32_MOD ->
  count < UINT32_MOD ->
  exists r,
    getMemoryTypeIndex app bits props = Some r /\
    ((0 <= r < count /\ r <> UINT32_NOT0 /\ suitable mts bits props r /\
      forall j, 0 <= j < r -> ~ suitable mts bits props j)
     \/ (r = UINT32_NOT0 /\ forall j, 0 <= j < count -> ~ suitable mts bits props j)).
Proof.
  intros mts count Hlen Hbits Hcount. unfold getMemoryTypeIndex.
  fold mts. fold count.
  assert (Hread : forall j, 0 <= j -> Z.testbit bits j = true ->
                             is_Some (mts !! Z.to_nat j)).
  { intros j Hj Hbit. apply lookup_lt_is_Some. rewrite Hlen.
    destruct (Z_lt_le_dec j 32) as [Hlt | Hge].
    - unfold VK_MAX_MEMORY_TYPES. lia.
    - rewrite (testbit_uint32_high bits j Hbits Hge) in Hbit. discriminate. }
  destruct (getMemoryTypeIndex_loop_spec mts bits props (Z.to_nat count) 0
              ltac:(lia) Hread) as (r & Hr & Hcases).
  rewrite Z.shiftr_0_r in Hr. exists r. split; [exact Hr |].
  unfold UINT32_MOD, UINT32_NOT0 in *.
  destruct Hcases as [(Hrange & Hsuit & Hfirst) | (Hnone & Hall)].
  - left. repeat split; try lia; try exact Hfirst; apply Hsuit.
  - right. split; [exact Hnone |]. intros j Hj. apply Hall. lia.
Qed.

(** [createDepthBuffer] when [vkCreateImage] succeeds and the memory type
    search reads inside the array: the index found, sentinel or not, goes to
    [vkAllocateMemory], and [vkBindImageMemory] follows; neither result is
    looked at. *)
Lemma createDepthBuffer_run (d : Driver) (app : VulkanAppBase) (w : World) (index : Z) :
  drv_result d (trace w) vkCreateImage = VK_SUCCESS ->
  getMemoryTypeIndex app (memoryTypeBits (drv_memReqs d))
                     VK_MEMORY_PROPERTY_DEVICE_LOCAL_BIT = Some index ->
  exists mem r_alloc outs r_bind w',
    createDepthBuffer d app w =
      Ok (set_m_depthBufferMemory mem (set_m_depthBuffer (next_handle w) app)) w' /\
    trace w' = trace w ++
      [Call vkCreateImage (vkCreateImage_args app) (Some VK_SUCCESS) [next_handle w];
       Call vkGetImageMemoryRequirements [m_device app; next_handle w] None
            [size (drv_memReqs d); memoryTypeBits (drv_memReqs d)];
       Call vkAllocateMemory [m_device app; size (drv_memReqs d); index]
            (Some r_alloc) outs;
       Call vkBindImageMemory [m_device app; next_handle w; mem; 0] (Some r_bind) []].
Proof.
  intros Hcreate Hindex.
  unfold createDepthBuffer, bind, vk_create at 1. rewrite Hcreate.
  simpl.
  change (getMemoryTypeIndex (set_m_depthBuffer (next_handle w) app))
    with (getMemoryTypeIndex app).
  rewrite Hindex. simpl. unfold vk_create, vk_call, log. simpl.
  match goal with
  | |- context [drv_result d ?tr vkAllocateMemory =? VK_SUCCESS] =>
      destruct (drv_result d tr vkAllocateMemory =? VK_SUCCESS) eqn:Halloc
  end; simpl; do 5 eexists; (split; [reflexivity |]); simpl;
    rewrite <- !app_assoc; simpl; reflexivity.
Qed.

(** C1, as stated, fails: without a device-local memory type
    [createDepthBuffer] does not stop; it allocates with memory type index
    0xFFFFFFFF and binds. *)
Lemma createDepthBuffer_sentinel_unchecked :
  ~ missing_memory_type_signaled (with_memProps memProps_host_only drv_ok)
      app_host_only w0.
Proof.
  intros H. destruct (H eq_refl) as (w' & Hrun & _).
  vm_compute in Hrun. discriminate Hrun.
Qed.

(** C1 (amended): for the depth buffer, [getMemoryTypeIndex] returns the
    lowest index [i] below [memoryTypeCount] such that bit [i] of the
    requirements mask is set and the property flags of memory type [i]
    contain the device-local requirement; when there is no such index it
    returns the sentinel 0xFFFFFFFF.  [createDepthBuffer] does not check the
    index: once the image is created, the value returned, sentinel included,
    is the memory type index of the allocation, and the bind follows. *)
Theorem createDepthBuffer_memory_type (d : Driver) (app : VulkanAppBase) (w : World) :
  let mts := memoryTypes (m_physMemProps app) in
  let count := memoryTypeCount (m_physMemProps app) in
  let bits := memoryTypeBits (drv_memReqs d) in
  let props := VK_MEMORY_PROPERTY_DEVICE_LOCAL_BIT in
  length mts = VK_MAX_MEMORY_TYPES ->
  0 <= bits < UINT32_MOD ->
  count < UINT32_MOD ->
  drv_result d (trace w) vkCreateImage = VK_SUCCESS ->
  exists index,
    getMemoryTypeIndex app bits props = Some index /\
    ((0 <= index < count /\ index <> UINT32_NOT0 /\ suitable mts bits props index /\
      forall j, 0 <= j < index -> ~ suitable mts bits props j)
     \/ (index = UINT32_NOT0 /\
         forall j, 0 <= j < count -> ~ suitable mts bits props j)) /\
    exists mem r_alloc outs r_bind w',
      createDepthBuffer d app w =
        Ok (set_m_depthBufferMemory mem (set_m_depthBuffer (next_handle w) app)) w' /\
      trace w' = trace w ++
        [Call vkCreateImage (vkCreateImage_args app) (Some VK_SUCCESS) [next_handle w];
         Call vkGetImageMemoryRequirements [m_device app; next_handle w] None
              [size (drv_memReqs d); bits];
         Call vkAllocateMemory [m_device app; size (drv_memReqs d); index]
              (Some r_alloc) outs;
         Call vkBindImageMemory [m_device app; next_handle w; mem; 0] (Some r_bind) []].
Proof.
  intros mts count bits props Hlen Hbits Hcount Hcreate.
  destruct (getMemoryTypeIndex_spec app bits props Hlen Hbits Hcount)
    as (index & Hindex & Hcases).
  exists index. split; [exact Hindex |]. split; [exact Hcases |].
  exact (createDepthBuffer_run d app w index Hcreate Hindex).
Qed.

Lemma createDepthBuffer_memory_type_witness :
  exists index,
    getMemoryTypeIndex app_two_memory_types 3 VK_MEMORY_PROPERTY_DEVICE_LOCAL_BIT
      = Some index /\
    exists mem r_alloc outs r_bind w',
      createDepthBuffer drv_ok app_two_memory_types w0 =
        Ok (set_m_depthBufferMemory mem (set_m_depthBuffer 1 app_two_memory_types)) w' /\
      In (Call vkAllocateMemory [2; 1228800; index] (Some r_alloc) outs) (trace w') /\
      In (Call vkBindImageMemory [2; 1; mem; 0] (Some r_bind) []) (trace w').
Proof.
  destruct (createDepthBuffer_memory_type drv_ok app_two_memory_types w0
              eq_refl ltac:(vm_compute; split; [discriminate | reflexivity])
              eq_refl eq_refl)
    as (index & Hindex & _ & mem & r_alloc & outs & r_bind & w' & Hrun & Htr).
  exists index. split; [exact Hindex |].
  exists mem, r_alloc, outs, r_bind, w'. split; [exact Hrun |].
  rewrite Htr. simpl. split; [right; right; left; reflexivity |].
  right; right; right; left; reflexivity.
Defined.

(** ** One frame *)

Lemma existsb_filter_ne (f g : Handle) (s : list Handle) :
  f <> g ->
  existsb (Z.eqb f) (filter (fun h => h <> g) s) = existsb (Z.eqb f) s.
Proof.
  intros Hne. induction s as [| x s IH]; [reflexivity |].
  rewrite filter_cons. destruct (decide (x <> g)) as [Hx | Hx]; simpl.
  - rewrite IH. reflexivity.
  - rewrite IH. destruct (Z.eqb_spec f x) as [-> | _]; [| reflexivity].
    exfalso. apply Hx. exact Hne.
Qed.

(** [render] when the acquired index is inside the three per-image
    vectors. *)
Lemma render_run (d : Driver) (app : VulkanAppBase) (w : World)
  (fence framebuffer command : Handle) :
  let i := drv_acquire d (trace w) in
  0 <= i ->
  m_fences app !! Z.to_nat i = Some fence ->
  m_framebuffers app !! Z.to_nat i = Some framebuffer ->
  m_commands app !! Z.to_nat i = Some command ->
  exists r_acquire r_wait r_begin r_end r_reset r_submit r_present w',
    render d app w = Ok (set_m_imageIndex i app) w' /\
    trace w' = trace w ++
      frame_events app i fence framebuffer command (is_signaled fence w)
                   r_acquire r_wait r_begin r_end r_reset r_submit r_present /\
    next_handle w' = next_handle w /\
    (forall f, f <> fence -> is_signaled f w' = is_signaled f w).
Proof.
  intros i Hi Hf Hfb Hc.
  unfold render, bind, vk_acquire, at_index. fold i.
  destruct (Z.ltb_spec i 0) as [Hneg | _]; [lia |].
  simpl. rewrite Hf. unfold ret, vk_wait_for_fence. simpl.
  destruct (Z.ltb_spec i 0) as [Hneg | _]; [lia |].
  rewrite Hfb, Hc. simpl.
  unfold vk_call, vk_void, emit, vk_reset_fence, log, is_signaled. simpl.
  do 8 eexists. split; [reflexivity |]. simpl. split; [| split].
  - unfold frame_events. rewrite <- !app_assoc. simpl. reflexivity.
  - reflexivity.
  - intros f Hne.
    assert (Hfg : (f =? fence) = false) by (apply Z.eqb_neq; exact Hne).
    repeat match goal with
           | |- context [if ?c =? VK_SUCCESS then _ else _] =>
               destruct (c =? VK_SUCCESS)
           end;
      rewrite ?(existsb_filter_ne f fence _ Hne); simpl; rewrite ?Hfg; reflexivity.
Qed.

Lemma at_index_Ok_inv {A} (v : list A) (i : Z) (w : World) (x : A) (w' : World) :
  at_index v i w = Ok x w' -> 0 <= i /\ v !! Z.to_nat i = Some x /\ w' = w.
Proof.
  unfold at_index. destruct (Z.ltb_spec i 0) as [Hneg | Hpos]; [discriminate |].
  destruct (v !! Z.to_nat i) as [y |]; [| discriminate].
  unfold ret. intros H. inversion H. subst. split; [lia |]. split; reflexivity.
Qed.

(** A [render] that returns has read inside the three vectors. *)
Lemma render_Ok_inv (d : Driver) (app app' : VulkanAppBase) (w w' : World) :
  render d app w = Ok app' w' ->
  let i := drv_acquire d (trace w) in
  0 <= i /\
  exists fence framebuffer command,
    m_fences app !! Z.to_nat i = Some fence /\
    m_framebuffers app !! Z.to_nat i = Some framebuffer /\
    m_commands app !! Z.to_nat i = Some command.
Proof.
  intros H i. unfold render in H.
  apply bind_Ok_inv in H as ([r i'] & w1 & Hacq & H).
  unfold vk_acquire in Hacq. inversion Hacq. subst r i' w1. fold i in H.
  apply bind_Ok_inv in H as (fence & w2 & Hf & H).
  apply at_index_Ok_inv in Hf as (Hi & Hf & ->).
  apply bind_Ok_inv in H as (r & w3 & _ & H).
  apply bind_Ok_inv in H as (fb & w4 & Hfb & H).
  apply at_index_Ok_inv in Hfb as (_ & Hfb & _).
  apply bind_Ok_inv in H as (cmd & w5 & Hc & _).
  apply at_index_Ok_inv in Hc as (_ & Hc & _).
  split; [exact Hi |]. exists fence, fb, cmd. repeat split; assumption.
Qed.


(** C5: in every [render] call that reads inside the per-image vectors (and
    so in every call that returns), the calls are made in this order: acquire
    the next image index, wait for the fence of that index, begin the command
    buffer of that index, begin the render pass, call [makeCommand], end the
    render pass, end the command buffer, reset the fence, submit to the queue,
    present.  The fence reset comes before the submit.  ([ready]: whether
    the fence was signaled when the wait began.) *)
Theorem render_call_order (d : Driver) (app : VulkanAppBase) (w : World)
  (fence framebuffer command : Handle) :
  let i := drv_acquire d (trace w) in
  0 <= i ->
  m_fences app !! Z.to_nat i = Some fence ->
  m_framebuffers app !! Z.to_nat i = Some framebuffer ->
  m_commands app !! Z.to_nat i = Some command ->
  exists ready r_acquire r_wait r_begin r_end r_reset r_submit r_present app' w',
    render d app w = Ok app' w' /\
    trace w' = trace w ++
      [Call vkAcquireNextImageKHR
            [m_device app; m_swapchain app; UINT64_MAX; m_presentCompletedSem app;
             VK_NULL_HANDLE] (Some r_acquire) [i]]
      ++ (if ready : bool then [] else [Block fence]) ++
      [Call vkWaitForFences [m_device app; 1; fence; VK_TRUE; UINT64_MAX]
            (Some r_wait) [];
       Call vkBeginCommandBuffer [command] (Some r_begin) [];
       Call vkCmdBeginRenderPass
            [command; m_renderPass app; framebuffer; 0; 0;
             width (m_swapchainExtent app); height (m_swapchainExtent app); 2;
             VK_SUBPASS_CONTENTS_INLINE] None [];
       Hook makeCommand [command; i];
       Call vkCmdEndRenderPass [command] None [];
       Call vkEndCommandBuffer [command] (Some r_end) [];
       Call vkResetFences [m_device app; 1; fence] (Some r_reset) [];
       Call vkQueueSubmit
            [m_deviceQueue app; 1; command;
             VK_PIPELINE_STAGE_COLOR_ATTACHMENT_OUTPUT_BIT;
             m_presentCompletedSem app; m_renderCompletedSem app; fence]
            (Some r_submit) [];
       Call vkQueuePresentKHR
            [m_deviceQueue app; m_swapchain app; i; m_renderCompletedSem app]
            (Some r_present) []].
Proof.
  intros i Hi Hf Hfb Hc.
  destruct (render_run d app w fence framebuffer command Hi Hf Hfb Hc)
    as (r1 & r2 & r3 & r4 & r5 & r6 & r7 & w' & Hrun & Htr & _).
  exists (is_signaled fence w), r1, r2, r3, r4, r5, r6, r7,
    (set_m_imageIndex i app), w'.
  split; [exact Hrun | exact Htr].
Qed.

Lemma render_call_order_witness :
  exists app' w', render drv_ok app_ready w_ready = Ok app' w'.
Proof.
  destruct (render_call_order drv_ok app_ready w_ready 17 13 15
              ltac:(vm_compute; discriminate) eq_refl eq_refl eq_refl)
    as (b & r1 & r2 & r3 & r4 & r5 & r6 & r7 & app' & w' & Hrun & _).
  exists app', w'. exact Hrun.
Defined.

(** C10: a [render] call that returns leaves the object as it was, except
    for [m_imageIndex], which holds the index just acquired and already held
    it when [makeCommand] was called; in particular the swapchain handle, the
    extent, the surface format and the framebuffer, command buffer and fence
    vectors are unchanged. *)
Theorem render_frame (d : Driver) (app app' : VulkanAppBase) (w w' : World) :
  render d app w = Ok app' w' ->
  app' = set_m_imageIndex (drv_acquire d (trace w)) app /\
  m_imageIndex app' = drv_acquire d (trace w) /\
  m_swapchain app' = m_swapchain app /\
  m_swapchainExtent app' = m_swapchainExtent app /\
  m_surfaceFormat app' = m_surfaceFormat app /\
  m_framebuffers app' = m_framebuffers app /\
  m_commands app' = m_commands app /\
  m_fences app' = m_fences app /\
  exists command before after,
    trace w' = trace w ++ before ++ Hook makeCommand [command; m_imageIndex app'] :: after.
Proof.
  intros H.
  destruct (render_Ok_inv d app app' w w' H) as (Hi & fence & fb & cmd & Hf & Hfb & Hc).
  destruct (render_run d app w fence fb cmd Hi Hf Hfb Hc)
    as (r1 & r2 & r3 & r4 & r5 & r6 & r7 & w'' & Hrun & Htr & _).
  rewrite Hrun in H. inversion H. subst app' w''. clear H.
  repeat (split; [reflexivity |]).
  exists cmd. unfold frame_events in Htr. simpl.
  eexists (_ :: (if is_signaled fence w then _ else _) ++ [_; _; _]), _.
  rewrite Htr. simpl. rewrite <- !app_assoc. simpl. reflexivity.
Qed.

Lemma render_frame_witness :
  render drv_ok app_ready w_ready = Ok (app_after 1) (w_after 1) /\
  m_fences (app_after 1) = m_fences app_ready /\
  m_imageIndex (app_after 1) = 1.
Proof.
  assert (Hrun : render drv_ok app_ready w_ready = Ok (app_after 1) (w_after 1))
    by (vm_compute; reflexivity).
  split; [exact Hrun |].
  destruct (render_frame drv_ok app_ready (app_after 1) w_ready (w_after 1) Hrun)
    as (_ & Hindex & _ & _ & _ & _ & _ & Hfences & _).
  split; [exact Hfences |]. rewrite Hindex. vm_compute. reflexivity.
Defined.

(** ** Result codes *)

Lemma new_events_eq {A} (m : M A) (w : World) (new : list Event) :
  trace (world_of (m w)) = trace w ++ new -> new_events m w = new.
Proof. intros H. unfold new_events. rewrite H. apply drop_app_length. Qed.

Lemma guarded_ret {A} (a : A) : guarded (ret a).
Proof.
  intros w. exists []. simpl. split; [symmetry; apply app_nil_r | constructor].
Qed.

Lemma guarded_undefined {A} : guarded (@undefined A).
Proof.
  intros w. exists []. simpl. split; [symmetry; apply app_nil_r | constructor].
Qed.

Lemma guarded_bind {A B} (m : M A) (k : A -> M B) :
  guarded m -> (forall a, guarded (k a)) -> guarded (bind m k).
Proof.
  intros Hm Hk w. destruct (Hm w) as (new1 & Htr1 & Hq1). unfold bind.
  destruct (m w) as [a w1 | w1 | w1]; simpl in *.
  - destruct (Hk a w1) as (new2 & Htr2 & Hq2). exists (new1 ++ new2).
    rewrite Htr2, Htr1, app_assoc. split; [reflexivity |].
    destruct (k a w1) as [b w2 | w2 | w2].
    + apply Forall_app. split; assumption.
    + destruct Hq2 as (before & f & args & r & outs & -> & Hf & Hr & Hb).
      exists (new1 ++ before), f, args, r, outs.
      rewrite app_assoc. repeat split; try assumption.
      apply Forall_app. split; assumption.
    + apply Forall_app. split; assumption.
  - exists new1. split; assumption.
  - exists new1. split; assumption.
Qed.

Lemma guarded_emit_quiet (e : Event) : quiet e -> guarded (emit e).
Proof.
  intros He w. exists [e]. simpl. split; [reflexivity |].
  constructor; [exact He | constructor].
Qed.

Section Guarded.

Variable d : Driver.

Lemma guarded_vk_void f args outs : guarded (vk_void f args outs).
Proof. apply guarded_emit_quiet. exact I. Qed.

Lemma guarded_vk_call f args : checked f = false -> guarded (vk_call d f args).
Proof.
  intros Hf w. eexists. simpl. split; [reflexivity |].
  constructor; [| constructor]. simpl. congruence.
Qed.

Lemma guarded_vk_create f args old : checked f = false -> guarded (vk_create d f args old).
Proof.
  intros Hf w. unfold vk_create.
  destruct (drv_result d (trace w) f =? VK_SUCCESS); eexists; simpl;
    (split; [reflexivity |]); (constructor; [| constructor]); simpl; congruence.
Qed.

Lemma guarded_vk_acquire args : guarded (vk_acquire d args).
Proof.
  intros w. eexists. simpl. split; [reflexivity |].
  constructor; [| constructor]. simpl. discriminate.
Qed.

Lemma guarded_vk_wait_for_fence device fence : guarded (vk_wait_for_fence d device fence).
Proof.
  intros w. eexists. simpl. split; [reflexivity |].
  apply Forall_app. split.
  - destruct (is_signaled fence w); repeat constructor.
  - constructor; [| constructor]. simpl. discriminate.
Qed.

Lemma guarded_vk_reset_fence device fence : guarded (vk_reset_fence d device fence).
Proof.
  intros w. eexists. simpl. split; [reflexivity |].
  constructor; [| constructor]. simpl. discriminate.
Qed.

Lemma guarded_at_index {A} (v : list A) i : guarded (at_index v i).
Proof.
  unfold at_index. destruct (i <? 0); [apply guarded_undefined |].
  destruct (v !! Z.to_nat i); [apply guarded_ret | apply guarded_undefined].
Qed.

Lemma guarded_of_option {A} (o : option A) : guarded (of_option o).
Proof. destruct o; [apply guarded_ret | apply guarded_undefined]. Qed.

Lemma checked_call_vk_create f args old :
  checked f = true -> checked_call (vk_create d f args old).
Proof.
  intros Hf w. unfold vk_create.
  destruct (drv_result d (trace w) f =? VK_SUCCESS).
  - do 6 eexists. split; [reflexivity |]. simpl. split; [reflexivity | exact Hf].
  - do 6 eexists. split; [reflexivity |]. simpl. split; [reflexivity | exact Hf].
Qed.

Lemma checked_call_vk_allocate args count old : checked_call (vk_allocate d args count old).
Proof.
  intros w. unfold vk_allocate.
  destruct (drv_result d (trace w) vkAllocateCommandBuffers =? VK_SUCCESS).
  - do 6 eexists. split; [reflexivity |]. simpl. split; reflexivity.
  - do 6 eexists. split; [reflexivity |]. simpl. split; reflexivity.
Qed.

Lemma checked_call_vk_create_fence device flags old :
  checked_call (vk_create_fence d device flags old).
Proof.
  intros w. unfold vk_create_fence.
  destruct (drv_result d (trace w) vkCreateFence =? VK_SUCCESS).
  - do 6 eexists. split; [reflexivity |]. simpl. split; reflexivity.
  - do 6 eexists. split; [reflexivity |]. simpl. split; reflexivity.
Qed.

(** The pattern of the code: call, then [checkResult], then go on. *)
Lemma guarded_checked {A B} (m : M (VkResult * A)) (k : VkResult -> A -> M B) :
  checked_call m ->
  (forall r x, guarded (k r x)) ->
  guarded (bind m (fun '(r, x) => bind (checkResult r) (fun _ => k r x))).
Proof.
  intros Hm Hk w.
  destruct (Hm w) as (r & x & w1 & f & args & outs & Hrun & Htr & Hf).
  unfold bind. rewrite Hrun. unfold checkResult.
  destruct (Z.eqb_spec r VK_SUCCESS) as [-> | Hne]; simpl.
  - destruct (Hk VK_SUCCESS x w1) as (new & Htr2 & Hq).
    exists (Call f args (Some VK_SUCCESS) outs :: new).
    rewrite Htr2, Htr, <- app_assoc. split; [reflexivity |].
    destruct (k VK_SUCCESS x w1) as [b w2 | w2 | w2].
    + constructor; [simpl; reflexivity | exact Hq].
    + destruct Hq as (before & f' & args' & r' & outs' & -> & Hf' & Hr' & Hb).
      exists (Call f args (Some VK_SUCCESS) outs :: before), f', args', r', outs'.
      repeat split; try assumption.
      constructor; [simpl; reflexivity | exact Hb].
    + constructor; [simpl; reflexivity | exact Hq].
  - exists [Call f args (Some r) outs; DebugBreak]. rewrite Htr, <- app_assoc.
    split; [reflexivity |].
    exists [], f, args, r, outs. repeat split; try assumption. constructor.
Qed.

End Guarded.

Create HintDb guarded.

Ltac guard_step :=
  first
    [ apply guarded_ret | apply guarded_undefined
    | apply guarded_vk_void
    | apply guarded_vk_call; reflexivity
    | apply guarded_vk_create; reflexivity
    | apply guarded_vk_acquire
    | apply guarded_vk_wait_for_fence
    | apply guarded_vk_reset_fence
    | apply guarded_at_index
    | apply guarded_of_option
    | apply guarded_emit_quiet; exact I
    | solve [auto with guarded]
    | lazymatch goal with
      | |- guarded (let '(_, _) := ?p in _) => destruct p
      | |- guarded (if ?c then _ else _) => destruct c
      end
    | apply guarded_checked;
      [ first [ apply checked_call_vk_create; reflexivity
              | apply checked_call_vk_allocate
              | apply checked_call_vk_create_fence ]
      | intros ? ? ]
    | apply guarded_bind; [| intros ?] ].

Ltac guard_all := cbv zeta; repeat guard_step.

Section GuardedProgram.

Variable d : Driver.
Variable DEBUG : bool.

Lemma guarded_initializeInstance name app : guarded (initializeInstance d DEBUG name app).
Proof. unfold initializeInstance. guard_all. Qed.

Lemma guarded_selectPhysicalDevice app : guarded (selectPhysicalDevice d app).
Proof. unfold selectPhysicalDevice. guard_all. Qed.

Lemma guarded_searchGraphicsQueueIndex app : guarded (searchGraphicsQueueIndex d app).
Proof. unfold searchGraphicsQueueIndex. guard_all. Qed.

Lemma guarded_createDevice app : guarded (createDevice d app).
Proof. unfold createDevice. guard_all. Qed.

Lemma guarded_prepareCommandPool app : guarded (prepareCommandPool d app).
Proof. unfold prepareCommandPool. guard_all. Qed.

Lemma guarded_selectSurfaceFormat format0 app : guarded (selectSurfaceFormat d format0 app).
Proof. unfold selectSurfaceFormat. guard_all. Qed.

Lemma guarded_createSwapchain window app : guarded (createSwapchain d window app).
Proof. unfold createSwapchain. guard_all. Qed.

Lemma guarded_createDepthBuffer app : guarded (createDepthBuffer d app).
Proof. unfold createDepthBuffer. guard_all. Qed.

Lemma guarded_createViews_loop app n : forall i views, guarded (createViews_loop d app n i views).
Proof.
  induction n as [| n IH]; intros i views; cbn [createViews_loop]; guard_all.
Qed.

Lemma guarded_createViews app : guarded (createViews d app).
Proof. unfold createViews. pose proof guarded_createViews_loop. guard_all. Qed.

Lemma guarded_createRenderPass app : guarded (createRenderPass d app).
Proof. unfold createRenderPass. guard_all. Qed.

Lemma guarded_createFramebuffer_loop app views :
  forall fbs, guarded (createFramebuffer_loop d app views fbs).
Proof.
  induction views as [| v views IH]; intros fbs; cbn [createFramebuffer_loop]; guard_all.
Qed.

Lemma guarded_createFramebuffer app : guarded (createFramebuffer d app).
Proof. unfold createFramebuffer. pose proof guarded_createFramebuffer_loop. guard_all. Qed.

Lemma guarded_prepareCommandBuffers_loop app n :
  forall i fences, guarded (prepareCommandBuffers_loop d app n i fences).
Proof.
  induction n as [| n IH]; intros i fences; cbn [prepareCommandBuffers_loop]; guard_all.
Qed.

Lemma guarded_prepareCommandBuffers app : guarded (prepareCommandBuffers d app).
Proof.
  unfold prepareCommandBuffers. pose proof guarded_prepareCommandBuffers_loop. guard_all.
Qed.

Lemma guarded_prepareSemaphores app : guarded (prepareSemaphores d app).
Proof. unfold prepareSemaphores. guard_all. Qed.

Lemma guarded_enableDebugReport app : guarded (enableDebugReport d app).
Proof. unfold enableDebugReport, GetInstanceProcAddr. guard_all. Qed.

Lemma guarded_disableDebugReport app : guarded (disableDebugReport app).
Proof. unfold disableDebugReport. guard_all. Qed.

Lemma guarded_destroy_each f device vs : guarded (destroy_each f device vs).
Proof. induction vs as [| v vs IH]; cbn [destroy_each]; guard_all. Qed.

Hint Resolve guarded_initializeInstance guarded_selectPhysicalDevice
  guarded_searchGraphicsQueueIndex guarded_createDevice guarded_prepareCommandPool
  guarded_selectSurfaceFormat guarded_createSwapchain guarded_createDepthBuffer
  guarded_createViews guarded_createRenderPass guarded_createFramebuffer
  guarded_prepareCommandBuffers guarded_prepareSemaphores guarded_enableDebugReport
  guarded_disableDebugReport guarded_destroy_each : guarded.

Lemma guarded_initialize window name app : guarded (initialize d DEBUG window name app).
Proof. unfold initialize. guard_all. Qed.

Lemma guarded_render app : guarded (render d app).
Proof. unfold render. guard_all. Qed.

Lemma guarded_terminate app : guarded (terminate d DEBUG app).
Proof. unfold terminate. guard_all. Qed.

End GuardedProgram.






(** ** The per-image vectors after [initialize] *)

Tactic Notation "bind_inv" hyp(H) "as" simple_intropattern(a) ident(w) ident(H1) :=
  apply bind_Ok_inv in H as (a & w & H1 & H).

Ltac check_inv H :=
  let u := fresh "u" in
  let w := fresh "w" in
  let Hc := fresh "Hc" in
  apply bind_Ok_inv in H as (u & w & Hc & H);
  apply checkResult_Ok_inv in Hc as (-> & ->).

Lemma guarded_Ok_extends {A} (m : M A) (w : World) (a : A) (w' : World) :
  guarded m -> m w = Ok a w' -> exists new, trace w' = trace w ++ new.
Proof.
  intros Hg Hrun. destruct (Hg w) as (new & Htr & _). rewrite Hrun in Htr.
  exists new. exact Htr.
Qed.

Section Vectors.

Variable d : Driver.

Lemma at_index_middle {A} (before after : list A) (x : A) (w : World) :
  at_index (before ++ x :: after) (Z.of_nat (length before)) w = Ok x w.
Proof.
  unfold at_index. destruct (Z.ltb_spec (Z.of_nat (length before)) 0) as [Hneg | _]; [lia |].
  rewrite Nat2Z.id, list_lookup_middle by reflexivity. reflexivity.
Qed.

Lemma seqZ_succ (h : Z) (n : nat) :
  seqZ h (Z.of_nat (S n)) = h :: seqZ (h + 1) (Z.of_nat n).
Proof.
  rewrite seqZ_cons by lia. f_equal. f_equal; lia.
Qed.

(** The fence loop, when it returns: the fences are new handles, all
    signaled, each created with [VK_FENCE_CREATE_SIGNALED_BIT]. *)
Lemma prepareCommandBuffers_loop_Ok (app : VulkanAppBase) (n : nat) :
  forall (before todo : list Handle) (w : World) (fences : list Handle) (w' : World),
    length todo = n ->
    prepareCommandBuffers_loop d app n (length before) (before ++ todo) w = Ok fences w' ->
    let hs := seqZ (next_handle w) (Z.of_nat n) in
    fences = before ++ hs /\
    signaled w' = rev hs ++ signaled w /\
    trace w' = trace w ++ map (vkCreateFence_event (m_device app)) hs.
Proof.
  induction n as [| n IH]; intros before todo w fences w' Hlen H.
  - destruct todo; simpl in Hlen; [| lia]. cbn in H. inversion H. subst.
    simpl. rewrite !app_nil_r. repeat split; reflexivity.
  - destruct todo as [| x todo]; simpl in Hlen; [lia |]. injection Hlen as Hlen.
    cbn [prepareCommandBuffers_loop] in H.
    unfold bind at 1 in H. rewrite at_index_middle in H.
    bind_inv H as [r v] w1 Hstep. check_inv H.
    unfold vk_create_fence in Hstep.
    destruct (drv_result d (trace w) vkCreateFence =? VK_SUCCESS) eqn:Hr;
      [| exfalso; inversion Hstep as [[Hres Hv Hw]]; rewrite Hres in Hr;
         discriminate Hr].
    inversion Hstep. subst v w1. clear Hstep.
    rewrite insert_app_r_alt, Nat.sub_diag in H by lia. cbn [insert list_insert list_alter] in H.
    change (before ++ next_handle w :: todo) with (before ++ [next_handle w] ++ todo) in H.
    rewrite app_assoc in H.
    replace (S (length before)) with (length (before ++ [next_handle w])) in H
      by (rewrite length_app; simpl; lia).
    apply IH in H; [| exact Hlen]. cbn [next_handle signaled trace] in H.
    destruct H as (-> & Hsig & Htr).
    rewrite seqZ_succ. simpl. rewrite <- !app_assoc. simpl.
    repeat split; [exact Hsig |]. rewrite Htr, H1. rewrite <- app_assoc. reflexivity.
Qed.

Lemma prepareCommandBuffers_Ok (app app' : VulkanAppBase) (w w' : World) :
  prepareCommandBuffers d app w = Ok app' w' ->
  let count := uint32_t (zlength (m_swapchainViews app)) in
  exists commands fences,
    app' = set_m_fences fences (set_m_commands commands app) /\
    length commands = Z.to_nat count /\
    length fences = Z.to_nat count /\
    NoDup fences /\
    (forall f, In f fences -> In f (signaled w')) /\
    trace w' = trace w ++
      Call vkAllocateCommandBuffers
           [m_device app; m_commandPool app; count; VK_COMMAND_BUFFER_LEVEL_PRIMARY]
           (Some VK_SUCCESS) commands
      :: map (vkCreateFence_event (m_device app)) fences.
Proof.
  intros H count. unfold prepareCommandBuffers in H. fold count in H.
  bind_inv H as [r commands] w1 Hstep. check_inv H.
  bind_inv H as fences w2 Hloop. unfold ret in H. inversion H. subst app' w2. clear H.
  unfold vk_allocate in Hstep.
  destruct (drv_result d (trace w) vkAllocateCommandBuffers =? VK_SUCCESS) eqn:Hr;
    [| exfalso; inversion Hstep as [[Hres Hv Hw]]; rewrite Hres in Hr;
       discriminate Hr].
  inversion Hstep as [[Hres Hcs Hw]]. clear Hstep.
  set (fences0 := resize (Z.to_nat count) VK_NULL_HANDLE
                         (m_fences (set_m_commands commands app))) in *.
  apply (prepareCommandBuffers_loop_Ok _ _ [] fences0) in Hloop; [| reflexivity].
  destruct Hloop as (Ha & Hsig & Htr). simpl in Ha. subst fences.
  assert (Hn : length fences0 = Z.to_nat count) by apply length_resize.
  do 2 eexists. split; [reflexivity |]. split; [| split; [| split; [| split]]].
  - rewrite length_seqZ. lia.
  - rewrite length_seqZ. lia.
  - apply NoDup_seqZ.
  - intros f Hf. rewrite Hsig. apply in_or_app. left. apply in_rev in Hf. exact Hf.
  - rewrite Htr, <- Hw. simpl. rewrite Hres, <- app_assoc. reflexivity.
Qed.

Lemma createViews_loop_Ok (app : VulkanAppBase) (n : nat) :
  forall (i : nat) (views : list Handle) (w : World) (views' : list Handle) (w' : World),
    createViews_loop d app n i views w = Ok views' w' ->
    length views' = length views.
Proof.
  induction n as [| n IH]; intros i views w views' w' H.
  - cbn in H. inversion H. reflexivity.
  - cbn [createViews_loop] in H.
    bind_inv H as image w1 Himage. bind_inv H as old w2 Hold.
    bind_inv H as [r h] w3 Hstep. check_inv H.
    apply IH in H. rewrite H. apply length_insert.
Qed.

Lemma createViews_Ok (app app' : VulkanAppBase) (w w' : World) :
  createViews d app w = Ok app' w' ->
  exists views h,
    app' = set_m_depthBufferView h
             (set_m_swapchainViews views
                (set_m_swapchainImages (drv_swapchainImages d) app)) /\
    length views = length (drv_swapchainImages d).
Proof.
  intros H. unfold createViews in H.
  bind_inv H as r1 w1 Hq1. bind_inv H as r2 w2 Hq2.
  bind_inv H as views w3 Hloop. bind_inv H as [r h] w4 Hstep. check_inv H.
  unfold ret in H. inversion H. subst app' w'. clear H.
  apply createViews_loop_Ok in Hloop. rewrite length_resize in Hloop.
  exists views, h. split; [reflexivity | exact Hloop].
Qed.

Lemma createRenderPass_Ok (app app' : VulkanAppBase) (w w' : World) :
  createRenderPass d app w = Ok app' w' ->
  exists h, app' = set_m_renderPass h app.
Proof.
  intros H. unfold createRenderPass in H.
  bind_inv H as [r h] w1 Hstep. check_inv H.
  unfold ret in H. inversion H. exists h. reflexivity.
Qed.

Lemma createFramebuffer_loop_Ok (app : VulkanAppBase) (views : list Handle) :
  forall (fbs : list Handle) (w : World) (fbs' : list Handle) (w' : World),
    createFramebuffer_loop d app views fbs w = Ok fbs' w' ->
    length fbs' = (length fbs + length views)%nat.
Proof.
  induction views as [| v views IH]; intros fbs w fbs' w' H.
  - cbn in H. inversion H. simpl. lia.
  - cbn [createFramebuffer_loop] in H.
    bind_inv H as [r h] w1 Hstep. check_inv H.
    apply IH in H. rewrite H, length_app. simpl. lia.
Qed.

Lemma createFramebuffer_Ok (app app' : VulkanAppBase) (w w' : World) :
  createFramebuffer d app w = Ok app' w' ->
  exists fbs,
    app' = set_m_framebuffers fbs app /\
    length fbs = length (m_swapchainViews app).
Proof.
  intros H. unfold createFramebuffer in H.
  bind_inv H as fbs w1 Hloop. unfold ret in H. inversion H. subst app' w1. clear H.
  apply createFramebuffer_loop_Ok in Hloop. exists fbs. split; [reflexivity | exact Hloop].
Qed.

Lemma prepareSemaphores_Ok (app app' : VulkanAppBase) (w w' : World) :
  prepareSemaphores d app w = Ok app' w' ->
  exists h1 h2,
    app' = set_m_presentCompletedSem h2 (set_m_renderCompletedSem h1 app) /\
    signaled w' = signaled w.
Proof.
  intros H. unfold prepareSemaphores, bind, vk_create, ret in H. simpl in H.
  repeat match type of H with
         | context [if ?c then _ else _] => destruct c
         end; inversion H; do 2 eexists; split; reflexivity.
Qed.

Lemma createSwapchain_Ok (window : Handle) (app app' : VulkanAppBase) (w w' : World) :
  createSwapchain d window app w = Ok app' w' ->
  exists extent h before,
    trace w' = trace w ++ before ++
      [Call vkCreateSwapchainKHR (vkCreateSwapchainKHR_args app extent)
            (Some VK_SUCCESS) [h]].
Proof.
  intros H. rewrite createSwapchain_run in H.
  destruct (Z.eqb_spec (drv_result d (trace (before_vkCreateSwapchainKHR d window app w))
                                   vkCreateSwapchainKHR) VK_SUCCESS) as [Hr | Hr];
    [| discriminate H].
  inversion H. subst app' w'. clear H. rewrite Hr. simpl.
  unfold before_vkCreateSwapchainKHR.
  destruct (window_fallback app); simpl.
  - do 2 eexists. exists [glfwGetWindowSize_event d window].
    rewrite <- app_assoc. reflexivity.
  - do 2 eexists. exists []. reflexivity.
Qed.

End Vectors.

Lemma extends_refl (w : World) : extends w w.
Proof. exists []. symmetry. apply app_nil_r. Qed.

Lemma extends_trans (w1 w2 w3 : World) : extends w1 w2 -> extends w2 w3 -> extends w1 w3.
Proof.
  intros [n1 H1] [n2 H2]. exists (n1 ++ n2). rewrite H2, H1, app_assoc. reflexivity.
Qed.

Lemma guarded_extends {A} (m : M A) (w : World) (a : A) (w' : World) :
  guarded m -> m w = Ok a w' -> extends w w'.
Proof. apply guarded_Ok_extends. Qed.

#[local] Hint Resolve guarded_initializeInstance guarded_selectPhysicalDevice
  guarded_searchGraphicsQueueIndex guarded_createDevice guarded_prepareCommandPool
  guarded_selectSurfaceFormat guarded_createSwapchain guarded_createDepthBuffer
  guarded_createViews guarded_createRenderPass guarded_createFramebuffer
  guarded_prepareCommandBuffers guarded_prepareSemaphores guarded_enableDebugReport
  guarded_disableDebugReport guarded_destroy_each : guarded.

(** Peel the first step off [H : (m ;; k) w = Ok _ _], and carry the fact
    [Hpre : extends w0 w] over it. *)
Tactic Notation "step" hyp(H) "with" ident(Hpre) "as"
  simple_intropattern(a) ident(w) ident(H1) :=
  apply bind_Ok_inv in H as (a & w & H1 & H);
  match type of H1 with
  | ?m ?wa = Ok _ ?wb =>
      let E := fresh "E" in
      assert (E : extends wa wb)
        by (eapply (guarded_extends m); [guard_all | exact H1]);
      apply (extends_trans _ _ _ Hpre) in E; clear Hpre; rename E into Hpre
  end.

Section Initialized.

Variable d : Driver.
Variable DEBUG : bool.

(** What holds when [initialize] returns. *)
Lemma initialize_Ok_inv (window : Handle) (name : string) (app app' : VulkanAppBase)
  (w w' : World) :
  initialize d DEBUG window name app w = Ok app' w' ->
  let count := uint32_t (zlength (m_swapchainViews app')) in
  m_swapchainImages app' = drv_swapchainImages d /\
  length (m_swapchainViews app') = length (drv_swapchainImages d) /\
  length (m_framebuffers app') = length (m_swapchainViews app') /\
  length (m_commands app') = Z.to_nat count /\
  length (m_fences app') = Z.to_nat count /\
  NoDup (m_fences app') /\
  (forall f, In f (m_fences app') -> is_signaled f w' = true) /\
  (exists a1 a2 a3 rest h,
     In (Call vkCreateSwapchainKHR
              (a1 :: a2 :: Z.max 2 (minImageCount (drv_surfaceCaps d)) :: a3 :: rest)
              (Some VK_SUCCESS) [h])
        (new_events (initialize d DEBUG window name app) w)) /\
  (exists before after,
     new_events (initialize d DEBUG window name app) w =
     before ++
     Call vkAllocateCommandBuffers
          [m_device app'; m_commandPool app'; count; VK_COMMAND_BUFFER_LEVEL_PRIMARY]
          (Some VK_SUCCESS) (m_commands app')
     :: map (vkCreateFence_event (m_device app')) (m_fences app') ++ after).
Proof.
  intros H.
  assert (Hnew : new_events (initialize d DEBUG window name app) w
                 = drop (length (trace w)) (trace w'))
    by (unfold new_events; rewrite H; reflexivity).
  rewrite Hnew. clear Hnew.
  pose proof (extends_refl w) as Hpre.
  unfold initialize in H.
  step H with Hpre as app1 w1 H1. step H with Hpre as app2 w2 H2.
  step H with Hpre as q w3 H3. step H with Hpre as app3 w4 H4.
  step H with Hpre as app4 w5 H5. step H with Hpre as app5 w6 H6.
  step H with Hpre as [r7 h7] w7 H7. step H with Hpre as app6 w8 H8.
  step H with Hpre as r9 w9 H9. step H with Hpre as r10 w10 H10.
  bind_inv H as app7 w11 Hsc.
  assert (Hpost : extends w11 w11) by apply extends_refl.
  destruct Hpre as [n0 Hn0].
  apply createSwapchain_Ok in Hsc as (extent & hsc & before & Hsc).
  step H with Hpost as app8 w12 H12. step H with Hpost as app9 w13 H13.
  step H with Hpost as app10 w14 H14. step H with Hpost as app11 w15 H15.
  bind_inv H as app12 w16 Hcb.
  assert (Hlast : extends w16 w16) by apply extends_refl.
  step H with Hlast as app13 w17 H17. step H with Hlast as u w18 H18.
  unfold ret in H. inversion H. subst app13 w18. clear H.
  apply createViews_Ok in H13 as (views & hv & -> & Hviews).
  apply createRenderPass_Ok in H14 as (hrp & ->).
  apply createFramebuffer_Ok in H15 as (fbs & -> & Hfbs).
  pose proof (prepareCommandBuffers_Ok d _ _ _ _ Hcb) as
    (commands & fences & -> & Hcs & Hfs & Hnd & Hsig & Htr).
  apply prepareSemaphores_Ok in H17 as (s1 & s2 & -> & Hsem).
  unfold emit in H18. inversion H18. subst w'. clear H18.
  destruct Hpost as [n1 Hn1]. destruct Hlast as [n2 Hn2].
  simpl in *.
  split; [reflexivity |]. split; [exact Hviews |]. split; [exact Hfbs |].
  split; [exact Hcs |]. split; [exact Hfs |]. split; [exact Hnd |].
  split; [| split].
  - intros f Hf. unfold is_signaled. simpl. rewrite Hsem.
    apply existsb_exists. exists f. split; [apply Hsig, Hf | apply Z.eqb_refl].
  - unfold vkCreateSwapchainKHR_args in Hsc.
    do 4 eexists. exists hsc.
    rewrite Hn2, Htr, Hn1, Hsc, Hn0. rewrite <- !app_assoc, drop_app_length.
    apply in_or_app. right. apply in_or_app. right. apply in_or_app. left.
    left. reflexivity.
  - exists (n0 ++ before ++ [Call vkCreateSwapchainKHR
                                 (vkCreateSwapchainKHR_args
                                    (set_m_surfaceCaps (drv_surfaceCaps d) app6) extent)
                                 (Some VK_SUCCESS) [hsc]] ++ n1), n2.
    rewrite Hn2, Htr, Hn1, Hsc, Hn0. rewrite <- !app_assoc, drop_app_length.
    simpl. reflexivity.
Qed.

End Initialized.

Lemma uint32_t_length {A} (l : list A) :
  zlength l < UINT32_MOD -> Z.to_nat (uint32_t (zlength l)) = length l.
Proof.
  intros H. unfold uint32_t, zlength in *. rewrite Z.mod_small by lia. apply Nat2Z.id.
Qed.




(** ** The first wait on each fence *)

Lemma waited_app_l device fence l1 l2 : waited device fence l1 -> waited device fence (l1 ++ l2).
Proof. intros [r Hr]. exists r. apply in_or_app. left. exact Hr. Qed.

Lemma app_eq_middle {A} (l1 l2 before after : list A) (x : A) :
  l1 ++ l2 = before ++ x :: after ->
  (exists after', l1 = before ++ x :: after') \/
  (exists before', before = l1 ++ before' /\ l2 = before' ++ x :: after).
Proof.
  revert before. induction l1 as [| y l1 IH]; intros before H.
  - right. exists before. split; [reflexivity | exact H].
  - destruct before as [| b before]; simpl in H; injection H as Hy H.
    + left. exists l1. simpl. rewrite Hy. reflexivity.
    + destruct (IH before H) as [(after' & ->) | (before' & -> & ->)].
      * left. exists after'. rewrite Hy. reflexivity.
      * right. exists before'. rewrite Hy. split; reflexivity.
Qed.

(** The only [Block] event of a frame comes right after the acquire, and
    only when the fence was not signaled. *)
Lemma frame_events_Block app i fence fb cmd ready r1 r2 r3 r4 r5 r6 r7 before f after :
  frame_events app i fence fb cmd ready r1 r2 r3 r4 r5 r6 r7 = before ++ Block f :: after ->
  ready = false /\ f = fence /\
  before = [Call vkAcquireNextImageKHR
                 [m_device app; m_swapchain app; UINT64_MAX; m_presentCompletedSem app;
                  VK_NULL_HANDLE] (Some r1) [i]].
Proof.
  unfold frame_events. intros H.
  destruct before as [| e before]; simpl in H; [discriminate H |].
  injection H as He H. subst e.
  destruct ready; simpl in H.
  - exfalso. assert (Hin : In (Block f) (before ++ Block f :: after)) by apply in_elt.
    rewrite <- H in Hin. simpl in Hin. intuition discriminate.
  - destruct before as [| e before]; simpl in H.
    + injection H as Hf _. subst f. repeat split.
    + exfalso. injection H as _ H.
      assert (Hin : In (Block f) (before ++ Block f :: after)) by apply in_elt.
      rewrite <- H in Hin. simpl in Hin. intuition discriminate.
Qed.

Lemma render_loop_Block (d : Driver) (frames : nat) :
  forall (app app' : VulkanAppBase) (w w' : World) (base new : list Event),
    trace w = base ++ new ->
    (forall f, In f (m_fences app) ->
               is_signaled f w = true \/ waited (m_device app) f new) ->
    (forall before f after,
        new = before ++ Block f :: after -> waited (m_device app) f before) ->
    render_loop d frames app w = Ok app' w' ->
    exists new',
      trace w' = base ++ new' /\
      forall before f after,
        new' = before ++ Block f :: after -> waited (m_device app) f before.
Proof.
  induction frames as [| n IH]; intros app app' w w' base new Htr Hsig Hblk Hrun.
  - cbn in Hrun. inversion Hrun. subst. exists new. split; assumption.
  - cbn [render_loop] in Hrun. bind_inv Hrun as app1 w1 Hframe.
    destruct (render_Ok_inv d app app1 w w1 Hframe) as (Hi & fence & fb & cmd & Hf & Hfb & Hc).
    destruct (render_run d app w fence fb cmd Hi Hf Hfb Hc)
      as (r1 & r2 & r3 & r4 & r5 & r6 & r7 & w1' & Hrun1 & Htr1 & _ & Hother).
    rewrite Hrun1 in Hframe. inversion Hframe. subst app1 w1'. clear Hframe.
    set (i := drv_acquire d (trace w)) in *.
    set (frame := frame_events app i fence fb cmd (is_signaled fence w)
                               r1 r2 r3 r4 r5 r6 r7) in *.
    assert (Hwait : waited (m_device app) fence frame).
    { exists r2. unfold frame, frame_events. apply in_or_app. right.
      apply in_or_app. right. left. reflexivity. }
    apply (IH _ _ _ _ base (new ++ frame)) in Hrun.
    + exact Hrun.
    + rewrite Htr1, Htr, app_assoc. reflexivity.
    + intros f Hin. change (m_fences (set_m_imageIndex i app)) with (m_fences app) in Hin.
      change (m_device (set_m_imageIndex i app)) with (m_device app).
      destruct (Z.eq_dec f fence) as [-> | Hne].
      * right. destruct Hwait as [r Hr]. exists r. apply in_or_app. right. exact Hr.
      * rewrite (Hother f Hne). destruct (Hsig f Hin) as [Hs | Hw]; [left; exact Hs |].
        right. apply waited_app_l. exact Hw.
    + intros before f after Heq.
      change (m_device (set_m_imageIndex i app)) with (m_device app).
      apply app_eq_middle in Heq as [(after' & Hnew) | (before' & -> & Hfr)].
      * apply (Hblk before f after' Hnew).
      * apply frame_events_Block in Hfr as (Hready & -> & ->).
        apply waited_app_l.
        assert (Hin : In fence (m_fences app)).
        { apply list_elem_of_In, list_elem_of_lookup. exists (Z.to_nat i). exact Hf. }
        destruct (Hsig fence Hin) as [Hs | Hw]; [congruence | exact Hw].
Qed.

(** C8: when [initialize] returns there is one fence per image the swapchain
    returned, and one primary command buffer each; every fence was created
    with [VK_FENCE_CREATE_SIGNALED_BIT] and is in the signaled state.  In the
    [render] calls that follow, a fence wait suspends the thread only on a
    fence that has been waited for before: the first wait on the fence of any
    image index returns without blocking. *)
Theorem fences_created_signaled (d : Driver) (DEBUG : bool) (window : Handle)
  (name : string) (app app' app'' : VulkanAppBase) (w w' w'' : World) (frames : nat) :
  initialize d DEBUG window name app w = Ok app' w' ->
  zlength (drv_swapchainImages d) < UINT32_MOD ->
  render_loop d frames app' w' = Ok app'' w'' ->
  length (m_fences app') = length (m_swapchainImages app') /\
  length (m_commands app') = length (m_swapchainImages app') /\
  NoDup (m_fences app') /\
  (exists before after,
     new_events (initialize d DEBUG window name app) w =
     before ++
     Call vkAllocateCommandBuffers
          [m_device app'; m_commandPool app'; zlength (m_swapchainImages app');
           VK_COMMAND_BUFFER_LEVEL_PRIMARY]
          (Some VK_SUCCESS) (m_commands app')
     :: map (vkCreateFence_event (m_device app')) (m_fences app') ++ after) /\
  (forall f, In f (m_fences app') -> is_signaled f w' = true) /\
  (forall before fence after,
     new_events (render_loop d frames app') w' = before ++ Block fence :: after ->
     waited (m_device app') fence before).
Proof.
  intros Hinit Hlen Hloop.
  destruct (initialize_Ok_inv d DEBUG window name app app' w w' Hinit)
    as (Himgs & Hviews & _ & Hcs & Hfs & Hnd & Hsig & _ & Hev).
  assert (Hcount : uint32_t (zlength (m_swapchainViews app'))
                   = zlength (m_swapchainImages app')).
  { unfold uint32_t, zlength in *. rewrite Himgs, Hviews. apply Z.mod_small. lia. }
  rewrite Hcount in *. unfold zlength in Hcs, Hfs. rewrite Nat2Z.id in Hcs, Hfs.
  repeat (split; [assumption |]).
  destruct (render_loop_Block d frames app' app'' w' w'' (trace w') [])
    as (new' & Htr & Hblk); try assumption.
  - symmetry. apply app_nil_r.
  - intros f Hf. left. apply Hsig, Hf.
  - intros before f after Heq. destruct before; discriminate Heq.
  - intros before fence after Heq. apply (Hblk before fence after).
    rewrite <- Heq. symmetry. apply new_events_eq. rewrite Hloop. exact Htr.
Qed.

Lemma fences_created_signaled_witness :
  initialize drv_ok false 77 "SimpleTriangle" (VulkanAppBase_ctor zero_app) w0
    = Ok app_ready w_ready /\
  render_loop drv_ok 3 app_ready w_ready = Ok (app_after 3) (w_after 3) /\
  (forall f, In f (m_fences app_ready) -> is_signaled f w_ready = true) /\
  (forall before fence after,
     new_events (render_loop drv_ok 3 app_ready) w_ready
       = before ++ Block fence :: after ->
     waited (m_device app_ready) fence before).
Proof.
  assert (Hinit : initialize drv_ok false 77 "SimpleTriangle"
                             (VulkanAppBase_ctor zero_app) w0 = Ok app_ready w_ready)
    by (vm_compute; reflexivity).
  assert (Hloop : render_loop drv_ok 3 app_ready w_ready = Ok (app_after 3) (w_after 3))
    by (vm_compute; reflexivity).
  split; [exact Hinit |]. split; [exact Hloop |].
  apply (fences_created_signaled drv_ok false 77 "SimpleTriangle"
           (VulkanAppBase_ctor zero_app) app_ready (app_after 3) w0 w_ready (w_after 3) 3
           Hinit eq_refl Hloop).
Defined.

(** ** Handles outstanding after [terminate] *)

(** C3 fails on the code: after [initialize], any number of [render] calls
    (here none, and three) and [terminate], the depth image, its memory, the
    two colour image views and the depth image view are still outstanding;
    [terminate] has no call that destroys an image, frees memory or destroys
    an image view.  Every other handle created by [initialize] is released. *)
Theorem terminate_leaves_depth_buffer_and_views :
  (exists app w, run_ok 0 = Ok app w /\
     outstanding (trace w) =
       [(RImage, 6); (RDeviceMemory, 7); (RImageView, 8); (RImageView, 9);
        (RImageView, 10)]) /\
  (exists app w, run_ok 3 = Ok app w /\
     outstanding (trace w) =
       [(RImage, 6); (RDeviceMemory, 7); (RImageView, 8); (RImageView, 9);
        (RImageView, 10)]).
Proof.
  split; do 2 eexists; (split; [vm_compute; reflexivity | vm_compute; reflexivity]).
Qed.

(** * Further properties *)

(** ** What a function adds to the trace *)

Lemma emits_ret {A} (P : Event -> Prop) (a : A) : emits P (ret a).
Proof. intros w. exists []. simpl. split; [symmetry; apply app_nil_r | constructor]. Qed.

Lemma emits_undefined {A} (P : Event -> Prop) : emits P (@undefined A).
Proof. intros w. exists []. simpl. split; [symmetry; apply app_nil_r | constructor]. Qed.

Lemma emits_bind {A B} (P : Event -> Prop) (m : M A) (k : A -> M B) :
  emits P m -> (forall a, emits P (k a)) -> emits P (bind m k).
Proof.
  intros Hm Hk w. destruct (Hm w) as (new1 & Htr1 & Hq1). unfold bind.
  destruct (m w) as [a w1 | w1 | w1]; simpl in *.
  - destruct (Hk a w1) as (new2 & Htr2 & Hq2). exists (new1 ++ new2).
    rewrite Htr2, Htr1, app_assoc. split; [reflexivity |].
    apply Forall_app. split; assumption.
  - exists new1. split; assumption.
  - exists new1. split; assumption.
Qed.

Lemma emits_emit (P : Event -> Prop) (e : Event) : P e -> emits P (emit e).
Proof.
  intros He w. exists [e]. simpl. split; [reflexivity |].
  constructor; [exact He | constructor].
Qed.

Lemma emits_impl {A} (P Q : Event -> Prop) (m : M A) :
  (forall e, P e -> Q e) -> emits P m -> emits Q m.
Proof.
  intros HPQ Hm w. destruct (Hm w) as (new & Htr & Hall). exists new.
  split; [exact Htr |]. eapply Forall_impl; [exact Hall | exact HPQ].
Qed.

Lemma emits_new_events {A} (P : Event -> Prop) (m : M A) (w : World) :
  emits P m -> Forall P (new_events m w).
Proof.
  intros Hm. destruct (Hm w) as (new & Htr & Hall).
  rewrite (new_events_eq m w new Htr). exact Hall.
Qed.

Section Emits.

Variable d : Driver.
Variables (pf : VkFn -> bool) (ph : HookFn -> bool) (pblock pbreak : bool).

Let P := by_kind pf ph pblock pbreak.

Lemma emits_vk_void f args outs : pf f = true -> emits P (vk_void f args outs).
Proof. intros Hf. apply emits_emit. exact Hf. Qed.

Lemma emits_vk_call f args : pf f = true -> emits P (vk_call d f args).
Proof.
  intros Hf w. eexists. simpl. split; [reflexivity |].
  constructor; [exact Hf | constructor].
Qed.

Lemma emits_vk_create f args old : pf f = true -> emits P (vk_create d f args old).
Proof.
  intros Hf w. unfold vk_create.
  destruct (drv_result d (trace w) f =? VK_SUCCESS); eexists; simpl;
    (split; [reflexivity |]); (constructor; [exact Hf | constructor]).
Qed.

Lemma emits_vk_allocate args count old :
  pf vkAllocateCommandBuffers = true -> emits P (vk_allocate d args count old).
Proof.
  intros Hf w. unfold vk_allocate.
  destruct (drv_result d (trace w) vkAllocateCommandBuffers =? VK_SUCCESS); eexists; simpl;
    (split; [reflexivity |]); (constructor; [exact Hf | constructor]).
Qed.

Lemma emits_vk_create_fence device flags old :
  pf vkCreateFence = true -> emits P (vk_create_fence d device flags old).
Proof.
  intros Hf w. unfold vk_create_fence.
  destruct (drv_result d (trace w) vkCreateFence =? VK_SUCCESS); eexists; simpl;
    (split; [reflexivity |]); (constructor; [exact Hf | constructor]).
Qed.

Lemma emits_vk_acquire args : pf vkAcquireNextImageKHR = true -> emits P (vk_acquire d args).
Proof.
  intros Hf w. eexists. simpl. split; [reflexivity |].
  constructor; [exact Hf | constructor].
Qed.

Lemma emits_vk_wait_for_fence device fence :
  pf vkWaitForFences = true -> pblock = true ->
  emits P (vk_wait_for_fence d device fence).
Proof.
  intros Hf Hb w. eexists. simpl. split; [reflexivity |].
  apply Forall_app. split.
  - destruct (is_signaled fence w); repeat constructor. exact Hb.
  - constructor; [exact Hf | constructor].
Qed.

Lemma emits_vk_reset_fence device fence :
  pf vkResetFences = true -> emits P (vk_reset_fence d device fence).
Proof.
  intros Hf w. eexists. simpl. split; [reflexivity |].
  constructor; [exact Hf | constructor].
Qed.

Lemma emits_at_index {A} (v : list A) i : emits P (at_index v i).
Proof.
  unfold at_index. destruct (i <? 0); [apply emits_undefined |].
  destruct (v !! Z.to_nat i); [apply emits_ret | apply emits_undefined].
Qed.

Lemma emits_of_option {A} (o : option A) : emits P (of_option o).
Proof. destruct o; [apply emits_ret | apply emits_undefined]. Qed.

Lemma emits_checkResult r : pbreak = true -> emits P (checkResult r).
Proof.
  intros Hb. unfold checkResult. destruct (negb (r =? VK_SUCCESS)); [| apply emits_ret].
  intros w. exists [DebugBreak]. simpl. split; [reflexivity |].
  constructor; [exact Hb | constructor].
Qed.

End Emits.

Create HintDb emits.

Ltac emits_step :=
  first
    [ apply emits_ret | apply emits_undefined
    | apply emits_vk_void; reflexivity
    | apply emits_vk_call; reflexivity
    | apply emits_vk_create; reflexivity
    | apply emits_vk_allocate; reflexivity
    | apply emits_vk_create_fence; reflexivity
    | apply emits_vk_acquire; reflexivity
    | apply emits_vk_wait_for_fence; reflexivity
    | apply emits_vk_reset_fence; reflexivity
    | apply emits_at_index
    | apply emits_of_option
    | apply emits_checkResult; reflexivity
    | apply emits_emit; reflexivity
    | solve [auto with emits]
    | lazymatch goal with
      | |- emits _ (let '(_, _) := ?p in _) => destruct p
      | |- emits _ (if ?c then _ else _) => destruct c
      end
    | apply emits_bind; [| intros ?] ].

Ltac emits_all := cbv zeta; repeat emits_step.

(** ** The events of [initialize], [render] and [terminate] *)

Section EmitsProgram.

Variable d : Driver.
Variable DEBUG : bool.

Lemma setup_initializeInstance name app :
  emits setup_event (initializeInstance d DEBUG name app).
Proof. unfold initializeInstance, setup_event. emits_all. Qed.

Lemma setup_selectPhysicalDevice app : emits setup_event (selectPhysicalDevice d app).
Proof. unfold selectPhysicalDevice, setup_event. emits_all. Qed.

Lemma setup_searchGraphicsQueueIndex app :
  emits setup_event (searchGraphicsQueueIndex d app).
Proof. unfold searchGraphicsQueueIndex, setup_event. emits_all. Qed.

Lemma setup_enableDebugReport app : emits setup_event (enableDebugReport d app).
Proof. unfold enableDebugReport, GetInstanceProcAddr, setup_event. emits_all. Qed.

Lemma setup_createDevice app : emits setup_event (createDevice d app).
Proof. unfold createDevice, setup_event. emits_all. Qed.

Lemma setup_prepareCommandPool app : emits setup_event (prepareCommandPool d app).
Proof. unfold prepareCommandPool, setup_event. emits_all. Qed.

Lemma setup_selectSurfaceFormat format0 app :
  emits setup_event (selectSurfaceFormat d format0 app).
Proof. unfold selectSurfaceFormat, setup_event. emits_all. Qed.

Lemma setup_createSwapchain window app : emits setup_event (createSwapchain d window app).
Proof. unfold createSwapchain, setup_event. emits_all. Qed.

Lemma setup_createDepthBuffer app : emits setup_event (createDepthBuffer d app).
Proof. unfold createDepthBuffer, setup_event. emits_all. Qed.

Lemma setup_createViews_loop app n :
  forall i views, emits setup_event (createViews_loop d app n i views).
Proof.
  unfold setup_event.
  induction n as [| n IH]; intros i views; cbn [createViews_loop]; emits_all.
Qed.

Lemma setup_createViews app : emits setup_event (createViews d app).
Proof.
  pose proof setup_createViews_loop as Hloop.
  unfold createViews, setup_event in *. emits_all.
Qed.

Lemma setup_createRenderPass app : emits setup_event (createRenderPass d app).
Proof. unfold createRenderPass, setup_event. emits_all. Qed.

Lemma setup_createFramebuffer_loop app views :
  forall fbs, emits setup_event (createFramebuffer_loop d app views fbs).
Proof.
  unfold setup_event.
  induction views as [| v views IH]; intros fbs; cbn [createFramebuffer_loop]; emits_all.
Qed.

Lemma setup_createFramebuffer app : emits setup_event (createFramebuffer d app).
Proof.
  pose proof setup_createFramebuffer_loop as Hloop.
  unfold createFramebuffer, setup_event in *. emits_all.
Qed.

Lemma setup_prepareCommandBuffers_loop app n :
  forall i fences, emits setup_event (prepareCommandBuffers_loop d app n i fences).
Proof.
  unfold setup_event.
  induction n as [| n IH]; intros i fences; cbn [prepareCommandBuffers_loop]; emits_all.
Qed.

Lemma setup_prepareCommandBuffers app : emits setup_event (prepareCommandBuffers d app).
Proof.
  pose proof setup_prepareCommandBuffers_loop as Hloop.
  unfold prepareCommandBuffers, setup_event in *. emits_all.
Qed.

Lemma setup_prepareSemaphores app : emits setup_event (prepareSemaphores d app).
Proof. unfold prepareSemaphores, setup_event. emits_all. Qed.

Lemma frame_render app : emits frame_event (render d app).
Proof. unfold render, frame_event. emits_all. Qed.

Lemma frame_render_loop frames : forall app, emits frame_event (render_loop d frames app).
Proof.
  induction frames as [| n IH]; intros app; cbn [render_loop].
  - apply emits_ret.
  - apply emits_bind; [apply frame_render | exact IH].
Qed.

End EmitsProgram.

(** ** [initialize] and the [prepare] hook *)

Lemma prepared_last_bind {A B} (m : M A) (k : A -> M B) :
  emits setup_event m -> (forall a, prepared_last (k a)) -> prepared_last (bind m k).
Proof.
  intros Hm Hk w. destruct (Hm w) as (new1 & Htr1 & Hq1). unfold bind.
  destruct (m w) as [a w1 | w1 | w1]; simpl in *.
  - destruct (Hk a w1) as (new2 & Htr2 & Hq2). exists (new1 ++ new2).
    rewrite Htr2, Htr1, app_assoc. split; [reflexivity |].
    destruct (k a w1) as [b w2 | w2 | w2].
    + destruct Hq2 as (body & -> & Hbody). exists (new1 ++ body).
      rewrite app_assoc. split; [reflexivity |]. apply Forall_app. split; assumption.
    + apply Forall_app. split; assumption.
    + apply Forall_app. split; assumption.
  - exists new1. split; assumption.
  - exists new1. split; assumption.
Qed.

Lemma prepared_last_final {A} (a : A) :
  prepared_last (emit (Hook prepare []) ;;; ret a).
Proof.
  intros w. exists [Hook prepare []]. simpl. split; [reflexivity |].
  exists []. split; [reflexivity | constructor].
Qed.

#[local] Hint Resolve setup_initializeInstance setup_selectPhysicalDevice
  setup_searchGraphicsQueueIndex setup_enableDebugReport setup_createDevice
  setup_prepareCommandPool setup_selectSurfaceFormat setup_createSwapchain
  setup_createDepthBuffer setup_createViews setup_createRenderPass
  setup_createFramebuffer setup_prepareCommandBuffers setup_prepareSemaphores : emits.

Lemma prepared_last_initialize (d : Driver) (DEBUG : bool) (window : Handle)
  (name : string) (app : VulkanAppBase) :
  prepared_last (initialize d DEBUG window name app).
Proof.
  unfold initialize. cbv zeta.
  repeat first
    [ apply prepared_last_final
    | lazymatch goal with
      | |- prepared_last (let '(_, _) := ?p in _) => destruct p
      end
    | apply prepared_last_bind;
      [ first [ solve [auto with emits]
              | destruct DEBUG; [apply setup_enableDebugReport | apply emits_ret]
              | unfold setup_event; emits_all ]
      | intros ? ] ].
Qed.

(** X1: the [prepare] hook of the application is the last thing a returning
    [initialize] does, and it is reached only when every checked creation call
    succeeded: before it there are calls of the driver and of the window
    library only, none of them a failed checked call, and no [DebugBreak].  An
    [initialize] that stops, in [DebugBreak] or in undefined behaviour, has
    not called [prepare]. *)
Theorem initialize_prepare_last (d : Driver) (DEBUG : bool) (window : Handle)
  (name : string) (app : VulkanAppBase) (w : World) :
  let init := initialize d DEBUG window name app in
  match init w with
  | Ok _ _ =>
      exists body,
        new_events init w = body ++ [Hook prepare []] /\
        Forall setup_event body /\ Forall quiet body
  | _ => Forall setup_event (new_events init w)
  end.
Proof.
  intros init.
  destruct (prepared_last_initialize d DEBUG window name app w) as (new & Htr & Hlast).
  destruct (guarded_initialize d DEBUG window name app w) as (new' & Htr' & Hq).
  fold init in Htr, Hlast, Htr', Hq.
  rewrite (new_events_eq init w new Htr).
  assert (new' = new) by (rewrite Htr in Htr'; apply app_inv_head in Htr'; congruence).
  subst new'.
  destruct (init w) as [app' w' | w' | w']; try exact Hlast.
  destruct Hlast as (body & -> & Hbody). exists body.
  split; [reflexivity |]. split; [exact Hbody |].
  apply Forall_app in Hq. apply Hq.
Qed.

(** ** [terminate] *)

Lemma destroy_each_run (f : VkFn) (device : Handle) (vs : list Handle) :
  forall w, destroy_each f device vs w = Ok tt (log (destroy_events f device vs) w).
Proof.
  induction vs as [| v vs IH]; intros w; cbn [destroy_each destroy_events map].
  - unfold ret, log. rewrite app_nil_r. destruct w; reflexivity.
  - unfold bind, vk_void, emit. rewrite IH. unfold log, destroy_events. simpl.
    rewrite <- app_assoc. reflexivity.
Qed.

Lemma log_log (a b : list Event) (w : World) : log b (log a w) = log (a ++ b) w.
Proof. unfold log. simpl. rewrite app_assoc. reflexivity. Qed.

Lemma log_nil (w : World) : log [] w = w.
Proof. unfold log. rewrite app_nil_r. destruct w; reflexivity. Qed.

Lemma disableDebugReport_run (DEBUG : bool) (app : VulkanAppBase) (w : World) :
  (if DEBUG then disableDebugReport app else ret tt) w =
  Ok tt (log (if DEBUG && negb (m_vkDestroyDebugReportCallbackEXT app =? 0)
              then [Call vkDestroyDebugReportCallbackEXT
                         [m_instance app; m_debugReport app] None []]
              else []) w).
Proof.
  destruct DEBUG; cbn [andb].
  - unfold disableDebugReport.
    destruct (negb (m_vkDestroyDebugReportCallbackEXT app =? 0)).
    + reflexivity.
    + rewrite log_nil. reflexivity.
  - rewrite log_nil. reflexivity.
Qed.

Lemma terminate_run (d : Driver) (DEBUG : bool) (app : VulkanAppBase) (w : World) :
  terminate d DEBUG app w =
  Ok (terminated app)
     (log (terminate_events DEBUG app (drv_result d (trace w) vkDeviceWaitIdle)) w).
Proof.
  unfold terminate, bind, vk_call, vk_void, emit. cbv beta iota zeta.
  rewrite !destroy_each_run. cbv beta iota zeta.
  rewrite disableDebugReport_run. unfold ret.
  rewrite !log_log. reflexivity.
Qed.


Lemma In_destroy_events (f : VkFn) (device v : Handle) (vs : list Handle) :
  In v vs -> In (Call f [device; v] None []) (destroy_events f device vs).
Proof. intros H. unfold destroy_events. apply in_map_iff. exists v. split; [reflexivity | exact H]. Qed.

(** X3: [terminate] is not safe to call twice.  The second call leaves the
    object as the first one left it, frees no command buffer and destroys no
    fence (those vectors were emptied), but it passes every framebuffer of
    [m_framebuffers], the render pass, the swapchain, the device and the
    instance to their destroy functions a second time. *)
Theorem terminate_twice (d : Driver) (DEBUG : bool) (app : VulkanAppBase) (w : World) :
  exists app1 w1 w2,
    terminate d DEBUG app w = Ok app1 w1 /\
    terminate d DEBUG app1 w1 = Ok app1 w2 /\
    let second := new_events (terminate d DEBUG app1) w1 in
    In (Call vkFreeCommandBuffers [m_device app; m_commandPool app; 0] None []) second /\
    (forall args res outs, ~ In (Call vkDestroyFence args res outs) second) /\
    (forall fb, In fb (m_framebuffers app) ->
                In (Call vkDestroyFramebuffer [m_device app; fb] None []) second) /\
    In (Call vkDestroyRenderPass [m_device app; m_renderPass app] None []) second /\
    In (Call vkDestroySwapchainKHR [m_device app; m_swapchain app] None []) second /\
    In (Call vkDestroyDevice [m_device app] None []) second /\
    In (Call vkDestroyInstance [m_instance app] None []) second.
Proof.
  do 3 eexists. rewrite !terminate_run. split; [reflexivity |]. split; [reflexivity |].
  cbv zeta.
  rewrite (new_events_eq _ _ _ ltac:(rewrite terminate_run; reflexivity)).
  unfold terminate_events, terminated, destroy_events. simpl.
  change (uint32_t (zlength [])) with 0.
  split; [right; right; left; reflexivity |].
  split.
  - intros args res outs Hin. simpl in Hin.
    repeat (destruct Hin as [Hin | Hin]; [discriminate Hin |]).
    apply in_app_or in Hin as [Hin | Hin].
    + apply in_map_iff in Hin as (v & Hv & _). discriminate Hv.
    + simpl in Hin. destruct Hin as [Hin | Hin]; [discriminate Hin |].
      repeat (destruct Hin as [Hin | Hin]; [discriminate Hin |]).
      apply in_app_or in Hin as [Hin | Hin].
      * destruct (DEBUG && _); simpl in Hin; intuition discriminate.
      * simpl in Hin. intuition discriminate.
  - split; [| split; [| split; [| split]]].
    + intros fb Hfb. do 4 right. apply in_or_app. left.
      apply in_map_iff. exists fb. split; [reflexivity | exact Hfb].
    + do 3 right. left. reflexivity.
    + do 4 right. apply in_or_app. right. left. reflexivity.
    + do 4 right. apply in_or_app. right. right. do 4 right. left. reflexivity.
    + do 4 right. apply in_or_app. right. right. do 5 right.
      apply in_or_app. right. left. reflexivity.
Qed.

(** ** Device and queue selection *)

Lemma searchGraphicsQueueIndex_loop_spec (props : list Z) :
  forall i : Z,
    (exists (k : nat) (flags : Z),
        searchGraphicsQueueIndex_loop props i = i + Z.of_nat k /\
        props !! k = Some flags /\ has_graphics flags /\
        forall (j : nat) (fl : Z), (j < k)%nat -> props !! j = Some fl -> ~ has_graphics fl)
    \/ (searchGraphicsQueueIndex_loop props i = UINT32_NOT0 /\
        forall fl, In fl props -> ~ has_graphics fl).
Proof.
  unfold has_graphics.
  induction props as [| q props IH]; intros i; cbn [searchGraphicsQueueIndex_loop].
  - right. split; [reflexivity |]. intros fl [].
  - destruct (Z.eqb_spec (Z.land q VK_QUEUE_GRAPHICS_BIT) 0) as [Hz | Hnz]; cbn [negb].
    + destruct (IH (i + 1)) as [(k & flags & Hr & Hk & Hg & Hfirst) | (Hr & Hnone)].
      * left. exists (S k), flags. split; [rewrite Hr; lia |].
        split; [exact Hk |]. split; [exact Hg |].
        intros j fl Hj Hfl. destruct j as [| j]; simpl in Hfl.
        -- inversion Hfl. subst fl. intros Hc. apply Hc. exact Hz.
        -- apply (Hfirst j fl); [lia | exact Hfl].
      * right. split; [exact Hr |]. intros fl [<- | Hin]; [intros Hc; apply Hc, Hz |].
        apply Hnone, Hin.
    + left. exists O, q. split; [simpl; lia |]. split; [reflexivity |].
      split; [exact Hnz |]. intros j fl Hj. lia.
Qed.

(** X4: [searchGraphicsQueueIndex] always returns.  It returns the index of
    the first queue family whose flags have [VK_QUEUE_GRAPHICS_BIT], and the
    sentinel 0xFFFFFFFF when no family has it (in particular when the device
    reports no family at all).  It does nothing but query the families,
    twice. *)
Theorem searchGraphicsQueueIndex_first (d : Driver) (app : VulkanAppBase) (w : World) :
  exists q w',
    searchGraphicsQueueIndex d app w = Ok q w' /\
    trace w' = trace w ++
      [Call vkGetPhysicalDeviceQueueFamilyProperties [m_physDev app] None [];
       Call vkGetPhysicalDeviceQueueFamilyProperties
            [m_physDev app; zlength (drv_queueFamilies d)] None []] /\
    ((exists (k : nat) (flags : Z),
         q = Z.of_nat k /\
         drv_queueFamilies d !! k = Some flags /\ has_graphics flags /\
         forall (j : nat) (fl : Z),
           (j < k)%nat -> drv_queueFamilies d !! j = Some fl -> ~ has_graphics fl)
     \/ (q = UINT32_NOT0 /\
         forall fl, In fl (drv_queueFamilies d) -> ~ has_graphics fl)).
Proof.
  unfold searchGraphicsQueueIndex, bind, vk_void, emit, ret, log. simpl.
  do 2 eexists. split; [reflexivity |]. simpl. split.
  - rewrite <- app_assoc. reflexivity.
  - destruct (searchGraphicsQueueIndex_loop_spec (drv_queueFamilies d) 0)
      as [(k & flags & Hr & Hrest) | (Hr & Hnone)].
    + left. exists k, flags. split; [rewrite Hr; lia | exact Hrest].
    + right. split; [exact Hr | exact Hnone].
Qed.

(** X5: [selectPhysicalDevice] takes the first enumerated device, whatever it
    is, and caches its memory properties.  When no device is enumerated, the
    access to the first element of the empty vector is undefined behaviour;
    nothing has been asked about memory at that point. *)
Theorem selectPhysicalDevice_first (d : Driver) (app : VulkanAppBase) (w : World) :
  let enumerated :=
    [Call vkEnumeratePhysicalDevices [m_instance app; 0]
          (Some (drv_result d (trace w) vkEnumeratePhysicalDevices)) [];
     Call vkEnumeratePhysicalDevices [m_instance app; zlength (drv_physDevs d)]
          (Some (drv_result d
                   (trace w ++
                    [Call vkEnumeratePhysicalDevices [m_instance app; 0]
                          (Some (drv_result d (trace w) vkEnumeratePhysicalDevices)) []])
                   vkEnumeratePhysicalDevices)) []] in
  match drv_physDevs d with
  | [] => selectPhysicalDevice d app w = Undefined (log enumerated w)
  | p :: _ =>
      selectPhysicalDevice d app w =
      Ok (set_m_physMemProps (drv_memProps d) (set_m_physDev p app))
         (log (enumerated ++ [Call vkGetPhysicalDeviceMemoryProperties [p] None []]) w)
  end.
Proof.
  unfold selectPhysicalDevice, bind, vk_call, vk_void, emit, at_index, ret, undefined, log.
  simpl. destruct (drv_physDevs d) as [| p rest]; simpl.
  - rewrite <- app_assoc. reflexivity.
  - rewrite <- !app_assoc. reflexivity.
Qed.

(** ** Frames *)

(** X6: [render] does not check the image index it gets from
    [vkAcquireNextImageKHR].  With an index outside [m_fences] the element
    access [m_fences[nextImageIndex]] is undefined behaviour, and it is
    reached right after the acquire: the acquire, with the unchecked index as
    its output, is the only call made up to that point.  What the program
    does from there on is not described. *)
Theorem render_index_out_of_range (d : Driver) (app : VulkanAppBase) (w : World) :
  let i := drv_acquire d (trace w) in
  i < 0 \/ zlength (m_fences app) <= i ->
  render d app w =
  Undefined
    (log [Call vkAcquireNextImageKHR
               [m_device app; m_swapchain app; UINT64_MAX; m_presentCompletedSem app;
                VK_NULL_HANDLE]
               (Some (drv_result d (trace w) vkAcquireNextImageKHR)) [i]] w).
Proof.
  intros i Hi. unfold render, bind, vk_acquire, at_index. fold i.
  destruct (Z.ltb_spec i 0) as [Hneg | Hpos]; [reflexivity |].
  destruct Hi as [Hi | Hi]; [lia |].
  rewrite (proj2 (lookup_ge_None (m_fences app) (Z.to_nat i)));
    [reflexivity | unfold zlength in Hi; lia].
Qed.

Lemma render_index_out_of_range_witness :
  exists w', render drv_index_5 app_ready w_ready = Undefined w'.
Proof.
  eexists.
  apply (render_index_out_of_range drv_index_5 app_ready w_ready).
  right. vm_compute. discriminate.
Defined.

Lemma count_app (p : Event -> bool) (l1 l2 : list Event) :
  count p (l1 ++ l2) = (count p l1 + count p l2)%nat.
Proof.
  induction l1 as [| e l1 IH]; [reflexivity |]. simpl.
  destruct (p e); rewrite IH; reflexivity.
Qed.

Lemma count_none (p : Event -> bool) (l : list Event) :
  Forall (fun e => p e = false) l -> count p l = O.
Proof.
  induction 1 as [| e l He _ IH]; [reflexivity |]. simpl. rewrite He. exact IH.
Qed.

Lemma frame_event_quiet (e : Event) :
  frame_event e -> creates_nothing e /\ keeps_handles e.
Proof.
  destruct e as [f args res outs | h args | fence |]; simpl; try (split; exact I).
  destruct f; simpl; intros H; try discriminate H; split; reflexivity.
Qed.

Lemma setup_event_keeps (e : Event) : setup_event e -> keeps_handles e.
Proof.
  destruct e as [f args res outs | h args | fence |]; simpl; try (intros; exact I).
  destruct f; simpl; intros H; try discriminate H; reflexivity.
Qed.

Lemma setup_event_not_frame (e : Event) :
  setup_event e ->
  is_acquire e = false /\ is_submit e = false /\ is_present e = false /\
  is_makeCommand e = false.
Proof.
  destruct e as [f args res outs | h args | fence |]; simpl;
    try (intros; repeat split; reflexivity).
  - destruct f; simpl; intros H; try discriminate H; repeat split; reflexivity.
  - discriminate.
Qed.

Lemma count_frame_events (app : VulkanAppBase) i fence fb cmd ready r1 r2 r3 r4 r5 r6 r7 :
  let frame := frame_events app i fence fb cmd ready r1 r2 r3 r4 r5 r6 r7 in
  count is_acquire frame = 1%nat /\ count is_submit frame = 1%nat /\
  count is_present frame = 1%nat /\ count is_makeCommand frame = 1%nat.
Proof. unfold frame_events. destruct ready; repeat split; reflexivity. Qed.

(** What a returning [render_loop] has done. *)
Lemma render_loop_Ok_inv (d : Driver) (frames : nat) :
  forall (app app' : VulkanAppBase) (w w' : World),
    render_loop d frames app w = Ok app' w' ->
    app' = set_m_imageIndex (m_imageIndex app') app /\
    next_handle w' = next_handle w /\
    exists new,
      trace w' = trace w ++ new /\
      count is_acquire new = frames /\ count is_submit new = frames /\
      count is_present new = frames /\ count is_makeCommand new = frames.
Proof.
  induction frames as [| n IH]; intros app app' w w' H.
  - cbn in H. inversion H. subst. split; [reflexivity |]. split; [reflexivity |].
    exists []. rewrite app_nil_r. repeat split; reflexivity.
  - cbn [render_loop] in H. bind_inv H as app1 w1 Hframe.
    destruct (render_Ok_inv d app app1 w w1 Hframe) as (Hi & fence & fb & cmd & Hf & Hfb & Hc).
    destruct (render_run d app w fence fb cmd Hi Hf Hfb Hc)
      as (r1 & r2 & r3 & r4 & r5 & r6 & r7 & w1' & Hrun1 & Htr1 & Hnext & _).
    rewrite Hrun1 in Hframe. inversion Hframe. subst app1 w1'. clear Hframe.
    destruct (IH _ _ _ _ H) as (Happ & Hnext' & new & Htr & Ha & Hs & Hp & Hm).
    split; [rewrite Happ at 1; reflexivity |].
    split; [congruence |].
    eexists. split; [rewrite Htr, Htr1, <- app_assoc; reflexivity |].
    rewrite !count_app, Ha, Hs, Hp, Hm.
    match goal with
    | |- context [frame_events ?a ?i ?f ?b ?c ?r ?x1 ?x2 ?x3 ?x4 ?x5 ?x6 ?x7] =>
        destruct (count_frame_events a i f b c r x1 x2 x3 x4 x5 x6 x7)
          as (-> & -> & -> & ->)
    end.
    repeat split; reflexivity.
Qed.

(** X7: a [render_loop] of [frames] frames that returns has acquired,
    recorded (one [makeCommand] call), submitted and presented exactly once
    per frame; it has created no handle and released none; and the object is
    as before except for [m_imageIndex]. *)
Theorem render_loop_once_per_frame (d : Driver) (frames : nat)
  (app app' : VulkanAppBase) (w w' : World) :
  render_loop d frames app w = Ok app' w' ->
  let new := new_events (render_loop d frames app) w in
  count is_acquire new = frames /\ count is_makeCommand new = frames /\
  count is_submit new = frames /\ count is_present new = frames /\
  Forall creates_nothing new /\ Forall keeps_handles new /\
  next_handle w' = next_handle w /\
  app' = set_m_imageIndex (m_imageIndex app') app.
Proof.
  intros H new.
  destruct (render_loop_Ok_inv d frames app app' w w' H)
    as (Happ & Hnext & new' & Htr & Ha & Hs & Hp & Hm).
  assert (Hnew : new = new').
  { unfold new. apply new_events_eq. rewrite H. exact Htr. }
  pose proof (emits_new_events frame_event (render_loop d frames app) w
                (frame_render_loop d frames app)) as Hall.
  fold new in Hall. rewrite Hnew in *.
  repeat (split; [assumption |]).
  split; [| split; [| split; assumption]].
  - eapply Forall_impl; [exact Hall |]. intros e He. apply frame_event_quiet, He.
  - eapply Forall_impl; [exact Hall |]. intros e He. apply frame_event_quiet, He.
Qed.

Lemma render_loop_once_per_frame_witness :
  count is_submit (new_events (render_loop drv_ok 3 app_ready) w_ready) = 3%nat /\
  m_fences (app_after 3) = m_fences app_ready.
Proof.
  assert (Hloop : render_loop drv_ok 3 app_ready w_ready = Ok (app_after 3) (w_after 3))
    by (vm_compute; reflexivity).
  destruct (render_loop_once_per_frame drv_ok 3 app_ready (app_after 3) w_ready
              (w_after 3) Hloop) as (_ & _ & Hs & _ & _ & _ & _ & Happ).
  split; [exact Hs |]. rewrite Happ. reflexivity.
Defined.

(** ** The whole run *)

Lemma Forall_destroy_events (f : VkFn) (device : Handle) (vs : list Handle) :
  releases f = true -> Forall release_event (destroy_events f device vs).
Proof.
  intros Hf. unfold destroy_events. apply Forall_forall. intros e He.
  apply list_elem_of_In, in_map_iff in He as (v & <- & _). exact Hf.
Qed.

Lemma terminate_events_shape (DEBUG : bool) (app : VulkanAppBase) (r : VkResult) :
  exists after,
    terminate_events DEBUG app r =
    Call vkDeviceWaitIdle [m_device app] (Some r) [] :: Hook cleanup [] :: after /\
    Forall release_event after.
Proof.
  unfold terminate_events. eexists. split; [reflexivity |].
  destruct (DEBUG && negb (m_vkDestroyDebugReportCallbackEXT app =? 0));
    repeat first
      [ apply Forall_destroy_events; reflexivity
      | apply Forall_app; split
      | constructor; [reflexivity |]
      | constructor ].
Qed.

(** X8: in a run of the program that reaches its end ([initialize], any
    number of frames, [terminate]) nothing is released before the device-idle
    wait of [terminate]: up to that wait there are the set-up calls, the
    [prepare] hook and exactly [frames] submissions and presentations; after
    the wait and the [cleanup] hook there are release calls only. *)
Theorem release_after_device_idle (d : Driver) (DEBUG : bool) (window : Handle)
  (frames : nat) (indeterminate app' : VulkanAppBase) (w w' : World) :
  wWinMain d DEBUG window frames indeterminate w = Ok app' w' ->
  exists before r after,
    new_events (wWinMain d DEBUG window frames indeterminate) w =
      before ++
      Call vkDeviceWaitIdle [m_device app'] (Some r) [] :: Hook cleanup [] :: after /\
    Forall keeps_handles before /\
    count is_submit before = frames /\
    count is_present before = frames /\
    Forall release_event after.
Proof.
  intros H.
  assert (Hnew : new_events (wWinMain d DEBUG window frames indeterminate) w
                 = drop (length (trace w)) (trace w'))
    by (unfold new_events; rewrite H; reflexivity).
  rewrite Hnew. clear Hnew. unfold wWinMain in H. cbv zeta in H.
  bind_inv H as app1 w1 Hinit. bind_inv H as app2 w2 Hloop.
  destruct (prepared_last_initialize d DEBUG window "SimpleTriangle"
              (VulkanAppBase_ctor indeterminate) w) as (new1 & Htr1 & Hlast).
  rewrite Hinit in Htr1, Hlast. simpl in Htr1.
  destruct Hlast as (body & -> & Hbody).
  destruct (render_loop_Ok_inv d frames app1 app2 w1 w2 Hloop)
    as (_ & _ & new2 & Htr2 & _ & Hs & Hp & _).
  pose proof (emits_new_events frame_event (render_loop d frames app1) w1
                (frame_render_loop d frames app1)) as Hframes.
  rewrite (new_events_eq _ _ new2 ltac:(rewrite Hloop; exact Htr2)) in Hframes.
  rewrite terminate_run in H. inversion H. subst app' w'. clear H.
  destruct (terminate_events_shape DEBUG app2 (drv_result d (trace w2) vkDeviceWaitIdle))
    as (after & Hshape & Hafter).
  exists ((body ++ [Hook prepare []]) ++ new2),
    (drv_result d (trace w2) vkDeviceWaitIdle), after.
  split; [| split; [| split; [| split]]].
  - unfold log. cbn [trace]. rewrite Hshape, Htr2, Htr1, <- !app_assoc.
    rewrite drop_app_length. reflexivity.
  - apply Forall_app. split; [apply Forall_app; split |].
    + eapply Forall_impl; [exact Hbody | exact setup_event_keeps].
    + constructor; [exact I | constructor].
    + eapply Forall_impl; [exact Hframes |]. intros e He. apply frame_event_quiet, He.
  - rewrite !count_app, Hs. rewrite count_none; [reflexivity |].
    eapply Forall_impl; [exact Hbody |]. intros e He. apply setup_event_not_frame, He.
  - rewrite !count_app, Hp. rewrite count_none; [reflexivity |].
    eapply Forall_impl; [exact Hbody |]. intros e He. apply setup_event_not_frame, He.
  - exact Hafter.
Qed.

Lemma release_after_device_idle_witness :
  exists app' w' before r after,
    wWinMain drv_ok false 77 2 zero_app w0 = Ok app' w' /\
    new_events (wWinMain drv_ok false 77 2 zero_app) w0 =
      before ++
      Call vkDeviceWaitIdle [m_device app'] (Some r) [] :: Hook cleanup [] :: after /\
    count is_submit before = 2%nat.
Proof.
  destruct (wWinMain drv_ok false 77 2 zero_app w0) as [app' w' | w' | w'] eqn:Hrun;
    [| vm_compute in Hrun; discriminate Hrun ..].
  destruct (release_after_device_idle drv_ok false 77 2 zero_app app' w0 w' Hrun)
    as (before & r & after & Hnew & _ & Hs & _).
  exists app', w', before, r, after. repeat split; assumption.
Defined.

(** ** One view and one framebuffer per image *)

Section PerImage.

Variable d : Driver.

Lemma vk_create_Ok_success f args old r h w w1 :
  vk_create d f args old w = Ok (r, h) w1 ->
  r = VK_SUCCESS ->
  h = next_handle w /\
  w1 = mkWorld (trace w ++ [Call f args (Some VK_SUCCESS) [h]]) (h + 1) (signaled w).
Proof.
  unfold vk_create. intros H Hr.
  destruct (Z.eqb_spec (drv_result d (trace w) f) VK_SUCCESS) as [Heq | Hne].
  - inversion H. subst. rewrite Heq. split; reflexivity.
  - inversion H. subst. contradiction.
Qed.

Lemma createFramebuffer_loop_exact (app : VulkanAppBase) (views : list Handle) :
  forall (fbs : list Handle) (w : World) (fbs' : list Handle) (w' : World),
    createFramebuffer_loop d app views fbs w = Ok fbs' w' ->
    let hs := seqZ (next_handle w) (Z.of_nat (length views)) in
    fbs' = fbs ++ hs /\
    next_handle w' = next_handle w + Z.of_nat (length views) /\
    signaled w' = signaled w /\
    trace w' = trace w ++ zip_with (vkCreateFramebuffer_event app) views hs.
Proof.
  induction views as [| v views IH]; intros fbs w fbs' w' H.
  - cbn in H. inversion H. subst. simpl. rewrite !app_nil_r.
    repeat split; try reflexivity. lia.
  - cbn [createFramebuffer_loop] in H.
    bind_inv H as [r h] w1 Hstep. check_inv H.
    apply vk_create_Ok_success in Hstep as (-> & ->); [| reflexivity].
    apply IH in H. cbn [next_handle signaled trace] in H.
    destruct H as (-> & Hnext & Hsig & Htr).
    cbn [length]. rewrite seqZ_succ. cbn [zip_with].
    rewrite <- !app_assoc. repeat split.
    + rewrite Hnext. lia.
    + exact Hsig.
    + rewrite Htr, <- app_assoc. reflexivity.
Qed.

Lemma createViews_loop_exact (app : VulkanAppBase) (n : nat) :
  forall (before todo : list Handle) (w : World) (views' : list Handle) (w' : World),
    length todo = n ->
    createViews_loop d app n (length before) (before ++ todo) w = Ok views' w' ->
    let hs := seqZ (next_handle w) (Z.of_nat n) in
    views' = before ++ hs /\
    next_handle w' = next_handle w + Z.of_nat n /\
    signaled w' = signaled w /\
    trace w' = trace w ++
      zip_with (vkCreateImageView_event app)
               (take n (drop (length before) (m_swapchainImages app))) hs.
Proof.
  induction n as [| n IH]; intros before todo w views' w' Hlen H.
  - destruct todo; simpl in Hlen; [| lia]. cbn in H. inversion H. subst.
    simpl. rewrite !app_nil_r. repeat split; try reflexivity. lia.
  - destruct todo as [| x todo]; simpl in Hlen; [lia |]. injection Hlen as Hlen.
    cbn [createViews_loop] in H.
    bind_inv H as image w1 Himage. apply at_index_Ok_inv in Himage as (_ & Himage & ->).
    rewrite Nat2Z.id in Himage.
    unfold bind at 1 in H. rewrite at_index_middle in H.
    bind_inv H as [r h] w1 Hstep. check_inv H.
    apply vk_create_Ok_success in Hstep as (-> & ->); [| reflexivity].
    rewrite insert_app_r_alt, Nat.sub_diag in H by lia.
    cbn [insert list_insert list_alter] in H.
    change (before ++ next_handle w :: todo) with (before ++ [next_handle w] ++ todo) in H.
    rewrite app_assoc in H.
    replace (S (length before)) with (length (before ++ [next_handle w])) in H
      by (rewrite length_app; simpl; lia).
    apply IH in H; [| exact Hlen]. cbn [next_handle signaled trace] in H.
    destruct H as (-> & Hnext & Hsig & Htr).
    rewrite seqZ_succ, (drop_S _ _ _ Himage). cbn [take zip_with].
    rewrite <- !app_assoc. repeat split.
    + rewrite Hnext. lia.
    + exact Hsig.
    + rewrite Htr, <- app_assoc, length_app. cbn [length].
      replace (length before + 1)%nat with (S (length before)) by lia. reflexivity.
Qed.

(** [createViews], when it returns. *)
Lemma createViews_exact (app app' : VulkanAppBase) (w w' : World) :
  createViews d app w = Ok app' w' ->
  let images := drv_swapchainImages d in
  let views := seqZ (next_handle w) (Z.of_nat (length images)) in
  app' = set_m_depthBufferView (next_handle w + Z.of_nat (length images))
           (set_m_swapchainViews views (set_m_swapchainImages images app)) /\
  next_handle w' = next_handle w + Z.of_nat (length images) + 1 /\
  signaled w' = signaled w /\
  exists r1 r2,
    trace w' = trace w ++
      [Call vkGetSwapchainImagesKHR [m_device app; m_swapchain app; 0] (Some r1) [];
       Call vkGetSwapchainImagesKHR
            [m_device app; m_swapchain app; Z.of_nat (length images)] (Some r2) []]
      ++ zip_with (vkCreateImageView_event app') images views
      ++ [depth_view_event app'].
Proof.
  intros H images views. unfold createViews in H. fold images in H.
  bind_inv H as r1 w1 Hq1. bind_inv H as r2 w2 Hq2.
  unfold vk_call in Hq1, Hq2. inversion Hq1. subst r1 w1. clear Hq1.
  inversion Hq2. subst r2 w2. clear Hq2.
  bind_inv H as vs w3 Hloop. bind_inv H as [r h] w4 Hstep. check_inv H.
  unfold ret in H. inversion H. subst app' w'. clear H.
  apply vk_create_Ok_success in Hstep as (-> & ->); [| reflexivity].
  set (views0 := resize (length images) VK_NULL_HANDLE
                        (m_swapchainViews (set_m_swapchainImages images app))) in *.
  apply (createViews_loop_exact _ _ [] views0) in Hloop; [| apply length_resize].
  cbn [next_handle signaled trace log length List.app] in Hloop.
  destruct Hloop as (-> & Hnext & Hsig & Htr).
  change (m_swapchainImages (set_m_swapchainImages images app)) with images in Htr.
  rewrite drop_0, firstn_all in Htr.
  cbn [next_handle signaled trace]. rewrite Hnext, Hsig.
  split; [reflexivity |]. split; [reflexivity |]. split; [reflexivity |].
  do 2 eexists. rewrite Htr. unfold log. cbn [trace].
  rewrite <- !app_assoc. reflexivity.
Qed.

(** [createFramebuffer], when it returns. *)
Lemma createFramebuffer_exact (app app' : VulkanAppBase) (w w' : World) :
  createFramebuffer d app w = Ok app' w' ->
  let views := m_swapchainViews app in
  let fbs := seqZ (next_handle w) (Z.of_nat (length views)) in
  app' = set_m_framebuffers fbs app /\
  next_handle w' = next_handle w + Z.of_nat (length views) /\
  signaled w' = signaled w /\
  trace w' = trace w ++ zip_with (vkCreateFramebuffer_event app) views fbs.
Proof.
  intros H views fbs. unfold createFramebuffer in H.
  bind_inv H as fbs' w1 Hloop. unfold ret in H. inversion H. subst app' w1. clear H.
  apply createFramebuffer_loop_exact in Hloop. destruct Hloop as (-> & Hrest).
  split; [reflexivity | exact Hrest].
Qed.

End PerImage.

Lemma In_zip_with_seqZ {A} (f : A -> Z -> Event) (l : list A) (h : Z) (i : nat) (x : A) :
  l !! i = Some x ->
  seqZ h (Z.of_nat (length l)) !! i = Some (h + Z.of_nat i) /\
  In (f x (h + Z.of_nat i)) (zip_with f l (seqZ h (Z.of_nat (length l)))).
Proof.
  intros Hx.
  assert (Hlt : (i < length l)%nat) by (apply lookup_lt_Some in Hx; exact Hx).
  assert (Hh : seqZ h (Z.of_nat (length l)) !! i = Some (h + Z.of_nat i))
    by (apply lookup_seqZ_lt; lia).
  split; [exact Hh |].
  apply list_elem_of_In, list_elem_of_lookup. exists i.
  apply lookup_zip_with_Some. exists x, (h + Z.of_nat i). repeat split; assumption.
Qed.

(** X9: [createViews], when it returns, holds the images the swapchain
    returned and one new colour view per image, in the same order: view [i]
    is created on image [i], 2D, with the surface format and the colour
    aspect.  One more view is created, on the depth image, with the depth
    format and the depth aspect.  What [m_swapchainViews] held before does
    not matter. *)
Theorem createViews_per_image (d : Driver) (app app' : VulkanAppBase) (w w' : World) :
  createViews d app w = Ok app' w' ->
  let new := new_events (createViews d app) w in
  m_swapchainImages app' = drv_swapchainImages d /\
  length (m_swapchainViews app') = length (drv_swapchainImages d) /\
  (forall (i : nat) (image : Handle),
      drv_swapchainImages d !! i = Some image ->
      exists view,
        m_swapchainViews app' !! i = Some view /\
        In (Call vkCreateImageView
                 [m_device app; VK_IMAGE_VIEW_TYPE_2D; format (m_surfaceFormat app);
                  VK_IMAGE_ASPECT_COLOR_BIT; image]
                 (Some VK_SUCCESS) [view]) new) /\
  In (Call vkCreateImageView
           [m_device app; VK_IMAGE_VIEW_TYPE_2D; VK_FORMAT_D32_SFLOAT;
            VK_IMAGE_ASPECT_DEPTH_BIT; m_depthBuffer app]
           (Some VK_SUCCESS) [m_depthBufferView app']) new.
Proof.
  intros H new.
  destruct (createViews_exact d app app' w w' H) as (Happ & _ & _ & r1 & r2 & Htr).
  assert (Hnew : new = _) by (unfold new; apply new_events_eq; rewrite H; exact Htr).
  rewrite Hnew. clear Hnew Htr. rewrite Happ. cbn [m_swapchainImages m_swapchainViews
    m_depthBufferView set_m_depthBufferView set_m_swapchainViews set_m_swapchainImages].
  split; [reflexivity |]. split; [rewrite length_seqZ; lia |]. split.
  - intros i image Hi.
    destruct (In_zip_with_seqZ
                (vkCreateImageView_event
                   (set_m_depthBufferView
                      (next_handle w + Z.of_nat (length (drv_swapchainImages d)))
                      (set_m_swapchainViews
                         (seqZ (next_handle w) (Z.of_nat (length (drv_swapchainImages d))))
                         (set_m_swapchainImages (drv_swapchainImages d) app))))
                (drv_swapchainImages d) (next_handle w) i image Hi) as (Hv & Hin).
    exists (next_handle w + Z.of_nat i). split; [exact Hv |].
    apply in_or_app. right. apply in_or_app. left. exact Hin.
  - apply in_or_app. right. apply in_or_app. right. left. reflexivity.
Qed.

Lemma createViews_per_image_witness :
  exists app' w',
    createViews drv_three_images app_ready w_ready = Ok app' w' /\
    length (m_swapchainViews app') = 3%nat.
Proof.
  destruct (createViews drv_three_images app_ready w_ready) as [app' w' | w' | w'] eqn:Hrun;
    [| vm_compute in Hrun; discriminate Hrun ..].
  exists app', w'. split; [reflexivity |].
  destruct (createViews_per_image drv_three_images app_ready app' w_ready w' Hrun)
    as (_ & Hlen & _).
  rewrite Hlen. reflexivity.
Defined.

(** X10: [createFramebuffer], when it returns, has replaced [m_framebuffers]
    by one new framebuffer per colour view, in the same order, and changed no
    other member.  Framebuffer [i] has two attachments, colour view [i] and
    the one depth view, so all framebuffers share the depth target; each has
    the swapchain extent and one layer. *)
Theorem createFramebuffer_per_view (d : Driver) (app app' : VulkanAppBase) (w w' : World) :
  createFramebuffer d app w = Ok app' w' ->
  let new := new_events (createFramebuffer d app) w in
  app' = set_m_framebuffers (m_framebuffers app') app /\
  length (m_framebuffers app') = length (m_swapchainViews app) /\
  length new = length (m_swapchainViews app) /\
  (forall (i : nat) (view : Handle),
      m_swapchainViews app !! i = Some view ->
      exists framebuffer,
        m_framebuffers app' !! i = Some framebuffer /\
        In (Call vkCreateFramebuffer
                 [m_device app; m_renderPass app;
                  width (m_swapchainExtent app); height (m_swapchainExtent app); 1;
                  2; view; m_depthBufferView app]
                 (Some VK_SUCCESS) [framebuffer]) new).
Proof.
  intros H new.
  destruct (createFramebuffer_exact d app app' w w' H) as (Happ & _ & _ & Htr).
  assert (Hnew : new = _) by (unfold new; apply new_events_eq; rewrite H; exact Htr).
  rewrite Hnew. clear Hnew Htr. rewrite Happ. cbn [m_framebuffers set_m_framebuffers].
  split; [reflexivity |]. split; [rewrite length_seqZ; lia |]. split.
  - rewrite length_zip_with, length_seqZ. lia.
  - intros i view Hi.
    destruct (In_zip_with_seqZ (vkCreateFramebuffer_event app) (m_swapchainViews app)
                (next_handle w) i view Hi) as (Hfb & Hin).
    exists (next_handle w + Z.of_nat i). split; [exact Hfb | exact Hin].
Qed.

Lemma createFramebuffer_per_view_witness :
  exists app' w',
    createFramebuffer drv_ok app_ready w_ready = Ok app' w' /\
    length (m_framebuffers app') = 2%nat.
Proof.
  destruct (createFramebuffer drv_ok app_ready w_ready) as [app' w' | w' | w'] eqn:Hrun;
    [| vm_compute in Hrun; discriminate Hrun ..].
  exists app', w'. split; [reflexivity |].
  destruct (createFramebuffer_per_view drv_ok app_ready app' w_ready w' Hrun)
    as (_ & Hlen & _).
  rewrite Hlen. vm_compute. reflexivity.
Defined.

(** ** The objects [initialize] creates fit together *)

Section Created.

Variable d : Driver.
Variable DEBUG : bool.

Lemma createSwapchain_exact (window : Handle) (app app' : VulkanAppBase) (w w' : World) :
  createSwapchain d window app w = Ok app' w' ->
  exists extent before,
    app' = set_m_swapchainExtent extent (set_m_swapchain (next_handle w) app) /\
    trace w' = trace w ++ before ++
      [Call vkCreateSwapchainKHR (vkCreateSwapchainKHR_args app extent)
            (Some VK_SUCCESS) [next_handle w]].
Proof.
  intros H. rewrite createSwapchain_run in H.
  destruct (Z.eqb_spec (drv_result d (trace (before_vkCreateSwapchainKHR d window app w))
                                   vkCreateSwapchainKHR) VK_SUCCESS) as [Hr | Hr];
    [| discriminate H].
  inversion H. subst app' w'. clear H. rewrite Hr.
  unfold before_vkCreateSwapchainKHR. cbn [trace].
  destruct (window_fallback app); do 2 eexists; (split; [reflexivity |]).
  - unfold log. cbn [trace next_handle]. rewrite <- app_assoc. reflexivity.
  - instantiate (1 := []). reflexivity.
Qed.

Lemma createDepthBuffer_exact (app app' : VulkanAppBase) (w w' : World) :
  createDepthBuffer d app w = Ok app' w' ->
  exists mem rest,
    app' = set_m_depthBufferMemory mem (set_m_depthBuffer (next_handle w) app) /\
    trace w' = trace w ++
      Call vkCreateImage (vkCreateImage_args app) (Some VK_SUCCESS) [next_handle w]
      :: rest.
Proof.
  intros H. pose proof H as H0. unfold createDepthBuffer in H0.
  bind_inv H0 as [r h] w1 Hstep. check_inv H0.
  assert (Hcreate : drv_result d (trace w) vkCreateImage = VK_SUCCESS).
  { unfold vk_create in Hstep.
    destruct (Z.eqb_spec (drv_result d (trace w) vkCreateImage) VK_SUCCESS) as [Hr | Hr];
      [exact Hr |]. inversion Hstep. contradiction. }
  bind_inv H0 as uq w2 Hq. bind_inv H0 as index w3 Hindex. clear H0.
  unfold of_option in Hindex.
  destruct (getMemoryTypeIndex (set_m_depthBuffer h app) (memoryTypeBits (drv_memReqs d))
              VK_MEMORY_PROPERTY_DEVICE_LOCAL_BIT) as [index' |] eqn:Hget;
    [| discriminate Hindex].
  change (getMemoryTypeIndex (set_m_depthBuffer h app)) with (getMemoryTypeIndex app) in Hget.
  destruct (createDepthBuffer_run d app w index' Hcreate Hget)
    as (mem & r_alloc & outs & r_bind & w'' & Hrun & Htr).
  rewrite Hrun in H. inversion H. subst app' w''. clear H.
  do 2 eexists. split; [reflexivity |]. rewrite Htr. reflexivity.
Qed.

Lemma createRenderPass_exact (app app' : VulkanAppBase) (w w' : World) :
  createRenderPass d app w = Ok app' w' ->
  app' = set_m_renderPass (next_handle w) app /\
  trace w' = trace w ++ [vkCreateRenderPass_event app'].
Proof.
  intros H. unfold createRenderPass in H.
  bind_inv H as [r h] w1 Hstep. check_inv H.
  apply vk_create_Ok_success in Hstep as (-> & ->); [| reflexivity].
  unfold ret in H. inversion H. subst app' w'. split; reflexivity.
Qed.

Lemma initialize_trace_assoc {A : Type}
  (t n0 before rest pre views fbs n1 : list A) (e1 e2 e3 e4 : A) :
  drop (length t)
       (((((((t ++ n0) ++ before ++ [e1]) ++ e2 :: rest) ++ pre ++ views ++ [e3])
          ++ [e4]) ++ fbs) ++ n1)
  = (n0 ++ before) ++ [e1; e2] ++ (rest ++ pre) ++ views ++ [e3; e4] ++ fbs ++ n1.
Proof.
  rewrite <- !app_assoc, drop_app_length. reflexivity.
Qed.

(** What [initialize] has created from the swapchain on, when it returns. *)
Lemma initialize_Ok_created (window : Handle) (name : string)
  (app app' : VulkanAppBase) (w w' : World) :
  initialize d DEBUG window name app w = Ok app' w' ->
  m_surfaceCaps app' = drv_surfaceCaps d /\
  m_swapchainImages app' = drv_swapchainImages d /\
  exists hv hf before between after,
    m_swapchainViews app' = seqZ hv (Z.of_nat (length (drv_swapchainImages d))) /\
    m_framebuffers app' = seqZ hf (Z.of_nat (length (drv_swapchainImages d))) /\
    new_events (initialize d DEBUG window name app) w =
      before ++
      [Call vkCreateSwapchainKHR
            (vkCreateSwapchainKHR_args app' (m_swapchainExtent app'))
            (Some VK_SUCCESS) [m_swapchain app'];
       Call vkCreateImage (vkCreateImage_args app') (Some VK_SUCCESS) [m_depthBuffer app']]
      ++ between
      ++ zip_with (vkCreateImageView_event app') (m_swapchainImages app')
                  (m_swapchainViews app')
      ++ [depth_view_event app'; vkCreateRenderPass_event app']
      ++ zip_with (vkCreateFramebuffer_event app') (m_swapchainViews app')
                  (m_framebuffers app')
      ++ after.
Proof.
  intros H.
  assert (Hnew : new_events (initialize d DEBUG window name app) w
                 = drop (length (trace w)) (trace w'))
    by (unfold new_events; rewrite H; reflexivity).
  rewrite Hnew. clear Hnew.
  pose proof (extends_refl w) as Hpre.
  unfold initialize in H.
  step H with Hpre as app1 w1 H1. step H with Hpre as app2 w2 H2.
  step H with Hpre as q w3 H3. step H with Hpre as app3 w4 H4.
  step H with Hpre as app4 w5 H5. step H with Hpre as app5 w6 H6.
  step H with Hpre as [r7 h7] w7 H7. step H with Hpre as app6 w8 H8.
  step H with Hpre as r9 w9 H9. step H with Hpre as r10 w10 H10.
  bind_inv H as app7 w11 Hsc. bind_inv H as app8 w12 Hdb.
  bind_inv H as app9 w13 Hviews. bind_inv H as app10 w14 Hrp.
  bind_inv H as app11 w15 Hfb. bind_inv H as app12 w16 Hcb.
  pose proof (extends_refl w15) as Hpost.
  pose proof (guarded_extends _ _ _ _ (guarded_prepareCommandBuffers d app11) Hcb) as Hcbx.
  apply (extends_trans _ _ _ Hpost) in Hcbx. clear Hpost. rename Hcbx into Hpost.
  step H with Hpost as app13 w17 H17. step H with Hpost as u w18 H18.
  unfold ret in H. inversion H. subst app13 w18. clear H.
  apply createSwapchain_exact in Hsc as (extent & before & -> & Hsc).
  apply createDepthBuffer_exact in Hdb as (mem & rest & -> & Hdb).
  apply createViews_exact in Hviews as (-> & Hnext13 & _ & r1 & r2 & Hviews).
  apply createRenderPass_exact in Hrp as (-> & Hrp).
  apply createFramebuffer_exact in Hfb as (-> & _ & _ & Hfb).
  apply prepareCommandBuffers_Ok in Hcb as (commands & fences & -> & _).
  apply prepareSemaphores_Ok in H17 as (s1 & s2 & -> & _).
  destruct Hpre as [n0 Hn0]. destruct Hpost as [n1 Hn1].
  split; [reflexivity |]. split; [reflexivity |].
  assert (Hlen : length (seqZ (next_handle w12)
                             (Z.of_nat (length (drv_swapchainImages d))))
                 = length (drv_swapchainImages d))
    by (rewrite length_seqZ; lia).
  exists (next_handle w12), (next_handle w14), (n0 ++ before).
  eexists. exists n1.
  split; [reflexivity |].
  split; [simpl; do 2 f_equal; exact Hlen |].
  rewrite Hn1, Hfb, Hrp, Hviews, Hdb, Hsc, Hn0.
  apply initialize_trace_assoc.
Qed.

End Created.

(** ** The device half of [initialize] *)

Section Device.

Variable d : Driver.
Variable DEBUG : bool.

Lemma initializeInstance_shape (name : string) (app app' : VulkanAppBase) (w w' : World) :
  initializeInstance d DEBUG name app w = Ok app' w' ->
  exists h, app' = set_m_instance h app.
Proof.
  intros H. unfold initializeInstance in H.
  bind_inv H as r1 w1 H1. bind_inv H as r2 w2 H2. bind_inv H as [r h] w3 H3.
  check_inv H. unfold ret in H. inversion H. exists h. reflexivity.
Qed.

Lemma selectPhysicalDevice_shape (app app' : VulkanAppBase) (w w' : World) :
  selectPhysicalDevice d app w = Ok app' w' ->
  exists p rest,
    drv_physDevs d = p :: rest /\
    app' = set_m_physMemProps (drv_memProps d) (set_m_physDev p app).
Proof.
  intros H. unfold selectPhysicalDevice in H.
  bind_inv H as r1 w1 H1. bind_inv H as r2 w2 H2. bind_inv H as p w3 H3.
  bind_inv H as uq w4 H4. unfold ret in H. inversion H.
  unfold at_index in H3.
  destruct (drv_physDevs d) as [| p0 rest]; [discriminate H3 |].
  cbn in H3. inversion H3. subst. exists p, rest. split; reflexivity.
Qed.

Lemma searchGraphicsQueueIndex_value (app : VulkanAppBase) (q : Z) (w w' : World) :
  searchGraphicsQueueIndex d app w = Ok q w' ->
  q = searchGraphicsQueueIndex_loop (drv_queueFamilies d) 0.
Proof.
  intros H. unfold searchGraphicsQueueIndex in H.
  bind_inv H as u1 w1 H1. bind_inv H as u2 w2 H2.
  unfold ret in H. inversion H. reflexivity.
Qed.

Lemma enableDebugReport_shape (app app' : VulkanAppBase) (w w' : World) :
  (if DEBUG then enableDebugReport d app else ret app) w = Ok app' w' ->
  exists p1 p2 p3 h,
    app' = set_m_debugReport h
             (set_m_vkDestroyDebugReportCallbackEXT p3
                (set_m_vkDebugReportMessageEXT p2
                   (set_m_vkCreateDebugReportCallbackEXT p1 app))).
Proof.
  intros H. destruct DEBUG.
  - unfold enableDebugReport in H.
    bind_inv H as p1 w1 H1. bind_inv H as p2 w2 H2. bind_inv H as p3 w3 H3.
    cbv zeta in H.
    match type of H with
    | context [if ?c then _ else _] => destruct c; [discriminate H |]
    end.
    bind_inv H as [r h] w4 H4. unfold ret in H. inversion H.
    do 4 eexists. reflexivity.
  - unfold ret in H. inversion H. subst app'.
    exists (m_vkCreateDebugReportCallbackEXT app), (m_vkDebugReportMessageEXT app),
      (m_vkDestroyDebugReportCallbackEXT app), (m_debugReport app).
    reflexivity.
Qed.

Lemma createDevice_exact (app app' : VulkanAppBase) (w w' : World) :
  createDevice d app w = Ok app' w' ->
  exists h before,
    app' = set_m_deviceQueue (drv_deviceQueue d) (set_m_device h app) /\
    trace w' = trace w ++ before ++
      [Call vkCreateDevice
            [m_physDev app; m_graphicsQueueIndex app; 1;
             uint32_t (zlength (drv_deviceExtensions d))]
            (Some VK_SUCCESS) [h];
       Call vkGetDeviceQueue [h; m_graphicsQueueIndex app; 0] None
            [drv_deviceQueue d]].
Proof.
  intros H. unfold createDevice in H.
  bind_inv H as r1 w1 H1. bind_inv H as r2 w2 H2. bind_inv H as [r h] w3 H3.
  check_inv H. bind_inv H as uq w4 H4. unfold ret in H. inversion H. subst app' w4.
  apply vk_create_Ok_success in H3 as (-> & ->); [| reflexivity].
  unfold vk_void, emit in H4. inversion H4. subst w'.
  unfold vk_call in H1, H2. inversion H1. inversion H2. subst.
  eexists. eexists [_; _]. split; [reflexivity |].
  unfold log. cbn [trace next_handle signaled].
  rewrite <- !app_assoc. reflexivity.
Qed.

Lemma prepareCommandPool_exact (app app' : VulkanAppBase) (w w' : World) :
  prepareCommandPool d app w = Ok app' w' ->
  app' = set_m_commandPool (next_handle w) app /\
  trace w' = trace w ++
    [Call vkCreateCommandPool
          [m_device app; m_graphicsQueueIndex app;
           VK_COMMAND_POOL_CREATE_RESET_COMMAND_BUFFER_BIT]
          (Some VK_SUCCESS) [next_handle w]].
Proof.
  intros H. unfold prepareCommandPool in H.
  bind_inv H as [r h] w1 H1. check_inv H.
  apply vk_create_Ok_success in H1 as (-> & ->); [| reflexivity].
  unfold ret in H. inversion H. split; reflexivity.
Qed.

Lemma selectSurfaceFormat_shape (format0 : Z) (app app' : VulkanAppBase) (w w' : World) :
  selectSurfaceFormat d format0 app w = Ok app' w' ->
  app' = set_m_surfaceFormat
           (match find (matches format0) (rev (drv_surfaceFormats d)) with
            | Some f => f
            | None => m_surfaceFormat app
            end) app.
Proof.
  intros H. unfold selectSurfaceFormat in H.
  bind_inv H as r1 w1 H1. bind_inv H as r2 w2 H2. unfold ret in H. inversion H.
  rewrite selectSurfaceFormat_loop_last.
  destruct (find (matches format0) (rev (drv_surfaceFormats d))); reflexivity.
Qed.

End Device.

Section InitializedDevice.

Variable d : Driver.
Variable DEBUG : bool.

Lemma initialize_trace_device {A : Type} (t n0 before n1 : list A) (e1 e2 e3 : A) :
  drop (length t) ((((t ++ n0) ++ before ++ [e1; e2]) ++ [e3]) ++ n1)
  = (n0 ++ before) ++ [e1; e2; e3] ++ n1.
Proof.
  rewrite <- !app_assoc, drop_app_length. reflexivity.
Qed.

(** What [initialize] has set up before the surface, when it returns, and
    what it has left as it was. *)
Lemma initialize_Ok_device (window : Handle) (name : string)
  (app app' : VulkanAppBase) (w w' : World) :
  initialize d DEBUG window name app w = Ok app' w' ->
  (exists rest, drv_physDevs d = m_physDev app' :: rest) /\
  m_physMemProps app' = drv_memProps d /\
  m_graphicsQueueIndex app' = searchGraphicsQueueIndex_loop (drv_queueFamilies d) 0 /\
  m_deviceQueue app' = drv_deviceQueue d /\
  m_presentMode app' = m_presentMode app /\
  m_imageIndex app' = m_imageIndex app /\
  m_surfaceFormat app' =
    last_match VK_FORMAT_B8G8R8A8_UNORM (drv_surfaceFormats d) (m_surfaceFormat app) /\
  exists before after,
    new_events (initialize d DEBUG window name app) w =
      before
      ++ [vkCreateDevice_event d app'; vkGetDeviceQueue_event app';
          vkCreateCommandPool_event app']
      ++ after.
Proof.
  intros H.
  assert (Hnew : new_events (initialize d DEBUG window name app) w
                 = drop (length (trace w)) (trace w'))
    by (unfold new_events; rewrite H; reflexivity).
  rewrite Hnew. clear Hnew.
  pose proof (extends_refl w) as Hpre.
  unfold initialize in H.
  step H with Hpre as app1 w1 H1. step H with Hpre as app2 w2 H2.
  step H with Hpre as q w3 H3. step H with Hpre as app3 w4 H4.
  bind_inv H as app4 w5 H5. bind_inv H as app5 w6 H6.
  pose proof (extends_refl w6) as Hpost.
  step H with Hpost as [r7 h7] w7 H7. step H with Hpost as app6 w8 H8.
  step H with Hpost as r9 w9 H9. step H with Hpost as r10 w10 H10.
  step H with Hpost as app7 w11 Hsc. step H with Hpost as app8 w12 Hdb.
  step H with Hpost as app9 w13 Hviews. step H with Hpost as app10 w14 Hrp.
  step H with Hpost as app11 w15 Hfb. step H with Hpost as app12 w16 Hcb.
  step H with Hpost as app13 w17 H17. step H with Hpost as u w18 H18.
  unfold ret in H. inversion H. subst app13 w18. clear H.
  apply initializeInstance_shape in H1 as (hi & ->).
  apply selectPhysicalDevice_shape in H2 as (p & rest & Hphys & ->).
  apply searchGraphicsQueueIndex_value in H3 as ->.
  apply enableDebugReport_shape in H4 as (p1 & p2 & p3 & hd & ->).
  apply createDevice_exact in H5 as (hdev & bcd & -> & Hcd).
  apply prepareCommandPool_exact in H6 as (-> & Hcp).
  apply selectSurfaceFormat_shape in H8 as ->.
  apply createSwapchain_exact in Hsc as (extent & bsc & -> & _).
  apply createDepthBuffer_exact in Hdb as (mem & rdb & -> & _).
  apply createViews_exact in Hviews as (-> & _).
  apply createRenderPass_exact in Hrp as (-> & _).
  apply createFramebuffer_exact in Hfb as (-> & _).
  apply prepareCommandBuffers_Ok in Hcb as (commands & fences & -> & _).
  apply prepareSemaphores_Ok in H17 as (s1 & s2 & -> & _).
  destruct Hpre as [n0 Hn0]. destruct Hpost as [n1 Hn1].
  split; [exists rest; exact Hphys |].
  do 6 (split; [reflexivity |]).
  exists (n0 ++ bcd), n1.
  rewrite Hn1, Hcp, Hcd, Hn0.
  apply initialize_trace_device.
Qed.

End InitializedDevice.

(** ** The objects of [initialize] and the members that describe them *)

(** X11: when [initialize] returns, there are as many colour views as
    swapchain images and as many framebuffers as views; the swapchain, the
    depth image, the colour views, the depth view, the render pass and the
    framebuffers have been created in this order, each with success, and the
    members of the object are the handles and the parameters of these very
    calls: the
    swapchain in [m_swapchain] has the format and colour space of
    [m_surfaceFormat], the extent [m_swapchainExtent] and the present mode
    [m_presentMode]; the depth image has the same extent; the colour views
    and the colour attachment of the render pass have the same format. *)
Theorem initialize_creation_order (d : Driver) (DEBUG : bool) (window : Handle)
  (name : string) (app app' : VulkanAppBase) (w w' : World) :
  initialize d DEBUG window name app w = Ok app' w' ->
  length (m_swapchainViews app') = length (m_swapchainImages app') /\
  length (m_framebuffers app') = length (m_swapchainViews app') /\
  exists before between after,
    new_events (initialize d DEBUG window name app) w =
      before ++
      [Call vkCreateSwapchainKHR
            (vkCreateSwapchainKHR_args app' (m_swapchainExtent app'))
            (Some VK_SUCCESS) [m_swapchain app'];
       Call vkCreateImage (vkCreateImage_args app') (Some VK_SUCCESS) [m_depthBuffer app']]
      ++ between
      ++ zip_with (vkCreateImageView_event app') (m_swapchainImages app')
                  (m_swapchainViews app')
      ++ [depth_view_event app'; vkCreateRenderPass_event app']
      ++ zip_with (vkCreateFramebuffer_event app') (m_swapchainViews app')
                  (m_framebuffers app')
      ++ after.
Proof.
  intros H.
  destruct (initialize_Ok_created d DEBUG window name app app' w w' H)
    as (_ & Himg & hv & hf & before & between & after & Hv & Hf & Htr).
  split; [rewrite Hv, Himg, length_seqZ; lia |].
  split; [rewrite Hf, Hv, !length_seqZ; lia |].
  exists before, between, after. exact Htr.
Qed.

Lemma initialize_creation_order_witness :
  initialize drv_ok false 77 "SimpleTriangle" (VulkanAppBase_ctor zero_app) w0
    = Ok app_ready w_ready /\
  length (m_framebuffers app_ready) = length (m_swapchainImages app_ready) /\
  exists before between after,
    new_events (initialize drv_ok false 77 "SimpleTriangle" (VulkanAppBase_ctor zero_app)) w0 =
      before ++
      [Call vkCreateSwapchainKHR
            (vkCreateSwapchainKHR_args app_ready (m_swapchainExtent app_ready))
            (Some VK_SUCCESS) [m_swapchain app_ready];
       Call vkCreateImage (vkCreateImage_args app_ready) (Some VK_SUCCESS)
            [m_depthBuffer app_ready]]
      ++ between ++ after.
Proof.
  assert (Hinit : initialize drv_ok false 77 "SimpleTriangle"
                             (VulkanAppBase_ctor zero_app) w0 = Ok app_ready w_ready)
    by (vm_compute; reflexivity).
  split; [exact Hinit |].
  destruct (initialize_creation_order drv_ok false 77 "SimpleTriangle"
              (VulkanAppBase_ctor zero_app) app_ready w0 w_ready Hinit)
    as (Hviews & Hfbs & before & between & after & Htr).
  split; [rewrite Hfbs; exact Hviews |].
  exists before, between. eexists. exact Htr.
Defined.

(** X12: when [initialize] returns, the per-image vectors line up: there is
    one colour view and one framebuffer per image the swapchain returned, and
    for every index [i], view [i] was created on image [i] with the surface
    format, and framebuffer [i] was created on view [i] and the depth view,
    for the render pass in [m_renderPass] and with the swapchain extent. *)
Theorem initialize_per_image (d : Driver) (DEBUG : bool) (window : Handle)
  (name : string) (app app' : VulkanAppBase) (w w' : World) :
  initialize d DEBUG window name app w = Ok app' w' ->
  let new := new_events (initialize d DEBUG window name app) w in
  m_swapchainImages app' = drv_swapchainImages d /\
  length (m_swapchainViews app') = length (m_swapchainImages app') /\
  length (m_framebuffers app') = length (m_swapchainImages app') /\
  forall (i : nat) (image : Handle),
    m_swapchainImages app' !! i = Some image ->
    exists view framebuffer,
      m_swapchainViews app' !! i = Some view /\
      m_framebuffers app' !! i = Some framebuffer /\
      In (vkCreateImageView_event app' image view) new /\
      In (vkCreateFramebuffer_event app' view framebuffer) new.
Proof.
  intros H new.
  destruct (initialize_Ok_created d DEBUG window name app app' w w' H)
    as (_ & Himg & hv & hf & before & between & after & Hv & Hf & Htr).
  unfold new. rewrite Htr. clear Htr new. rewrite Himg, Hv, Hf.
  split; [reflexivity |].
  split; [rewrite length_seqZ; lia |]. split; [rewrite length_seqZ; lia |].
  intros i image Hi.
  destruct (In_zip_with_seqZ (vkCreateImageView_event app') (drv_swapchainImages d)
              hv i image Hi) as (Hview & Hin1).
  destruct (In_zip_with_seqZ (vkCreateFramebuffer_event app')
              (seqZ hv (Z.of_nat (length (drv_swapchainImages d))))
              hf i (hv + Z.of_nat i) Hview) as (Hfb & Hin2).
  rewrite length_seqZ, Nat2Z.id in Hfb, Hin2.
  exists (hv + Z.of_nat i), (hf + Z.of_nat i).
  split; [exact Hview |]. split; [exact Hfb |].
  rewrite !in_app_iff. split.
  - right. right. right. left. exact Hin1.
  - right. right. right. right. right. left. exact Hin2.
Qed.

Lemma initialize_per_image_witness :
  initialize drv_three_images false 77 "SimpleTriangle" (VulkanAppBase_ctor zero_app) w0
    = Ok app_three_images w_three_images /\
  length (m_framebuffers app_three_images) = 3%nat.
Proof.
  assert (Hinit : initialize drv_three_images false 77 "SimpleTriangle"
                             (VulkanAppBase_ctor zero_app) w0
                  = Ok app_three_images w_three_images)
    by (vm_compute; reflexivity).
  split; [exact Hinit |].
  destruct (initialize_per_image drv_three_images false 77 "SimpleTriangle"
              (VulkanAppBase_ctor zero_app) app_three_images w0 w_three_images Hinit)
    as (Himg & _ & Hlen & _).
  rewrite Hlen, Himg. reflexivity.
Defined.

(** X13: [initialize] does not look at what [searchGraphicsQueueIndex]
    returned.  When it returns, the physical device is the first one
    enumerated, and the logical device, its queue and the command pool have
    all been created for the queue family index in [m_graphicsQueueIndex],
    which is the index of the first family with graphics support and the
    sentinel 0xFFFFFFFF when the device has none. *)
Theorem initialize_queue_family (d : Driver) (DEBUG : bool) (window : Handle)
  (name : string) (app app' : VulkanAppBase) (w w' : World) :
  initialize d DEBUG window name app w = Ok app' w' ->
  (exists rest, drv_physDevs d = m_physDev app' :: rest) /\
  m_deviceQueue app' = drv_deviceQueue d /\
  m_graphicsQueueIndex app' = searchGraphicsQueueIndex_loop (drv_queueFamilies d) 0 /\
  ((forall flags, In flags (drv_queueFamilies d) -> ~ has_graphics flags) ->
   m_graphicsQueueIndex app' = UINT32_NOT0) /\
  exists before after,
    new_events (initialize d DEBUG window name app) w =
      before
      ++ [vkCreateDevice_event d app'; vkGetDeviceQueue_event app';
          vkCreateCommandPool_event app']
      ++ after.
Proof.
  intros H.
  destruct (initialize_Ok_device d DEBUG window name app app' w w' H)
    as (Hphys & _ & Hq & Hdq & _ & _ & _ & Htr).
  split; [exact Hphys |]. split; [exact Hdq |]. split; [exact Hq |].
  split; [| exact Htr].
  intros Hnone. rewrite Hq.
  destruct (searchGraphicsQueueIndex_loop_spec (drv_queueFamilies d) 0)
    as [(k & flags & _ & Hk & Hg & _) | (Hr & _)]; [| exact Hr].
  exfalso. apply (Hnone flags); [| exact Hg].
  apply list_elem_of_In, list_elem_of_lookup. exists k. exact Hk.
Qed.

Lemma initialize_queue_family_witness :
  exists app' w',
    initialize drv_no_graphics false 77 "SimpleTriangle" (VulkanAppBase_ctor zero_app) w0
      = Ok app' w' /\
    m_graphicsQueueIndex app' = 4294967295.
Proof.
  destruct (initialize drv_no_graphics false 77 "SimpleTriangle"
              (VulkanAppBase_ctor zero_app) w0) as [app' w' | w' | w'] eqn:Hrun;
    [| vm_compute in Hrun; discriminate Hrun ..].
  exists app', w'. split; [reflexivity |].
  destruct (initialize_queue_family drv_no_graphics false 77 "SimpleTriangle"
              (VulkanAppBase_ctor zero_app) app' w0 w' Hrun)
    as (_ & _ & Hq & _).
  rewrite Hq. reflexivity.
Defined.

(** X14: the swapchain of the program.  [initialize] on a freshly constructed
    object never changes the present mode the constructor chose, so the
    swapchain is created with FIFO presentation; it asks for max(2, minimum
    image count) images of the last enumerated B8G8R8A8_UNORM surface format
    (of whatever the uninitialised member held, when the surface offers no
    such format), as colour attachments, exclusive to one queue family, with
    the current transform, opaque, clipped, and without an old swapchain. *)
Theorem initialize_swapchain_parameters (d : Driver) (DEBUG : bool) (window : Handle)
  (name : string) (indeterminate app' : VulkanAppBase) (w w' : World) :
  initialize d DEBUG window name (VulkanAppBase_ctor indeterminate) w = Ok app' w' ->
  let surfaceFormat :=
    last_match VK_FORMAT_B8G8R8A8_UNORM (drv_surfaceFormats d)
               (m_surfaceFormat indeterminate) in
  m_presentMode app' = VK_PRESENT_MODE_FIFO_KHR /\
  m_imageIndex app' = 0 /\
  m_surfaceFormat app' = surfaceFormat /\
  m_surfaceCaps app' = drv_surfaceCaps d /\
  In (Call vkCreateSwapchainKHR
           [m_device app'; m_surface app';
            Z.max 2 (minImageCount (drv_surfaceCaps d));
            format surfaceFormat; colorSpace surfaceFormat;
            width (m_swapchainExtent app'); height (m_swapchainExtent app');
            VK_IMAGE_USAGE_COLOR_ATTACHMENT_BIT;
            currentTransform (drv_surfaceCaps d); 1;
            VK_SHARING_MODE_EXCLUSIVE; 0; VK_PRESENT_MODE_FIFO_KHR;
            VK_NULL_HANDLE; VK_TRUE; VK_COMPOSITE_ALPHA_OPAQUE_BIT_KHR]
           (Some VK_SUCCESS) [m_swapchain app'])
     (new_events (initialize d DEBUG window name (VulkanAppBase_ctor indeterminate)) w).
Proof.
  intros H surfaceFormat.
  destruct (initialize_Ok_device d DEBUG window name _ app' w w' H)
    as (_ & _ & _ & _ & Hpm & Hii & Hsf & _).
  destruct (initialize_Ok_created d DEBUG window name _ app' w w' H)
    as (Hcaps & _ & hv & hf & before & between & after & _ & _ & Htr).
  change (m_presentMode (VulkanAppBase_ctor indeterminate))
    with VK_PRESENT_MODE_FIFO_KHR in Hpm.
  change (m_imageIndex (VulkanAppBase_ctor indeterminate)) with 0 in Hii.
  change (m_surfaceFormat (VulkanAppBase_ctor indeterminate))
    with (m_surfaceFormat indeterminate) in Hsf.
  fold surfaceFormat in Hsf.
  split; [exact Hpm |]. split; [exact Hii |]. split; [exact Hsf |].
  split; [exact Hcaps |].
  rewrite Htr. apply in_or_app. right. left.
  unfold vkCreateSwapchainKHR_args. rewrite Hcaps, Hsf, Hpm. reflexivity.
Qed.

Lemma initialize_swapchain_parameters_witness :
  initialize drv_ok false 77 "SimpleTriangle" (VulkanAppBase_ctor zero_app) w0
    = Ok app_ready w_ready /\
  m_presentMode app_ready = VK_PRESENT_MODE_FIFO_KHR /\
  m_surfaceFormat app_ready = mkSurfaceFormat VK_FORMAT_B8G8R8A8_UNORM 0.
Proof.
  assert (Hinit : initialize drv_ok false 77 "SimpleTriangle"
                             (VulkanAppBase_ctor zero_app) w0 = Ok app_ready w_ready)
    by (vm_compute; reflexivity).
  split; [exact Hinit |].
  destruct (initialize_swapchain_parameters drv_ok false 77 "SimpleTriangle"
              zero_app app_ready w0 w_ready Hinit) as (Hpm & _ & Hsf & _).
  split; [exact Hpm |]. rewrite Hsf. reflexivity.
Defined.

(** ** The debug report callback *)

(** X15: [enableDebugReport] looks up its three entry points and calls the
    first through the pointer it got, without looking at the pointer: when
    the instance does not know [vkCreateDebugReportCallbackEXT], the call
    through the null pointer is undefined behaviour and nothing is
    registered.  Otherwise the registration is asked for, for errors and
    warnings, and its result is not checked: the function returns whatever
    the result is.  After a successful registration [m_debugReport] is the
    handle that the call wrote. *)
Theorem enableDebugReport_unchecked_pointer (d : Driver) (app : VulkanAppBase)
  (w : World) :
  let lookups := GetInstanceProcAddr_events d app in
  if drv_procAddr d "vkCreateDebugReportCallbackEXT" =? 0
  then enableDebugReport d app w = Undefined (log lookups w)
  else
    exists r h outs w',
      enableDebugReport d app w = Ok (set_m_debugReport h (with_debug_pointers d app)) w' /\
      trace w' = trace w ++ lookups ++
        [Call vkCreateDebugReportCallbackEXT
              [m_instance app;
               Z.lor VK_DEBUG_REPORT_ERROR_BIT_EXT VK_DEBUG_REPORT_WARNING_BIT_EXT]
              (Some r) outs] /\
      (r = VK_SUCCESS -> outs = [h]).
Proof.
  intros lookups. unfold lookups, GetInstanceProcAddr_events, with_debug_pointers.
  unfold enableDebugReport, GetInstanceProcAddr, bind, vk_void, emit, ret, undefined.
  cbn [map world_of m_vkCreateDebugReportCallbackEXT
       set_m_vkCreateDebugReportCallbackEXT set_m_vkDebugReportMessageEXT
       set_m_vkDestroyDebugReportCallbackEXT m_instance m_debugReport].
  destruct (drv_procAddr d "vkCreateDebugReportCallbackEXT" =? 0) eqn:Hp.
  - rewrite !log_log. reflexivity.
  - unfold vk_create. rewrite !log_log. cbn [trace next_handle signaled log].
    match goal with
    | |- context [drv_result d ?tr vkCreateDebugReportCallbackEXT] =>
        exists (drv_result d tr vkCreateDebugReportCallbackEXT);
        destruct (Z.eqb_spec (drv_result d tr vkCreateDebugReportCallbackEXT)
                             VK_SUCCESS) as [Hr | Hr]
    end.
    + do 3 eexists. split; [reflexivity |].
      cbn [trace]. rewrite <- !app_assoc. split; [reflexivity |].
      intros _. reflexivity.
    + do 3 eexists. split; [reflexivity |].
      unfold log. cbn [trace]. rewrite <- !app_assoc. split; [reflexivity |].
      intros Hc. contradiction.
Qed.

(** ** What a whole run leaves behind *)

Lemma outstanding_snoc (tr : list Event) (e : Event) :
  outstanding (tr ++ [e]) = list_difference (outstanding tr ++ acquired e) (released e).
Proof. unfold outstanding. rewrite fold_left_app. reflexivity. Qed.

(** A handle that some event of the trace brings into existence and that no
    event of the trace releases is outstanding at the end. *)
Lemma In_outstanding (x : Resource * Handle) (tr : list Event) :
  (exists e, In e tr /\ In x (acquired e)) ->
  (forall e, In e tr -> ~ In x (released e)) ->
  In x (outstanding tr).
Proof.
  induction tr as [| e tr IH] using rev_ind; intros (e0 & Hin & Hacq) Hrel.
  - destruct Hin.
  - rewrite outstanding_snoc.
    apply list_elem_of_In, list_elem_of_difference. split.
    + apply list_elem_of_In, in_or_app.
      apply in_app_or in Hin as [Hin | [<- | []]].
      * left. apply IH.
        -- exists e0. split; assumption.
        -- intros e' He'. apply Hrel, in_or_app. left. exact He'.
      * right. exact Hacq.
    + rewrite list_elem_of_In. apply Hrel, in_or_app. right. left. reflexivity.
Qed.

(** No entry point the program calls gives back an image, device memory or
    an image view. *)
Lemma released_kinds (e : Event) (k : Resource) (h : Handle) :
  In (k, h) (released e) -> k <> RImage /\ k <> RImageView /\ k <> RDeviceMemory.
Proof.
  destruct e as [f args res outs | hk args | fence |]; simpl; try tauto.
  destruct res; [simpl; tauto |].
  destruct f; simpl; try tauto; intros Hin;
    apply in_map_iff in Hin as (x & Heq & _); inversion Heq;
    repeat split; discriminate.
Qed.

Lemma In_zip_with_seqZ_r {A} (f : A -> Z -> Event) (l : list A) (h v : Z) :
  In v (seqZ h (Z.of_nat (length l))) ->
  exists x, In (f x v) (zip_with f l (seqZ h (Z.of_nat (length l)))).
Proof.
  intros Hv. apply list_elem_of_In, list_elem_of_lookup in Hv as (i & Hi).
  assert (Hlt : (i < length l)%nat).
  { apply lookup_lt_Some in Hi. rewrite length_seqZ in Hi. lia. }
  destruct (lookup_lt_is_Some_2 l i Hlt) as (x & Hx).
  destruct (In_zip_with_seqZ f l h i x Hx) as (Hh & Hin).
  assert (Hveq : v = h + Z.of_nat i) by congruence.
  exists x. rewrite Hveq. exact Hin.
Qed.

(** X16: whatever the driver answers and however many frames are drawn, a run
    of the program that reaches its end leaves the depth image, the view of
    the depth image and the colour view of every swapchain image
    outstanding: they were created by [initialize], and neither [render] nor
    [terminate] gives them back.  There are as many colour views as images
    the swapchain returned. *)
Theorem run_leaves_depth_image_and_views (d : Driver) (DEBUG : bool) (window : Handle)
  (frames : nat) (indeterminate app' : VulkanAppBase) (w w' : World) :
  wWinMain d DEBUG window frames indeterminate w = Ok app' w' ->
  let left := outstanding (new_events (wWinMain d DEBUG window frames indeterminate) w) in
  In (RImage, m_depthBuffer app') left /\
  In (RImageView, m_depthBufferView app') left /\
  length (m_swapchainViews app') = length (drv_swapchainImages d) /\
  forall view, In view (m_swapchainViews app') -> In (RImageView, view) left.
Proof.
  intros H left.
  assert (Hnew : new_events (wWinMain d DEBUG window frames indeterminate) w
                 = drop (length (trace w)) (trace w'))
    by (unfold new_events; rewrite H; reflexivity).
  unfold left. rewrite Hnew. clear Hnew left. unfold wWinMain in H. cbv zeta in H.
  bind_inv H as app1 w1 Hinit. bind_inv H as app2 w2 Hloop.
  destruct (initialize_Ok_created d DEBUG window "SimpleTriangle" _ app1 w w1 Hinit)
    as (_ & Himg & hv & hf & before & between & after & Hv & Hf & Hcreated).
  destruct (guarded_extends _ _ _ _
              (guarded_initialize d DEBUG window "SimpleTriangle"
                 (VulkanAppBase_ctor indeterminate)) Hinit) as [new1 Htr1].
  rewrite (new_events_eq _ _ new1 ltac:(rewrite Hinit; exact Htr1)) in Hcreated.
  destruct (render_loop_Ok_inv d frames app1 app2 w1 w2 Hloop)
    as (Happ2 & _ & new2 & Htr2 & _).
  rewrite terminate_run in H. inversion H. subst app' w'. clear H.
  generalize (drv_result d (trace w2) vkDeviceWaitIdle). intros r.
  unfold log. cbn [trace]. rewrite Htr2, Htr1, <- !app_assoc, drop_app_length.
  assert (Hin1 : forall e, In e new1 ->
            In e (new1 ++ new2 ++ terminate_events DEBUG app2 r))
    by (intros e He; apply in_or_app; left; exact He).
  assert (Hkept : forall (k : Resource) (h : Handle) (e : Event),
            k = RImage \/ k = RImageView -> ~ In (k, h) (released e)).
  { intros k h e Hk Hrel. apply released_kinds in Hrel as (Hi & Hiv & _).
    destruct Hk; contradiction. }
  assert (Hd : m_depthBuffer (terminated app2) = m_depthBuffer app1)
    by (rewrite Happ2; reflexivity).
  assert (Hdv : m_depthBufferView (terminated app2) = m_depthBufferView app1)
    by (rewrite Happ2; reflexivity).
  assert (Hvs : m_swapchainViews (terminated app2) = m_swapchainViews app1)
    by (rewrite Happ2; reflexivity).
  rewrite Hd, Hdv, Hvs. clear Hd Hdv Hvs Happ2.
  split; [| split; [| split]].
  - apply In_outstanding; [| intros e _; apply Hkept; left; reflexivity].
    eexists. split; [apply Hin1; rewrite Hcreated |].
    + apply in_or_app. right. right. left. reflexivity.
    + left. reflexivity.
  - apply In_outstanding; [| intros e _; apply Hkept; right; reflexivity].
    exists (depth_view_event app1). split; [apply Hin1; rewrite Hcreated |].
    + rewrite !in_app_iff. right. right. right. right. left. left. reflexivity.
    + left. reflexivity.
  - rewrite Hv, length_seqZ. lia.
  - intros view Hview.
    apply In_outstanding; [| intros e _; apply Hkept; right; reflexivity].
    rewrite Hv in Hview.
    destruct (In_zip_with_seqZ_r (vkCreateImageView_event app1) (drv_swapchainImages d)
                hv view Hview) as (image & Hin).
    exists (vkCreateImageView_event app1 image view).
    split; [apply Hin1; rewrite Hcreated | left; reflexivity].
    rewrite Himg, Hv, !in_app_iff. right. right. right. left. exact Hin.
Qed.

Lemma run_leaves_depth_image_and_views_witness :
  exists app' w',
    wWinMain drv_three_images false 77 2 zero_app w0 = Ok app' w' /\
    length (m_swapchainViews app') = 3%nat /\
    In (RImage, m_depthBuffer app')
       (outstanding (new_events (wWinMain drv_three_images false 77 2 zero_app) w0)).
Proof.
  destruct (wWinMain drv_three_images false 77 2 zero_app w0)
    as [app' w' | w' | w'] eqn:Hrun; [| vm_compute in Hrun; discriminate Hrun ..].
  destruct (run_leaves_depth_image_and_views drv_three_images false 77 2 zero_app
              app' w0 w' Hrun) as (Hd & _ & Hlen & _).
  exists app', w'. split; [reflexivity |]. split; [exact Hlen | exact Hd].
Defined.

(** ** Image indices in the frame loop *)

Lemma lookup_in_range {A} (l : list A) (i : Z) :
  0 <= i < zlength l -> exists x, l !! Z.to_nat i = Some x.
Proof.
  unfold zlength. intros Hi. apply lookup_lt_is_Some_2. lia.
Qed.

Lemma frame_events_below (n : Z) (app : VulkanAppBase) i fence fb cmd ready
  r1 r2 r3 r4 r5 r6 r7 :
  0 <= i < n ->
  Forall (acquires_below n) (frame_events app i fence fb cmd ready r1 r2 r3 r4 r5 r6 r7).
Proof.
  intros Hi. unfold frame_events. apply Forall_app. split.
  - constructor; [| constructor]. exists i. split; [reflexivity | exact Hi].
  - destruct ready; cbn [List.app]; repeat (constructor; [exact I |]); constructor.
Qed.

(** With indices inside the three vectors, every frame of the loop reads
    inside them. *)
Lemma render_loop_in_range (d : Driver) (frames : nat) :
  forall (app : VulkanAppBase) (w : World),
    (forall tr, 0 <= drv_acquire d tr < zlength (m_fences app)) ->
    length (m_framebuffers app) = length (m_fences app) ->
    length (m_commands app) = length (m_fences app) ->
    exists app' w' new,
      render_loop d frames app w = Ok app' w' /\
      trace w' = trace w ++ new /\
      Forall (acquires_below (zlength (m_fences app))) new.
Proof.
  induction frames as [| n IH]; intros app w Hi Hfb Hc.
  - exists app, w, []. split; [reflexivity |]. split; [| constructor].
    symmetry. apply app_nil_r.
  - cbn [render_loop]. unfold bind.
    destruct (lookup_in_range (m_fences app) _ (Hi (trace w))) as (fence & Hfence).
    destruct (lookup_in_range (m_framebuffers app) (drv_acquire d (trace w)))
      as (fb & Hfbi); [unfold zlength in *; rewrite Hfb; apply Hi |].
    destruct (lookup_in_range (m_commands app) (drv_acquire d (trace w)))
      as (cmd & Hcmd); [unfold zlength in *; rewrite Hc; apply Hi |].
    destruct (render_run d app w fence fb cmd (proj1 (Hi (trace w))) Hfence Hfbi Hcmd)
      as (r1 & r2 & r3 & r4 & r5 & r6 & r7 & w1 & Hrun & Htr1 & _).
    rewrite Hrun.
    destruct (IH (set_m_imageIndex (drv_acquire d (trace w)) app) w1 Hi Hfb Hc)
      as (app' & w' & new & Hloop & Htr & Hbelow).
    exists app', w'. eexists. split; [exact Hloop |].
    split; [rewrite Htr, Htr1, <- app_assoc; reflexivity |].
    apply Forall_app. split; [| exact Hbelow].
    apply frame_events_below, Hi.
Qed.

(** X17: once [initialize] has returned, no frame of the loop reads outside a
    vector or reaches [DebugBreak], whatever result codes the driver returns,
    as long as the driver hands out image indices of the swapchain and the
    swapchain has fewer than 2^32 images: there are as many fences,
    framebuffers and command buffers as images, every acquired index is below
    that number, and the loop neither runs into undefined behaviour nor
    traps.  This is about what the loop does, not about whether it gets to
    the end: a wait on a fence that is never signaled, as after a failed
    submission, keeps the thread suspended. *)
Theorem frame_loop_in_range (d : Driver) (DEBUG : bool) (window : Handle) (frames : nat)
  (indeterminate app1 : VulkanAppBase) (w w1 : World) :
  initialize d DEBUG window "SimpleTriangle" (VulkanAppBase_ctor indeterminate) w
    = Ok app1 w1 ->
  zlength (drv_swapchainImages d) < UINT32_MOD ->
  (forall tr, 0 <= drv_acquire d tr < zlength (drv_swapchainImages d)) ->
  let n := zlength (drv_swapchainImages d) in
  let loop := render_loop d frames app1 in
  zlength (m_fences app1) = n /\
  zlength (m_framebuffers app1) = n /\
  zlength (m_commands app1) = n /\
  Forall (acquires_below n) (new_events loop w1) /\
  ~ In DebugBreak (new_events loop w1) /\
  (forall w', loop w1 <> Undefined w') /\
  (forall w', loop w1 <> Trap w').
Proof.
  intros Hinit Hsmall Hrange n loop.
  destruct (initialize_Ok_inv d DEBUG window "SimpleTriangle" _ app1 w w1 Hinit)
    as (_ & Hviews & Hfbs & Hcmds & Hfences & _).
  assert (Hcount : Z.to_nat (uint32_t (zlength (m_swapchainViews app1)))
                   = length (drv_swapchainImages d)).
  { rewrite uint32_t_length; [exact Hviews |]. unfold zlength in *. rewrite Hviews.
    exact Hsmall. }
  rewrite Hcount in Hcmds, Hfences.
  assert (Hf : zlength (m_fences app1) = n) by (unfold n, zlength; rewrite Hfences; reflexivity).
  destruct (render_loop_in_range d frames app1 w1) as (app2 & w2 & new & Hloop & Htr & Hbelow).
  - intros tr. rewrite Hf. apply Hrange.
  - rewrite Hfbs, Hviews, Hfences. reflexivity.
  - rewrite Hcmds, Hfences. reflexivity.
  - pose proof (emits_new_events frame_event loop w1 (frame_render_loop d frames app1))
      as Hframe.
    assert (Hnew : new_events loop w1 = new)
      by (apply new_events_eq; unfold loop; rewrite Hloop; exact Htr).
    rewrite Hnew in *. rewrite Hf in Hbelow.
    split; [exact Hf |].
    split; [unfold n, zlength; rewrite Hfbs, Hviews; reflexivity |].
    split; [unfold n, zlength; rewrite Hcmds; reflexivity |].
    split; [exact Hbelow |].
    split; [| split; intros w' Hc; unfold loop in Hc; rewrite Hloop in Hc; discriminate Hc].
    intros Hin. rewrite Forall_forall in Hframe.
    apply list_elem_of_In, Hframe in Hin. discriminate Hin.
Qed.

Lemma frame_loop_in_range_witness :
  exists app1 w1,
    initialize drv_submit_lost false 77 "SimpleTriangle" (VulkanAppBase_ctor zero_app) w0
      = Ok app1 w1 /\
    zlength (m_fences app1) = 2 /\
    ~ In DebugBreak (new_events (render_loop drv_submit_lost 3 app1) w1).
Proof.
  destruct (initialize drv_submit_lost false 77 "SimpleTriangle"
              (VulkanAppBase_ctor zero_app) w0) as [app1 w1 | w1 | w1] eqn:Hinit;
    [| vm_compute in Hinit; discriminate Hinit ..].
  exists app1, w1. split; [reflexivity |].
  assert (Hsmall : zlength (drv_swapchainImages drv_submit_lost) < UINT32_MOD)
    by (vm_compute; reflexivity).
  assert (Hrange : forall tr,
             0 <= drv_acquire drv_submit_lost tr
               < zlength (drv_swapchainImages drv_submit_lost)).
  { intros tr. change (0 <= Z.of_nat (length tr) mod 2 < 2).
    apply Z.mod_pos_bound. lia. }
  destruct (frame_loop_in_range drv_submit_lost false 77 3 zero_app app1 w0 w1
              Hinit Hsmall Hrange) as (Hf & _ & _ & _ & Hnb & _).
  split; [exact Hf | exact Hnb].
Defined.
